(** * xk6-neofs: the native client (internal/native/client.go)

    A shallow embedding of the object transfer and preparation pipeline:
    [SetBufferSize], [Client.Put], [Client.Get], [Client.Onsite],
    [PreparedObject.Put], [put] and [parseNetworkInfo].

    Conventions of the embedding.
    - Go's [int] is the 64-bit signed integer of the targets k6 runs on and
      [uint64] the 64-bit unsigned one; both are [Z] with the wrap-around
      of a conversion written out ([to_int], [to_uint64]).
    - A Go [error] is identified with its [Error()] text; [nil] is [None].
    - A [panic] ends the call: the monad [M] carries it as an outcome.
    - [make] panics on a length that is negative or above the runtime's
      allocation limit [maxAlloc].  Within the limit an allocation is
      taken to succeed: running out of memory is no panic but the end of
      the process, and is outside the embedding.
    - The NeoFS SDK, neo-go's stack items, the hash functions, the clock
      and the k6 metrics sink are not part of this repository.  The pure
      ones and the remote store are fields of the record [SDK], over an
      arbitrary type [World] of store states; every call to the store, to
      the stream handles and to the metrics sink is also appended to a
      trace of [Event]s together with what it returned.
    - SDK values ([object.Object], [session.Object], [address.Address])
      are records of the fields their setters assign; a Go assignment of
      a token or an address ([tok := c.tok]) is a copy of the record.
      An [object.Object] holds its header by pointer, so [obj := p.hdr]
      shares the header with the prepared object: the section on the
      prepared object in memory keeps the headers in a heap, and
      [PreparedObject_Put_shared] is [PreparedObject.Put] over it.
    - A Go map argument is the list of its entries in the order in which
      the [range] statement visits them.
    - The two [for] loops run on fuel.  The loop of [put] consumes the
      payload, so [put] gives it the payload's length and never runs
      out; the loop of [Client.Get] lasts as long as the stream returns
      bytes, so [Client_Get] takes the fuel as an argument and
      [OutOfFuel] is the outcome of a run that is still reading. *)

From Stdlib Require Import ZArith List String Strings.Byte Bool Lia DecimalString.
Import ListNotations.
Local Open Scope string_scope.
Local Open Scope list_scope.
Local Open Scope Z_scope.

(** ** Machine integers and byte slices *)

Definition bytes := list byte.
Definition error := string.

Definition len {A : Type} (l : list A) : Z := Z.of_nat (List.length l).

(** The conversion [int(x)] of a 64-bit value. *)
Definition to_int (z : Z) : Z := (z + 2 ^ 63) mod 2 ^ 64 - 2 ^ 63.

(** The conversion [uint64(x)]. *)
Definition to_uint64 (z : Z) : Z := z mod 2 ^ 64.

(** The largest slice [make] attempts to allocate: [maxAlloc] of the Go
    runtime, 2^48 bytes where the heap has 48 address bits, as on every
    64-bit target but wasm and iOS. *)
Definition maxAlloc : Z := 2 ^ 48.

(** The lengths [make([]byte, n)] refuses with the panic
    "makeslice: len out of range". *)
Definition out_of_range (n : Z) : bool := (n <? 0) || (maxAlloc <? n).

Definition byte_val (b : byte) : Z := Z.of_N (Byte.to_N b).

(** [%d] of [fmt.Sprintf]. *)
Definition fmt_d (z : Z) : string := NilZero.string_of_int (Z.to_int z).

(** [copy(dst, src)]: the number of bytes copied is the smaller length. *)
Definition copy (dst src : bytes) : bytes * Z :=
  let n := Nat.min (List.length dst) (List.length src) in
  (firstn n src ++ skipn n dst, Z.of_nat n).

(** [binary.LittleEndian.Uint64] on a slice of at least eight bytes. *)
Fixpoint le_uint (bs : bytes) : Z :=
  match bs with
  | [] => 0
  | b :: r => Z.lor (byte_val b) (Z.shiftl (le_uint r) 8)
  end.

Definition LittleEndian_Uint64 (b : bytes) : Z := le_uint (firstn 8 b).

(** [bytes.Reader]: the slice and the read offset. *)
Record Reader := mkReader { r_s : bytes; r_i : Z }.

Definition NewReader (b : bytes) : Reader := mkReader b 0.
Definition Reader_Size (r : Reader) : Z := len (r_s r).

Definition io_EOF : error := "EOF".

(** [bytes.Reader.Read]: end of input gives [0, io.EOF]; otherwise the
    bytes from the offset are copied into [b] and the offset advances. *)
Definition Reader_Read (r : Reader) (b : bytes) : Reader * bytes * (Z * option error) :=
  if len (r_s r) <=? r_i r then (r, b, (0, Some io_EOF))
  else
    let '(b', n) := copy b (skipn (Z.to_nat (r_i r)) (r_s r)) in
    (mkReader (r_s r) (r_i r + n), b', (n, None)).

(** ** Values of the SDK *)

Definition ID := bytes.
Definition PrivateKey := bytes.
Definition Signature := bytes.

(** The zero value of [cid.ID] and [oid.ID], a [32]byte array. *)
Definition zero_ID : ID := repeat "000"%byte 32.

Inductive Verb := VerbObjectPut | VerbObjectGet.

Record Address := mkAddress { addr_cnr : option ID; addr_obj : option ID }.

Definition zero_Address : Address := mkAddress None None.
Definition Address_SetContainerID (c : ID) (a : Address) : Address :=
  mkAddress (Some c) (addr_obj a).
Definition Address_SetObjectID (o : ID) (a : Address) : Address :=
  mkAddress (addr_cnr a) (Some o).

(** [session.Object]: what the template carries besides the binding
    ([tok_body]: identifier, lifetime, issuer, session key), the verb, the
    target address and the signature. *)
Record Token := mkToken {
  tok_body : bytes;
  tok_verb : option Verb;
  tok_addr : option Address;
  tok_sig : option Signature
}.

Definition ForVerb (v : Verb) (t : Token) : Token :=
  mkToken (tok_body t) (Some v) (tok_addr t) (tok_sig t).
Definition ApplyTo (a : Address) (t : Token) : Token :=
  mkToken (tok_body t) (tok_verb t) (Some a) (tok_sig t).
Definition Token_SetSignature (s : Signature) (t : Token) : Token :=
  mkToken (tok_body t) (tok_verb t) (tok_addr t) (Some s).

Inductive ObjType := TypeRegular | TypeTombstone | TypeStorageGroup | TypeLock.

Inductive Checksum :=
| SHA256 (digest : bytes)
| TillichZemor (digest : bytes).

Record Attribute := mkAttribute { attr_key : string; attr_value : string }.

Definition zero_Attribute : Attribute := mkAttribute "" "".
Definition SetKey (k : string) (a : Attribute) : Attribute := mkAttribute k (attr_value a).
Definition SetValue (v : string) (a : Attribute) : Attribute := mkAttribute (attr_key a) v.

(** [object.Object]: the header fields the client assigns, the identifier
    and the signature. *)
Record Object := mkObject {
  o_version : option (Z * Z);
  o_type : ObjType;
  o_cnr : option ID;
  o_owner : option ID;
  o_payloadSize : Z;
  o_creationEpoch : Z;
  o_payloadChecksum : option Checksum;
  o_homomorphicHash : option Checksum;
  o_attributes : list Attribute;
  o_id : option ID;
  o_signature : option Signature
}.

(** [var o object.Object] and [object.New()]. *)
Definition zero_Object : Object :=
  mkObject None TypeRegular None None 0 0 None None [] None None.

Definition SetVersion (v : Z * Z) (o : Object) : Object :=
  mkObject (Some v) (o_type o) (o_cnr o) (o_owner o) (o_payloadSize o) (o_creationEpoch o)
           (o_payloadChecksum o) (o_homomorphicHash o) (o_attributes o) (o_id o) (o_signature o).
Definition SetType (t : ObjType) (o : Object) : Object :=
  mkObject (o_version o) t (o_cnr o) (o_owner o) (o_payloadSize o) (o_creationEpoch o)
           (o_payloadChecksum o) (o_homomorphicHash o) (o_attributes o) (o_id o) (o_signature o).
Definition SetContainerID (c : ID) (o : Object) : Object :=
  mkObject (o_version o) (o_type o) (Some c) (o_owner o) (o_payloadSize o) (o_creationEpoch o)
           (o_payloadChecksum o) (o_homomorphicHash o) (o_attributes o) (o_id o) (o_signature o).
Definition SetOwnerID (u : ID) (o : Object) : Object :=
  mkObject (o_version o) (o_type o) (o_cnr o) (Some u) (o_payloadSize o) (o_creationEpoch o)
           (o_payloadChecksum o) (o_homomorphicHash o) (o_attributes o) (o_id o) (o_signature o).
Definition SetPayloadSize (n : Z) (o : Object) : Object :=
  mkObject (o_version o) (o_type o) (o_cnr o) (o_owner o) n (o_creationEpoch o)
           (o_payloadChecksum o) (o_homomorphicHash o) (o_attributes o) (o_id o) (o_signature o).
Definition SetCreationEpoch (e : Z) (o : Object) : Object :=
  mkObject (o_version o) (o_type o) (o_cnr o) (o_owner o) (o_payloadSize o) e
           (o_payloadChecksum o) (o_homomorphicHash o) (o_attributes o) (o_id o) (o_signature o).
Definition SetPayloadChecksum (c : Checksum) (o : Object) : Object :=
  mkObject (o_version o) (o_type o) (o_cnr o) (o_owner o) (o_payloadSize o) (o_creationEpoch o)
           (Some c) (o_homomorphicHash o) (o_attributes o) (o_id o) (o_signature o).
Definition SetPayloadHomomorphicHash (c : Checksum) (o : Object) : Object :=
  mkObject (o_version o) (o_type o) (o_cnr o) (o_owner o) (o_payloadSize o) (o_creationEpoch o)
           (o_payloadChecksum o) (Some c) (o_attributes o) (o_id o) (o_signature o).
Definition SetAttributes (a : list Attribute) (o : Object) : Object :=
  mkObject (o_version o) (o_type o) (o_cnr o) (o_owner o) (o_payloadSize o) (o_creationEpoch o)
           (o_payloadChecksum o) (o_homomorphicHash o) a (o_id o) (o_signature o).
Definition SetID (i : ID) (o : Object) : Object :=
  mkObject (o_version o) (o_type o) (o_cnr o) (o_owner o) (o_payloadSize o) (o_creationEpoch o)
           (o_payloadChecksum o) (o_homomorphicHash o) (o_attributes o) (Some i) (o_signature o).
Definition SetSignature (s : Signature) (o : Object) : Object :=
  mkObject (o_version o) (o_type o) (o_cnr o) (o_owner o) (o_payloadSize o) (o_creationEpoch o)
           (o_payloadChecksum o) (o_homomorphicHash o) (o_attributes o) (o_id o) (Some s).

(** [client.ResObjectPut]: the identifier of the stored object, when the
    response carries one. *)
Record ResObjectPut := mkResObjectPut { res_stored : option ID }.

(** [ReadStoredObjectID(&id)] leaves [id] as it is when the response has
    no identifier. *)
Definition ReadStoredObjectID (r : ResObjectPut) (id : ID) : ID :=
  match res_stored r with Some i => i | None => id end.

Record PrmObjectGet := mkPrmObjectGet {
  prm_obj : option ID;
  prm_cnr : option ID;
  prm_session : option Token
}.

Definition zero_PrmObjectGet : PrmObjectGet := mkPrmObjectGet None None None.
Definition ByID (o : ID) (p : PrmObjectGet) : PrmObjectGet :=
  mkPrmObjectGet (Some o) (prm_cnr p) (prm_session p).
Definition FromContainer (c : ID) (p : PrmObjectGet) : PrmObjectGet :=
  mkPrmObjectGet (prm_obj p) (Some c) (prm_session p).
Definition PrmObjectGet_WithinSession (t : Token) (p : PrmObjectGet) : PrmObjectGet :=
  mkPrmObjectGet (prm_obj p) (prm_cnr p) (Some t).

(** [netmap.NetworkInfo]: the current epoch and the key/value parameters of
    the network configuration, in the order [IterateParameters] visits
    them. *)
Record NetworkInfo := mkNetworkInfo {
  ni_epoch : Z;
  ni_params : list (bytes * bytes)
}.

(** A result [(T, error)] of which exactly one part is meaningful. *)
Inductive res (A : Type) :=
| Val (a : A)
| Fail (e : error).
Arguments Val {A} a.
Arguments Fail {A} e.

(** ** The types of client.go *)

Record Client := mkClient {
  key : PrivateKey;
  tok : Token;
  bufsize : Z
}.

Record PutResponse := mkPutResponse {
  put_Success : bool;
  put_ObjectID : string;
  put_Error : string
}.

Record GetResponse := mkGetResponse {
  get_Success : bool;
  get_Error : string
}.

Record PreparedObject := mkPreparedObject {
  p_key : PrivateKey;
  p_bufsize : Z;
  p_hdr : Object;
  p_payload : bytes
}.

Definition defaultBufferSize : Z := 64 * 1024.

(** The metrics of the package that client.go reports to. *)
Inductive Metric :=
| objPutTotal | objPutFails | objPutDuration
| objGetTotal | objGetFails | objGetDuration.

(** ** Calls that leave the client, with what they returned *)

Inductive Event :=
| EvReport (m : Metric) (v : Z)
| EvDataSent (sz : Z)
| EvDataReceived (sz : Z)
| EvNetworkInfo
| EvObjectPutInit (err : option error)
| EvWithinSession (t : Token)
| EvWriteHeader (hdr : Object) (ok : bool)
| EvWritePayloadChunk (chunk : bytes) (ok : bool)
| EvPutClose (err : option error)
| EvObjectGetInit (prm : PrmObjectGet) (err : option error)
| EvReadHeader (ok : bool)
| EvRead (n : Z) (err : option error)
| EvGetClose (err : option error).

Inductive panic :=
| PanicErr (e : error)
| PanicMsg (msg : string)
| PanicNilDeref
| PanicMakeLen.

Inductive Res (A : Type) :=
| Ret (a : A)
| Panic (p : panic)
| OutOfFuel.
Arguments Ret {A} a.
Arguments Panic {A} p.
Arguments OutOfFuel {A}.

(** The SDK and the store behind it.  [stackitem_TryBool] is neo-go's
    [ByteArray.TryBool]; the stream handles returned by
    [ObjectPutInit] and [ObjectGetInit] live in the [World]. *)
Set Implicit Arguments.
Record SDK (World : Type) := mkSDK {
  cid_DecodeString : string -> res ID;
  oid_DecodeString : string -> res ID;
  oid_String : ID -> string;
  user_IDFromKey : PrivateKey -> ID;
  version_Current : Z * Z;
  sha256_Sum256 : bytes -> bytes;
  tz_Sum : bytes -> bytes;
  object_CalculateID : Object -> res ID;
  object_CalculateIDSignature : PrivateKey -> Object -> res Signature;
  session_Sign : PrivateKey -> Token -> res Signature;
  stackitem_TryBool : bytes -> bool * option error;
  time_Now : World -> Z;
  cli_NetworkInfo : World -> World * res NetworkInfo;
  cli_ObjectPutInit : World -> World * option error;
  w_WithinSession : Token -> World -> World;
  w_WriteHeader : Object -> World -> World * bool;
  w_WritePayloadChunk : bytes -> World -> World * bool;
  w_Close : World -> World * (option ResObjectPut * option error);
  cli_ObjectGetInit : PrmObjectGet -> World -> World * option error;
  r_ReadHeader : World -> World * bool;
  r_Read : Z -> World -> World * (Z * option error);
  r_Close : World -> World * option error
}.
Unset Implicit Arguments.

Section Native.

Context {World : Type} (sdk : SDK World).

(** The state a call runs in: the [Client] the receiver points to, the
    store, and the trace of calls made so far. *)
Record St := mkSt {
  st_client : Client;
  st_world : World;
  st_trace : list Event
}.

Definition M (A : Type) : Type := St -> Res A * St.

Definition ret {A : Type} (a : A) : M A := fun st => (Ret a, st).

Definition bind {A B : Type} (m : M A) (k : A -> M B) : M B :=
  fun st =>
    match m st with
    | (Ret a, st') => k a st'
    | (Panic p, st') => (Panic p, st')
    | (OutOfFuel, st') => (OutOfFuel, st')
    end.

Definition go_panic {A : Type} (p : panic) : M A := fun st => (Panic p, st).
Definition out_of_fuel {A : Type} : M A := fun st => (OutOfFuel, st).

Definition get_client : M Client := fun st => (Ret (st_client st), st).
Definition set_client (c : Client) : M unit :=
  fun st => (Ret tt, mkSt c (st_world st) (st_trace st)).

(** A call to the store: the world steps and the event is logged. *)
Definition call {A : Type} (f : World -> World * A) (ev : A -> Event) : M A :=
  fun st =>
    let (w, a) := f (st_world st) in
    (Ret a, mkSt (st_client st) w (st_trace st ++ [ev a])).

Definition emit (e : Event) : M unit :=
  fun st => (Ret tt, mkSt (st_client st) (st_world st) (st_trace st ++ [e])).

Definition now : M Z := fun st => (Ret (time_Now sdk (st_world st)), st).

End Native.

Arguments St : clear implicits.
Arguments M : clear implicits.
Arguments ret {World A} a.
Arguments bind {World A B} m k.
Arguments go_panic {World A} p.
Arguments out_of_fuel {World A}.
Arguments get_client {World}.
Arguments set_client {World} c.
Arguments call {World A} f ev.
Arguments emit {World} e.

Declare Scope go_scope.
Delimit Scope go_scope with go.
Notation "x <- m ;; k" := (bind m (fun x => k))
  (at level 61, m at next level, right associativity) : go_scope.
Notation "m ;;; k" := (bind m (fun _ => k))
  (at level 61, right associativity) : go_scope.

Local Open Scope go_scope.

(** ** The operations of client.go *)

Section Operations.

Context {World : Type} (sdk : SDK World).

Local Abbreviation M := (M World).

(** [panic(err)] after a call that returned a non-nil error. *)
Definition must {A : Type} (r : res A) : M A :=
  match r with
  | Val a => ret a
  | Fail e => go_panic (PanicErr e)
  end.

(** [make([]byte, n)]: a length that is negative or above the runtime's
    limit panics; any other allocation is taken to succeed. *)
Definition make_bytes (n : Z) : M bytes :=
  if out_of_range n then go_panic PanicMakeLen
  else ret (repeat "000"%byte (Z.to_nat n)).

(** [stats.Report], [stats.ReportDataSent], [stats.ReportDataReceived];
    a duration is logged as its nanoseconds and a byte count as the
    integer handed to [float64]. *)
Definition Report (m : Metric) (v : Z) : M unit := emit (EvReport m v).
Definition ReportDataSent (sz : Z) : M unit := emit (EvDataSent sz).
Definition ReportDataReceived (sz : Z) : M unit := emit (EvDataReceived sz).

Definition since (start : Z) : M Z :=
  t <- now sdk ;; ret (t - start).

(** *** SetBufferSize (lines 64-73) *)

Definition SetBufferSize (size : Z) : M unit :=
  if size <? 0 then go_panic (PanicMsg "buffer size must be positive")
  else
    c <- get_client ;;
    if size =? 0 then set_client (mkClient (key c) (tok c) defaultBufferSize)
    else set_client (mkClient (key c) (tok c) size).

(** *** parseNetworkInfo (lines 318-344) *)

(** The variables the handler closes over: [maxObjSize], [hhDisabled]
    and [err]. *)
Record ParseState := mkParseState {
  ps_maxObjSize : Z;
  ps_hhDisabled : bool;
  ps_err : option error
}.

Definition errMissesMaxObjectSize : error :=
  "network configuration misses max object size value".

(** The handler passed to [IterateParameters] (lines 327-342); the
    boolean is what it returns. *)
Definition handleParameter (p : bytes * bytes) (s : ParseState) : ParseState * bool :=
  let k := string_of_list_byte (fst p) in
  if String.eqb k "MaxObjectSize" then
    let buf := repeat "000"%byte 8 in
    let buf := fst (copy buf (snd p)) in
    (mkParseState (LittleEndian_Uint64 buf) (ps_hhDisabled s) None, false)
  else if String.eqb k "HomomorphicHashingDisabled" then
    let (b, e) := stackitem_TryBool sdk (snd p) in
    match e with
    | Some _ => (mkParseState (ps_maxObjSize s) b e, true)
    | None => (mkParseState (ps_maxObjSize s) b e, false)
    end
  else (s, false).

(** [NetworkConfig.IterateParameters]: the parameters are visited in
    order and the iteration breaks when the handler returns [true]. *)
Fixpoint IterateParameters (ps : list (bytes * bytes)) (s : ParseState) : ParseState :=
  match ps with
  | [] => s
  | p :: rest =>
      let (s', stop) := handleParameter p s in
      if stop then s' else IterateParameters rest s'
  end.

Definition parseNetworkInfo : M (Z * Z * bool * option error) :=
  r <- call (cli_NetworkInfo sdk) (fun _ => EvNetworkInfo) ;;
  match r with
  | Fail e => ret (0, 0, false, Some e)
  | Val ni =>
      let epoch := ni_epoch ni in
      let s := IterateParameters (ni_params ni)
                 (mkParseState 0 false (Some errMissesMaxObjectSize)) in
      ret (ps_maxObjSize s, epoch, ps_hhDisabled s, ps_err s)
  end.

(** *** put (lines 272-316) *)

(** The loop of lines 299-304, entered with the result [n] of the read
    before it.  Every turn consumes at least one byte of the payload, so
    [put] runs it with the payload's length as fuel. *)
Fixpoint put_loop (fuel : nat) (buf : bytes) (rdr : Reader) (n : Z) : M unit :=
  if 0 <? n then
    match fuel with
    | O => out_of_fuel
    | S fuel' =>
        ok <- call (w_WritePayloadChunk sdk (firstn (Z.to_nat n) buf))
                   (EvWritePayloadChunk (firstn (Z.to_nat n) buf)) ;;
        if negb ok then ret tt
        else
          let '(rdr', buf', (n', _)) := Reader_Read rdr buf in
          put_loop fuel' buf' rdr' n'
    end
  else ret tt.

(** Lines 298-304: the first read and the loop. *)
Definition put_stream (buf : bytes) (rdr : Reader) : M unit :=
  let '(rdr', buf', (n, _)) := Reader_Read rdr buf in
  put_loop (List.length (r_s rdr)) buf' rdr' n.

Definition ObjectWriter_Close : M (option ResObjectPut * option error) :=
  call (w_Close sdk) (fun r => EvPutClose (snd r)).

(** Lines 298-315: streaming, close and the reports after it. *)
Definition put_transfer (buf : bytes) (rdr : Reader) (sz start : Z)
  : M (option ResObjectPut * option error) :=
  put_stream buf rdr ;;;
  r <- ObjectWriter_Close ;;
  match snd r with
  | Some err =>
      Report objPutFails 1 ;;;
      ret (None, Some err)
  | None =>
      ReportDataSent sz ;;;
      d <- since start ;;
      Report objPutDuration d ;;;
      ret (fst r, None)
  end.

Definition put (bufSize : Z) (tok : option Token) (hdr : Object) (payload : bytes)
  : M (option ResObjectPut * option error) :=
  buf <- make_bytes bufSize ;;
  let rdr := NewReader payload in
  let sz := Reader_Size rdr in
  Report objPutTotal 1 ;;;
  start <- now sdk ;;
  e <- call (cli_ObjectPutInit sdk) EvObjectPutInit ;;
  match e with
  | Some err =>
      Report objPutFails 1 ;;;
      ret (None, Some err)
  | None =>
      match tok with
      | Some t => call (fun w => (w_WithinSession sdk t w, tt)) (fun _ => EvWithinSession t)
      | None => ret tt
      end ;;;
      ok <- call (w_WriteHeader sdk hdr) (EvWriteHeader hdr) ;;
      if negb ok then
        Report objPutFails 1 ;;;
        r <- ObjectWriter_Close ;;
        ret (None, snd r)
      else put_transfer buf rdr sz start
  end.

(** Lines 96-102 and 245-251: the attribute slice is allocated with one
    zero attribute per entry and filled by index while the map is
    ranged over. *)
Fixpoint set_nth {A : Type} (i : nat) (f : A -> A) (l : list A) : list A :=
  match l, i with
  | [], _ => []
  | x :: r, O => f x :: r
  | x :: r, S i' => x :: set_nth i' f r
  end.

Definition fill_attrs (headers : list (string * string)) (attrs : list Attribute) (ind : nat)
  : list Attribute * nat :=
  fold_left
    (fun (acc : list Attribute * nat) (kv : string * string) =>
       let (attrs, ind) := acc in
       (set_nth ind (fun a => SetValue (snd kv) (SetKey (fst kv) a)) attrs, S ind))
    headers (attrs, ind).

Definition make_attrs (headers : list (string * string)) : list Attribute :=
  fst (fill_attrs headers (repeat zero_Attribute (List.length headers)) 0%nat).

(** [tok.Sign(key)] *)
Definition Token_Sign (k : PrivateKey) (t : Token) : res Token :=
  match session_Sign sdk k t with
  | Val sg => Val (Token_SetSignature sg t)
  | Fail e => Fail e
  end.

(** *** Client.Put (lines 75-118) *)

Definition Client_Put (inputContainerID : string) (headers : list (string * string))
    (payload : bytes) : M PutResponse :=
  containerID <- must (cid_DecodeString sdk inputContainerID) ;;
  let addr := Address_SetContainerID containerID zero_Address in
  c <- get_client ;;
  let tok := tok c in
  let tok := ForVerb VerbObjectPut tok in
  let tok := ApplyTo addr tok in
  tok <- must (Token_Sign (key c) tok) ;;
  let owner := user_IDFromKey sdk (key c) in
  let attrs := make_attrs headers in
  let o := zero_Object in
  let o := SetContainerID containerID o in
  let o := SetOwnerID owner o in
  let o := SetAttributes attrs o in
  r <- put (bufsize c) (Some tok) o payload ;;
  match r with
  | (_, Some err) => ret (mkPutResponse false "" err)
  | (None, None) => go_panic PanicNilDeref
  | (Some resp, None) =>
      let id := ReadStoredObjectID resp zero_ID in
      ret (mkPutResponse true (oid_String sdk id) "")
  end.

(** *** Client.Get (lines 120-186) *)

(** The loop of lines 172-175, entered with the result [n] of the read
    before it; [sz += n] is an addition of [int]s.  The stream decides
    how many turns there are, hence the fuel. *)
Fixpoint get_loop (fuel : nat) (buflen : Z) (sz n : Z) : M Z :=
  if 0 <? n then
    match fuel with
    | O => out_of_fuel
    | S fuel' =>
        let sz := to_int (sz + n) in
        r <- call (r_Read sdk buflen) (fun r => EvRead (fst r) (snd r)) ;;
        get_loop fuel' buflen sz (fst r)
    end
  else ret sz.

Definition ObjectReader_Close : M (option error) :=
  call (r_Close sdk) EvGetClose.

Definition Client_Get (fuel : nat) (inputContainerID inputObjectID : string) : M GetResponse :=
  c <- get_client ;;
  buf <- make_bytes (bufsize c) ;;
  let sz := 0 in
  containerID <- must (cid_DecodeString sdk inputContainerID) ;;
  objectID <- must (oid_DecodeString sdk inputObjectID) ;;
  let addr := zero_Address in
  let addr := Address_SetContainerID containerID addr in
  let addr := Address_SetObjectID objectID addr in
  let tok := tok c in
  let tok := ForVerb VerbObjectGet tok in
  let tok := ApplyTo addr tok in
  tok <- must (Token_Sign (key c) tok) ;;
  Report objGetTotal 1 ;;;
  start <- now sdk ;;
  let prm := zero_PrmObjectGet in
  let prm := ByID objectID prm in
  let prm := FromContainer containerID prm in
  let prm := PrmObjectGet_WithinSession tok prm in
  e <- call (cli_ObjectGetInit sdk prm) (EvObjectGetInit prm) ;;
  match e with
  | Some err =>
      Report objGetFails 1 ;;;
      ret (mkGetResponse false err)
  | None =>
      ok <- call (r_ReadHeader sdk) EvReadHeader ;;
      if negb ok then
        Report objGetFails 1 ;;;
        e <- ObjectReader_Close ;;
        match e with
        | Some err => ret (mkGetResponse false err)
        | None => go_panic PanicNilDeref
        end
      else
        r <- call (r_Read sdk (len buf)) (fun r => EvRead (fst r) (snd r)) ;;
        sz <- get_loop fuel (len buf) sz (fst r) ;;
        e <- ObjectReader_Close ;;
        match e with
        | Some err =>
            Report objGetFails 1 ;;;
            ret (mkGetResponse false err)
        | None =>
            d <- since start ;;
            Report objGetDuration d ;;;
            ReportDataReceived sz ;;;
            ret (mkGetResponse true "")
        end
  end.

(** *** Client.Onsite (lines 188-240) *)

Definition payloadTooLarge (ln maxObjectSize : Z) : string :=
  ("payload size " ++ fmt_d ln ++ " is bigger than network limit " ++ fmt_d maxObjectSize)%string.

Definition Onsite (inputContainerID : string) (payload : bytes) : M PreparedObject :=
  r <- parseNetworkInfo ;;
  let '(maxObjectSize, epoch, hhDisabled, err) := r in
  match err with
  | Some e => go_panic (PanicErr e)
  | None =>
      let data := payload in
      let ln := len data in
      if to_int maxObjectSize <? ln then
        go_panic (PanicMsg (payloadTooLarge ln maxObjectSize))
      else
        containerID <- must (cid_DecodeString sdk inputContainerID) ;;
        c <- get_client ;;
        let owner := user_IDFromKey sdk (key c) in
        let apiVersion := version_Current sdk in
        let obj := zero_Object in
        let obj := SetVersion apiVersion obj in
        let obj := SetType TypeRegular obj in
        let obj := SetContainerID containerID obj in
        let obj := SetOwnerID owner obj in
        let obj := SetPayloadSize (to_uint64 ln) obj in
        let obj := SetCreationEpoch epoch obj in
        let sha := SHA256 (sha256_Sum256 sdk data) in
        let obj := SetPayloadChecksum sha obj in
        let obj :=
          if negb hhDisabled
          then SetPayloadHomomorphicHash (TillichZemor (tz_Sum sdk data)) obj
          else obj in
        ret (mkPreparedObject (key c) (bufsize c) obj data)
  end.

(** *** PreparedObject.Put (lines 242-270)

    One call, as a function of what the prepared object holds when the
    call is made; [p_hdr p] is the struct together with the header it
    points to.  What the call leaves behind in that header is the matter
    of [PreparedObject_Put_shared] below. *)

Definition PreparedObject_Put (p : PreparedObject) (headers : list (string * string))
  : M PutResponse :=
  let obj := p_hdr p in
  let attrs := make_attrs headers in
  let obj := SetAttributes attrs obj in
  match object_CalculateID sdk obj with
  | Fail e => ret (mkPutResponse false "" e)
  | Val id =>
      let obj := SetID id obj in
      match object_CalculateIDSignature sdk (p_key p) obj with
      | Fail e => ret (mkPutResponse false "" e)
      | Val sg =>
          let obj := SetSignature sg obj in
          r <- put (p_bufsize p) None obj (p_payload p) ;;
          match snd r with
          | Some err => ret (mkPutResponse false "" err)
          | None => ret (mkPutResponse true (oid_String sdk id) "")
          end
      end
  end.

End Operations.

(** ** The prepared object in memory

    The SDK's [object.Object] is a struct of pointers: to the
    identifier, to the signature and to the header, which holds every
    other field.  A copy of the struct, as [hdr: *obj] (line 237) and
    [obj := p.hdr] (line 243) make one, points to the same header as the
    original: a setter of a header field writes through that pointer,
    while [SetID] and [SetSignature] replace a pointer of the copy.  The
    record [Object] above is what a struct and the header it points to
    hold together at one moment, which is what the SDK's functions and
    the store read; [Client_Put], [Onsite] and [PreparedObject_Put] work
    on it, the last one as a function of what the prepared object holds
    when the call is made.  Here the headers live in a heap, so that
    what a call leaves behind in the prepared object can be said. *)

Record Header := mkHeader {
  h_version : option (Z * Z);
  h_type : ObjType;
  h_cnr : option ID;
  h_owner : option ID;
  h_payloadSize : Z;
  h_creationEpoch : Z;
  h_payloadChecksum : option Checksum;
  h_homomorphicHash : option Checksum;
  h_attributes : list Attribute
}.

Definition zero_Header : Header :=
  mkHeader None TypeRegular None None 0 0 None None [].

Definition Header_SetAttributes (a : list Attribute) (h : Header) : Header :=
  mkHeader (h_version h) (h_type h) (h_cnr h) (h_owner h) (h_payloadSize h)
           (h_creationEpoch h) (h_payloadChecksum h) (h_homomorphicHash h) a.

(** The header fields of a flat object. *)
Definition header_of (o : Object) : Header :=
  mkHeader (o_version o) (o_type o) (o_cnr o) (o_owner o) (o_payloadSize o)
           (o_creationEpoch o) (o_payloadChecksum o) (o_homomorphicHash o) (o_attributes o).

(** The headers in memory, by address. *)
Definition Heap := list Header.

(** The struct: the address of the header, or nil, the identifier and
    the signature. *)
Record ObjectStruct := mkObjectStruct {
  s_header : option nat;
  s_id : option ID;
  s_signature : option Signature
}.

Definition header_at (H : Heap) (l : option nat) : Header :=
  match l with
  | Some l => nth l H zero_Header
  | None => zero_Header
  end.

(** What a struct and the header it points to hold together. *)
Definition deref (H : Heap) (s : ObjectStruct) : Object :=
  let h := header_at H (s_header s) in
  mkObject (h_version h) (h_type h) (h_cnr h) (h_owner h) (h_payloadSize h)
           (h_creationEpoch h) (h_payloadChecksum h) (h_homomorphicHash h) (h_attributes h)
           (s_id s) (s_signature s).

(** [SetAttributes] on a struct: the header the struct points to is
    written; a nil pointer is first set to a new header. *)
Definition Struct_SetAttributes (a : list Attribute) (s : ObjectStruct) (H : Heap)
  : ObjectStruct * Heap :=
  match s_header s with
  | Some l => (s, set_nth l (Header_SetAttributes a) H)
  | None =>
      (mkObjectStruct (Some (List.length H)) (s_id s) (s_signature s),
       H ++ [Header_SetAttributes a zero_Header])
  end.

Definition Struct_SetID (i : ID) (s : ObjectStruct) : ObjectStruct :=
  mkObjectStruct (s_header s) (Some i) (s_signature s).

Definition Struct_SetSignature (g : Signature) (s : ObjectStruct) : ObjectStruct :=
  mkObjectStruct (s_header s) (s_id s) (Some g).

(** [PreparedObject] with its header by address. *)
Record Prepared := mkPrepared {
  pp_key : PrivateKey;
  pp_bufsize : Z;
  pp_hdr : ObjectStruct;
  pp_payload : bytes
}.

(** What a prepared object holds, the heap being [H]. *)
Definition flat_prepared (H : Heap) (p : Prepared) : PreparedObject :=
  mkPreparedObject (pp_key p) (pp_bufsize p) (deref H (pp_hdr p)) (pp_payload p).

Section Memory.

Context {World : Type} (sdk : SDK World).

(** [Client.Onsite] (lines 188-240) with the heap: the object is built
    through the one pointer [object.New()] returns, which nothing else
    holds, and [hdr: *obj] copies the struct; so the prepared object
    points to a new header that holds the fields [Onsite] computes.  The
    panics of [Onsite] all come before [object.New()]. *)
Definition Onsite_shared (inputContainerID : string) (payload : bytes) (H : Heap)
  : M World (Prepared * Heap) :=
  p <- Onsite sdk inputContainerID payload ;;
  ret (mkPrepared (p_key p) (p_bufsize p)
         (mkObjectStruct (Some (List.length H)) (o_id (p_hdr p)) (o_signature (p_hdr p)))
         (p_payload p),
       H ++ [header_of (p_hdr p)]).

(** [PreparedObject.Put] (lines 242-270) with the heap: [obj := p.hdr]
    copies the struct, [SetAttributes] writes the header both structs
    point to, [SetID] and [CalculateAndSetSignature] set fields of the
    copy, and [put] hands the store what the copy and the header hold.
    The heap is returned with the outcome. *)
Definition PreparedObject_Put_shared (p : Prepared) (headers : list (string * string))
    (H : Heap) (st : St World) : Res PutResponse * St World * Heap :=
  let obj := pp_hdr p in
  let attrs := make_attrs headers in
  let (obj, H) := Struct_SetAttributes attrs obj H in
  match object_CalculateID sdk (deref H obj) with
  | Fail e => (Ret (mkPutResponse false "" e), st, H)
  | Val id =>
      let obj := Struct_SetID id obj in
      match object_CalculateIDSignature sdk (pp_key p) (deref H obj) with
      | Fail e => (Ret (mkPutResponse false "" e), st, H)
      | Val sg =>
          let obj := Struct_SetSignature sg obj in
          ((r <- put sdk (pp_bufsize p) None (deref H obj) (pp_payload p) ;;
            match snd r with
            | Some err => ret (mkPutResponse false "" err)
            | None => ret (mkPutResponse true (oid_String sdk id) "")
            end) st, H)
      end
  end.

End Memory.

(** ** Vocabulary of the statements *)

(** Whether a parameter list has an entry under the key [k]. *)
Definition has_key (k : string) (ps : list (bytes * bytes)) : bool :=
  existsb (fun p : bytes * bytes => String.eqb (string_of_list_byte (fst p)) k) ps.

(** Whether every [HomomorphicHashingDisabled] entry of a parameter
    list decodes as a boolean. *)
Definition hh_decodable {World : Type} (sdk : SDK World) (ps : list (bytes * bytes)) : bool :=
  forallb
    (fun p : bytes * bytes =>
       if String.eqb (string_of_list_byte (fst p)) "HomomorphicHashingDisabled"
       then match snd (stackitem_TryBool sdk (snd p)) with None => true | Some _ => false end
       else true)
    ps.

(** A rejected chunk write is the last one. *)
Fixpoint rejected_last (cs : list (bytes * bool)) : Prop :=
  match cs with
  | [] => True
  | c :: r => (snd c = false -> r = []) /\ rejected_last r
  end.

(** What the streaming loop may write of the pending bytes [P] through
    a buffer of [B] bytes: chunks that are not empty and fit the buffer,
    that make up a prefix of [P] in order, all of [P] when no write is
    rejected, and nothing after a rejected write. *)
Definition chunks_ok (B : nat) (P : bytes) (cs : list (bytes * bool)) : Prop :=
  Forall (fun c : bytes * bool => (0 < List.length (fst c) <= B)%nat) cs /\
  (exists rest, P = List.concat (map fst cs) ++ rest) /\
  ((0 < B)%nat -> forallb snd cs = true -> List.concat (map fst cs) = P) /\
  rejected_last cs.

Definition chunk_event (c : bytes * bool) : Event := EvWritePayloadChunk (fst c) (snd c).

(** [WithinSession] is called for a token that is not nil. *)
Definition tok_events (tok : option Token) : list Event :=
  match tok with
  | Some t => [EvWithinSession t]
  | None => []
  end.

(** The four ways through [put] (lines 272-316), each with the calls it
    makes and what it returns: the stream does not open; the header is
    rejected; the close fails; the close succeeds. *)
Inductive put_outcome (B : nat) (tok : option Token) (hdr : Object) (payload : bytes)
  : list Event -> option ResObjectPut * option error -> Prop :=
| put_init_failed (err : error) :
    put_outcome B tok hdr payload
      [EvReport objPutTotal 1; EvObjectPutInit (Some err); EvReport objPutFails 1]
      (None, Some err)
| put_header_rejected (e : option error) :
    put_outcome B tok hdr payload
      ([EvReport objPutTotal 1; EvObjectPutInit None] ++ tok_events tok ++
       [EvWriteHeader hdr false; EvReport objPutFails 1; EvPutClose e])
      (None, e)
| put_close_failed (cs : list (bytes * bool)) (err : error) :
    chunks_ok B payload cs ->
    put_outcome B tok hdr payload
      ([EvReport objPutTotal 1; EvObjectPutInit None] ++ tok_events tok ++
       [EvWriteHeader hdr true] ++ map chunk_event cs ++
       [EvPutClose (Some err); EvReport objPutFails 1])
      (None, Some err)
| put_closed (cs : list (bytes * bool)) (resp : option ResObjectPut) (d : Z) :
    chunks_ok B payload cs ->
    put_outcome B tok hdr payload
      ([EvReport objPutTotal 1; EvObjectPutInit None] ++ tok_events tok ++
       [EvWriteHeader hdr true] ++ map chunk_event cs ++
       [EvPutClose None; EvDataSent (len payload); EvReport objPutDuration d])
      (resp, None).

Definition read_event (r : Z * option error) : Event := EvRead (fst r) (snd r).

(** The sum of read lengths as [sz += n] computes it. *)
Definition int_sum (ns : list Z) : Z := fold_left (fun a n => to_int (a + n)) ns 0.

(** The token of an operation: the template with the verb, the target
    address and the signature replaced. *)
Definition scoped (template : Token) (v : Verb) (a : Address) (sg : Signature) : Token :=
  mkToken (tok_body template) (Some v) (Some a) (Some sg).

(** The object [Client.Put] builds in lines 104-107. *)
Definition put_object {World : Type} (sdk : SDK World) (c : Client) (containerID : ID)
    (headers : list (string * string)) : Object :=
  SetAttributes (make_attrs headers)
    (SetOwnerID (user_IDFromKey sdk (key c)) (SetContainerID containerID zero_Object)).

(** The parameters [Client.Get] builds in lines 153-156. *)
Definition get_prm (containerID objectID : ID) (t : Token) : PrmObjectGet :=
  PrmObjectGet_WithinSession t (FromContainer containerID (ByID objectID zero_PrmObjectGet)).

(** The object [PreparedObject.Put] hands to [put]. *)
Definition finalized (p : PreparedObject) (headers : list (string * string))
    (id : ID) (sg : Signature) : Object :=
  SetSignature sg (SetID id (SetAttributes (make_attrs headers) (p_hdr p))).

(** The ways through [Client.Get] (lines 150-185) once the identifiers
    are decoded and the token is signed: the stream does not open; the
    header is not read and the close gives an error, or gives nil; the
    payload loop is still reading when the fuel ends; the payload is
    read to the first read of zero bytes and the close fails, or
    succeeds. *)
Inductive get_outcome (fuel : nat) (prm : PrmObjectGet)
  : list Event -> Res GetResponse -> Prop :=
| get_init_failed (err : error) :
    get_outcome fuel prm
      [EvReport objGetTotal 1; EvObjectGetInit prm (Some err); EvReport objGetFails 1]
      (Ret (mkGetResponse false err))
| get_header_failed (err : error) :
    get_outcome fuel prm
      [EvReport objGetTotal 1; EvObjectGetInit prm None; EvReadHeader false;
       EvReport objGetFails 1; EvGetClose (Some err)]
      (Ret (mkGetResponse false err))
| get_header_failed_nil :
    get_outcome fuel prm
      [EvReport objGetTotal 1; EvObjectGetInit prm None; EvReadHeader false;
       EvReport objGetFails 1; EvGetClose None]
      (Panic PanicNilDeref)
| get_still_reading (rs : list (Z * option error)) :
    Forall (fun n => 0 < n) (map fst rs) ->
    List.length rs = S fuel ->
    get_outcome fuel prm
      ([EvReport objGetTotal 1; EvObjectGetInit prm None; EvReadHeader true] ++
       map read_event rs)
      OutOfFuel
| get_close_failed (rs : list (Z * option error)) (pre : list Z) (last : Z) (err : error) :
    map fst rs = pre ++ [last] ->
    Forall (fun n => 0 < n) pre ->
    last <= 0 ->
    get_outcome fuel prm
      ([EvReport objGetTotal 1; EvObjectGetInit prm None; EvReadHeader true] ++
       map read_event rs ++ [EvGetClose (Some err); EvReport objGetFails 1])
      (Ret (mkGetResponse false err))
| get_closed (rs : list (Z * option error)) (pre : list Z) (last : Z) (d : Z) :
    map fst rs = pre ++ [last] ->
    Forall (fun n => 0 < n) pre ->
    last <= 0 ->
    get_outcome fuel prm
      ([EvReport objGetTotal 1; EvObjectGetInit prm None; EvReadHeader true] ++
       map read_event rs ++
       [EvGetClose None; EvReport objGetDuration d; EvDataReceived (int_sum pre)])
      (Ret (mkGetResponse true "")).

(** The read stream, asked for chunks of [buflen] bytes from the state
    [w] on, answers [rs] in this order and is then in the state [w']. *)
Inductive stream_gives {World : Type} (sdk : SDK World) (buflen : Z)
  : World -> list (Z * option error) -> World -> Prop :=
| gives_nil (w : World) : stream_gives sdk buflen w [] w
| gives_cons (w w1 w' : World) (r : Z * option error) (rs : list (Z * option error)) :
    r_Read sdk buflen w = (w1, r) ->
    stream_gives sdk buflen w1 rs w' ->
    stream_gives sdk buflen w (r :: rs) w'.

(** The two keys [parseNetworkInfo] looks at (lines 329 and 334). *)
Definition recognised (p : bytes * bytes) : bool :=
  String.eqb (string_of_list_byte (fst p)) "MaxObjectSize"
  || String.eqb (string_of_list_byte (fst p)) "HomomorphicHashingDisabled".

(** The value of the last entry of a parameter list under the key [k]. *)
Fixpoint last_value (k : string) (ps : list (bytes * bytes)) : option bytes :=
  match ps with
  | [] => None
  | p :: r =>
      match last_value k r with
      | Some v => Some v
      | None => if String.eqb (string_of_list_byte (fst p)) k then Some (snd p) else None
      end
  end.

(** What lines 330-332 make of the value of a [MaxObjectSize] entry. *)
Definition decode_max (v : bytes) : Z :=
  LittleEndian_Uint64 (fst (copy (repeat "000"%byte 8) v)).

(** The little-endian encoding of [n] in [k] bytes. *)
Definition byte_of_Z (z : Z) : byte :=
  match Byte.of_N (Z.to_N z) with
  | Some b => b
  | None => "000"%byte
  end.

Fixpoint le_bytes (k : nat) (n : Z) : bytes :=
  match k with
  | O => []
  | S k' => byte_of_Z (n mod 256) :: le_bytes k' (n / 256)
  end.

(** The closed-over variables after a scan of entries whose flags all
    decode: the last [MaxObjectSize] entry and the last flag entry
    decide, and any recognised entry clears [err]. *)
Definition resolved {World : Type} (sdk : SDK World) (ps : list (bytes * bytes))
    (s : ParseState) : ParseState :=
  mkParseState
    (match last_value "MaxObjectSize" ps with
     | Some v => decode_max v
     | None => ps_maxObjSize s
     end)
    (match last_value "HomomorphicHashingDisabled" ps with
     | Some v => fst (stackitem_TryBool sdk v)
     | None => ps_hhDisabled s
     end)
    (if existsb recognised ps then None else ps_err s).

(** ** A scripted store

    A store whose answers are fixed in advance, to run the operations on
    concrete inputs.  The hash functions and the signatures are
    stand-ins; [TryBool] is neo-go's: a byte array longer than 32 bytes
    is no boolean, and any other one is [true] when it has a non-zero
    byte. *)

Record Script := mkScript {
  sc_netinfo : res NetworkInfo;
  sc_put_init : option error;
  sc_header_ok : bool;
  sc_chunks_ok : nat;
  sc_put_close : option ResObjectPut * option error;
  sc_get_init : option error;
  sc_read_header : bool;
  sc_reads : list (Z * option error);
  sc_get_close : option error;
  sc_clock : Z
}.

Definition TryBool (b : bytes) : bool * option error :=
  if (32 <? List.length b)%nat then (false, Some "too big: integer")
  else (existsb (fun x => negb (Byte.eqb x "000"%byte)) b, None).

Definition script_decode (s : string) : res ID :=
  match s with
  | EmptyString => Fail "empty identifier"
  | _ => Val (list_byte_of_string s)
  end.

Definition script_write_chunk (c : bytes) (w : Script) : Script * bool :=
  match sc_chunks_ok w with
  | O => (w, false)
  | S k =>
      (mkScript (sc_netinfo w) (sc_put_init w) (sc_header_ok w) k (sc_put_close w)
                (sc_get_init w) (sc_read_header w) (sc_reads w) (sc_get_close w)
                (sc_clock w + 1), true)
  end.

Definition script_read (buflen : Z) (w : Script) : Script * (Z * option error) :=
  match sc_reads w with
  | [] => (w, (0, Some io_EOF))
  | r :: rest =>
      (mkScript (sc_netinfo w) (sc_put_init w) (sc_header_ok w) (sc_chunks_ok w)
                (sc_put_close w) (sc_get_init w) (sc_read_header w) rest (sc_get_close w)
                (sc_clock w + 1), r)
  end.

Definition script_sdk : SDK Script :=
  {| cid_DecodeString := script_decode;
     oid_DecodeString := script_decode;
     oid_String := string_of_list_byte;
     user_IDFromKey := fun k => rev k;
     version_Current := (2, 12);
     sha256_Sum256 := fun d => firstn 4 d;
     tz_Sum := fun d => firstn 8 (rev d);
     object_CalculateID := fun o =>
       Val (List.concat (map (fun a => list_byte_of_string (attr_key a ++ attr_value a)%string)
                        (o_attributes o)));
     object_CalculateIDSignature := fun k o => Val (k ++ match o_id o with Some i => i | None => [] end);
     session_Sign := fun k t => Val (k ++ tok_body t);
     stackitem_TryBool := TryBool;
     time_Now := sc_clock;
     cli_NetworkInfo := fun w => (w, sc_netinfo w);
     cli_ObjectPutInit := fun w => (w, sc_put_init w);
     w_WithinSession := fun _ w => w;
     w_WriteHeader := fun _ w => (w, sc_header_ok w);
     w_WritePayloadChunk := script_write_chunk;
     w_Close := fun w => (w, sc_put_close w);
     cli_ObjectGetInit := fun _ w => (w, sc_get_init w);
     r_ReadHeader := fun w => (w, sc_read_header w);
     r_Read := script_read;
     r_Close := fun w => (w, sc_get_close w) |}.

(** A store that accepts everything: 64 MiB objects, homomorphic
    hashing enabled. *)
Definition netinfo_64MiB : NetworkInfo :=
  mkNetworkInfo 7
    [ (list_byte_of_string "MaxObjectSize",
       ["000"; "000"; "000"; "004"; "000"; "000"; "000"; "000"]%byte);
      (list_byte_of_string "HomomorphicHashingDisabled", []) ].

Definition friendly : Script :=
  mkScript (Val netinfo_64MiB) None true 1000 (Some (mkResObjectPut (Some zero_ID)), None)
           None true [] None 0.

(** The network configuration carries the flag only: no
    [MaxObjectSize] entry. *)
Definition netinfo_flag_only : NetworkInfo :=
  mkNetworkInfo 7 [ (list_byte_of_string "HomomorphicHashingDisabled", ["001"]%byte) ].

Definition flag_only : Script :=
  mkScript (Val netinfo_flag_only) None true 1000 (Some (mkResObjectPut (Some zero_ID)), None)
           None true [] None 0.

(** The network configuration sets the largest limit 64 bits can hold. *)
Definition netinfo_unlimited : NetworkInfo :=
  mkNetworkInfo 7
    [ (list_byte_of_string "MaxObjectSize",
       ["255"; "255"; "255"; "255"; "255"; "255"; "255"; "255"]%byte) ].

Definition unlimited : Script :=
  mkScript (Val netinfo_unlimited) None true 1000 (Some (mkResObjectPut (Some zero_ID)), None)
           None true [] None 0.

Definition payload9 : bytes :=
  ["001"; "002"; "003"; "004"; "005"; "006"; "007"; "008"; "009"]%byte.

(** A store that accepts the header and two chunks, then rejects. *)
Definition two_chunks : Script :=
  mkScript (Val netinfo_64MiB) None true 2 (None, Some "stream closed")
           None true [] None 0.

(** A write stream that rejects the header and then closes without an
    error. *)
Definition header_rejected : Script :=
  mkScript (Val netinfo_64MiB) None false 0 (Some (mkResObjectPut (Some zero_ID)), None)
           None true [] None 0.

(** A read stream that fails to read the header and then closes without
    an error. *)
Definition header_unread : Script :=
  mkScript (Val netinfo_64MiB) None true 0 (None, None)
           None false [] None 0.

(** A read stream of five bytes whose second read also reports an
    error. *)
Definition noisy_reads : Script :=
  mkScript (Val netinfo_64MiB) None true 0 (None, None)
           None true [(3, None); (2, Some "unexpected EOF"); (0, Some io_EOF)] None 0.

(** A prepared object over [payload9], as [Onsite] builds it against
    the store [friendly]. *)
Definition prepared9 : PreparedObject :=
  mkPreparedObject ["001"; "002"]%byte 4
    (mkObject (Some (2, 12)) TypeRegular (Some (list_byte_of_string "cnr"))
       (Some ["002"; "001"]%byte) 9 7 (Some (SHA256 (firstn 4 payload9)))
       (Some (TillichZemor (firstn 8 (rev payload9)))) [] None None)
    payload9.

(** The network configuration has neither of the two entries. *)
Definition no_parameters : Script :=
  mkScript (Val (mkNetworkInfo 7 [(list_byte_of_string "EpochDuration", ["240"]%byte)]))
           None true 1000 (Some (mkResObjectPut (Some zero_ID)), None)
           None true [] None 0.

(** The configuration of [friendly] with other entries around the two
    recognised ones. *)
Definition netinfo_64MiB_among_others : NetworkInfo :=
  mkNetworkInfo 7
    [ (list_byte_of_string "EpochDuration", ["240"]%byte);
      (list_byte_of_string "MaxObjectSize",
       ["000"; "000"; "000"; "004"; "000"; "000"; "000"; "000"]%byte);
      (list_byte_of_string "ContainerFee", ["001"; "000"]%byte);
      (list_byte_of_string "HomomorphicHashingDisabled", []);
      (list_byte_of_string "AuditFee", []) ].

Definition friendly_among_others : Script :=
  mkScript (Val netinfo_64MiB_among_others) None true 1000
           (Some (mkResObjectPut (Some zero_ID)), None) None true [] None 0.

(** A flag of 33 bytes, which is no boolean, between two
    [MaxObjectSize] entries. *)
Definition netinfo_bad_flag : NetworkInfo :=
  mkNetworkInfo 7
    [ (list_byte_of_string "MaxObjectSize", ["016"]%byte);
      (list_byte_of_string "HomomorphicHashingDisabled", repeat "001"%byte 33);
      (list_byte_of_string "MaxObjectSize", ["032"]%byte) ].

Definition bad_flag : Script :=
  mkScript (Val netinfo_bad_flag) None true 1000
           (Some (mkResObjectPut (Some zero_ID)), None) None true [] None 0.

(** Two [MaxObjectSize] entries, of three bytes and of nine, and two
    flags. *)
Definition netinfo_repeated : NetworkInfo :=
  mkNetworkInfo 7
    [ (list_byte_of_string "MaxObjectSize", ["001"; "002"; "003"]%byte);
      (list_byte_of_string "HomomorphicHashingDisabled", ["000"]%byte);
      (list_byte_of_string "MaxObjectSize", le_bytes 8 1000000 ++ ["255"]%byte);
      (list_byte_of_string "HomomorphicHashingDisabled", ["000"; "007"]%byte) ].

Definition repeated : Script :=
  mkScript (Val netinfo_repeated) None true 1000
           (Some (mkResObjectPut (Some zero_ID)), None) None true [] None 0.

(** A write stream that accepts the header and one chunk, rejects the
    next, and still closes without an error. *)
Definition one_chunk_then_ok : Script :=
  mkScript (Val netinfo_64MiB) None true 1 (Some (mkResObjectPut (Some zero_ID)), None)
           None true [] None 0.

(** [prepared9] as [Onsite] leaves it in an empty heap: the struct
    points to the header at address 0. *)
Definition heap9 : Heap := [header_of (p_hdr prepared9)].

Definition prepared9_shared : Prepared :=
  mkPrepared ["001"; "002"]%byte 4 (mkObjectStruct (Some 0%nat) None None) payload9.

Definition client0 : Client :=
  mkClient ["001"; "002"]%byte (mkToken ["170"]%byte None None None) 4.

Definition st0 (w : Script) : St Script := mkSt client0 w [].

(** ** Properties *)

(** *** Traces *)

Definition is_fail_report (m : Metric) (e : Event) : bool :=
  match e, m with
  | EvReport objPutFails _, objPutFails => true
  | EvReport objGetFails _, objGetFails => true
  | _, _ => false
  end.

(** How often the failure counter [m] is reported in a trace. *)
Definition fail_reports (m : Metric) (tr : list Event) : nat :=
  List.length (filter (is_fail_report m) tr).

(** The chunk writes of a trace, each with the stream's answer. *)
Fixpoint chunk_writes (tr : list Event) : list (bytes * bool) :=
  match tr with
  | [] => []
  | EvWritePayloadChunk c ok :: r => (c, ok) :: chunk_writes r
  | _ :: r => chunk_writes r
  end.

(** The session tokens handed to the store in a trace: to a write
    stream by [WithinSession], to a read stream in the parameters of
    [ObjectGetInit]. *)
Fixpoint presented_tokens (tr : list Event) : list Token :=
  match tr with
  | [] => []
  | EvWithinSession t :: r => t :: presented_tokens r
  | EvObjectGetInit prm _ :: r =>
      match prm_session prm with
      | Some t => t :: presented_tokens r
      | None => presented_tokens r
      end
  | _ :: r => presented_tokens r
  end.

(** The headers written in a trace. *)
Fixpoint written_headers (tr : list Event) : list Object :=
  match tr with
  | [] => []
  | EvWriteHeader h _ :: r => h :: written_headers r
  | _ :: r => written_headers r
  end.

(** The results of the payload reads in a trace. *)
Fixpoint reads (tr : list Event) : list (Z * option error) :=
  match tr with
  | [] => []
  | EvRead n e :: r => (n, e) :: reads r
  | _ :: r => reads r
  end.

Fixpoint received (tr : list Event) : list Z :=
  match tr with
  | [] => []
  | EvDataReceived sz :: r => sz :: received r
  | _ :: r => received r
  end.


Fixpoint header_read (tr : list Event) : option bool :=
  match tr with
  | [] => None
  | EvReadHeader ok :: _ => Some ok
  | _ :: r => header_read r
  end.



(** Every chunk but the last is of [B] bytes. *)
Fixpoint full_but_last (B : Z) (cs : list bytes) : Prop :=
  match cs with
  | [] => True
  | c :: r => (r <> [] -> len c = B) /\ full_but_last B r
  end.

(** The sizes and the number of the chunks the streaming loop writes of
    the pending bytes [P] through a buffer of [B] bytes: every chunk
    but the last fills the buffer, nothing is written of an empty [P],
    and when no write is rejected there are as many chunks as [P] has
    bytes divided by [B], rounded up. *)
Definition chunks_exact (B : nat) (P : bytes) (cs : list (bytes * bool)) : Prop :=
  full_but_last (Z.of_nat B) (map fst cs) /\
  (cs <> [] -> P <> []) /\
  (forallb snd cs = true ->
   List.length cs = ((List.length P + B - 1) / B)%nat).

Definition Metric_eqb (a b : Metric) : bool :=
  match a, b with
  | objPutTotal, objPutTotal | objPutFails, objPutFails
  | objPutDuration, objPutDuration | objGetTotal, objGetTotal
  | objGetFails, objGetFails | objGetDuration, objGetDuration => true
  | _, _ => false
  end.

(** The values reported to the metric [m] in a trace. *)
Fixpoint reports (m : Metric) (tr : list Event) : list Z :=
  match tr with
  | [] => []
  | EvReport m' v :: r => if Metric_eqb m m' then v :: reports m r else reports m r
  | _ :: r => reports m r
  end.

(** The byte counts reported as sent in a trace. *)
Fixpoint sent (tr : list Event) : list Z :=
  match tr with
  | [] => []
  | EvDataSent sz :: r => sz :: sent r
  | _ :: r => sent r
  end.

(** Whether a header write was accepted in a trace. *)
Fixpoint header_accepted (tr : list Event) : bool :=
  match tr with
  | [] => false
  | EvWriteHeader _ ok :: r => ok || header_accepted r
  | _ :: r => header_accepted r
  end.

(** The opens of a stream that succeeded, and the closes, in a trace. *)
Definition is_put_open (e : Event) : bool :=
  match e with EvObjectPutInit None => true | _ => false end.

Definition is_put_close (e : Event) : bool :=
  match e with EvPutClose _ => true | _ => false end.

Definition is_get_open (e : Event) : bool :=
  match e with EvObjectGetInit _ None => true | _ => false end.

Definition is_get_close (e : Event) : bool :=
  match e with EvGetClose _ => true | _ => false end.

Definition count (f : Event -> bool) (tr : list Event) : nat :=
  List.length (filter f tr).

(** What the trace [new] of one [put] shows of the streaming loop
    (lines 298-306), [cs] being all the chunk writes in it: no chunk is
    written unless the header was accepted; each chunk is not empty and
    fits the buffer; the chunks are consecutive pieces of the payload
    from its start, in order, so that together they are a prefix of it,
    and the whole of it when the header was accepted and no write
    rejected; a rejected write is the last one; and the chunk writes
    follow each other in the trace, with nothing between them, and are
    followed directly by the close of the stream. *)
Definition streamed (bufSize : Z) (payload : bytes) (new : list Event) : Prop :=
  let cs := chunk_writes new in
  (header_accepted new = false -> cs = []) /\
  Forall (fun c : bytes * bool => 0 < len (fst c) <= bufSize) cs /\
  (exists rest, payload = List.concat (map fst cs) ++ rest) /\
  (forall before c after,
      cs = before ++ c :: after ->
      fst c = firstn (List.length (fst c))
                (skipn (List.length (List.concat (map fst before))) payload)) /\
  rejected_last cs /\
  (header_accepted new = true ->
   forallb snd cs = true -> List.concat (map fst cs) = payload) /\
  (header_accepted new = true ->
   exists pre e post,
     new = pre ++ map chunk_event cs ++ EvPutClose e :: post /\
     chunk_writes pre = [] /\ chunk_writes post = []).

(** What one call of [PreparedObject.Put] does, [p] being what the
    prepared object holds when the call is made: it fails without a
    call to the store when the identifier or the signature cannot be
    computed over the prepared header with this call's attributes; it
    panics when the buffer cannot be allocated; and otherwise it runs
    [put] without a token on the prepared payload and on that header
    with the identifier and the signature set, along one of the ways of
    [put_outcome], the header being accepted in the trace whenever the
    store opens the stream and accepts it, and answers with the
    identifier when [put] returns no error. *)
Definition prepared_put_does {World : Type} (sdk : SDK World) (p : PreparedObject)
    (headers : list (string * string)) (st : St World)
    (run : Res PutResponse * St World) : Prop :=
  let o := SetAttributes (make_attrs headers) (p_hdr p) in
  match object_CalculateID sdk o with
  | Fail e => run = (Ret (mkPutResponse false "" e), st)
  | Val id =>
      match object_CalculateIDSignature sdk (p_key p) (SetID id o) with
      | Fail e => run = (Ret (mkPutResponse false "" e), st)
      | Val sg =>
          if out_of_range (p_bufsize p) then run = (Panic PanicMakeLen, st)
          else
            exists r st' new,
              run = (Ret (match snd r with
                          | Some err => mkPutResponse false "" err
                          | None => mkPutResponse true (oid_String sdk id) ""
                          end), st') /\
              st_client st' = st_client st /\
              st_trace st' = st_trace st ++ new /\
              put_outcome (Z.to_nat (p_bufsize p)) None (finalized p headers id sg)
                (p_payload p) new r /\
              (forall w1 w2,
                  cli_ObjectPutInit sdk (st_world st) = (w1, None) ->
                  w_WriteHeader sdk (finalized p headers id sg) w1 = (w2, true) ->
                  header_accepted new = true)
      end
  end.

(** A state with another client in it. *)
Definition with_client {World : Type} (c : Client) (st : St World) : St World :=
  mkSt c (st_world st) (st_trace st).

(** A computation that neither reads nor writes the client. *)
Definition client_blind {World A : Type} (m : M World A) : Prop :=
  forall (c : Client) (st : St World),
    m (with_client c st) = (fst (m st), with_client c (snd (m st))).

Lemma out_of_range_false (n : Z) : 0 <= n <= maxAlloc -> out_of_range n = false.
Proof.
  intros H. unfold out_of_range.
  destruct (Z.ltb_spec n 0); [lia|]. destruct (Z.ltb_spec maxAlloc n); [lia|reflexivity].
Qed.

Lemma out_of_range_true (n : Z) : n < 0 \/ maxAlloc < n -> out_of_range n = true.
Proof.
  intros H. unfold out_of_range.
  destruct (Z.ltb_spec n 0); [reflexivity|]. destruct (Z.ltb_spec maxAlloc n); [reflexivity|lia].
Qed.

Lemma out_of_range_spec (n : Z) :
  (out_of_range n = true /\ (n < 0 \/ maxAlloc < n)) \/
  (out_of_range n = false /\ 0 <= n <= maxAlloc).
Proof.
  unfold out_of_range.
  destruct (Z.ltb_spec n 0); [left; split; [reflexivity|lia]|].
  destruct (Z.ltb_spec maxAlloc n); [left|right]; split; reflexivity || lia.
Qed.

Lemma fail_reports_app (m : Metric) (a b : list Event) :
  fail_reports m (a ++ b) = (fail_reports m a + fail_reports m b)%nat.
Proof. unfold fail_reports. now rewrite filter_app, length_app. Qed.

Lemma chunk_writes_app (a b : list Event) :
  chunk_writes (a ++ b) = chunk_writes a ++ chunk_writes b.
Proof.
  induction a as [|e a IH]; simpl; [reflexivity|].
  destruct e; simpl; now rewrite ?IH.
Qed.

Lemma presented_tokens_app (a b : list Event) :
  presented_tokens (a ++ b) = presented_tokens a ++ presented_tokens b.
Proof.
  induction a as [|e a IH]; simpl; [reflexivity|].
  destruct e; simpl; rewrite ?IH; try reflexivity.
  now destruct (prm_session prm).
Qed.

Section Properties.

Context {World : Type} (sdk : SDK World).

(** *** SetBufferSize *)

(** C8: [SetBufferSize] stores 64 KiB for a size of zero and the size
    itself when it is positive; a negative size panics and the client is
    as it was.  Nothing but the buffer size is ever written. *)
Theorem SetBufferSize_spec (size : Z) (st : St World) :
  let r := SetBufferSize size st in
  (size = 0 ->
     fst r = Ret tt /\ bufsize (st_client (snd r)) = 65536) /\
  (0 < size ->
     fst r = Ret tt /\ bufsize (st_client (snd r)) = size) /\
  (size < 0 ->
     fst r = Panic (PanicMsg "buffer size must be positive") /\ snd r = st) /\
  key (st_client (snd r)) = key (st_client st) /\
  tok (st_client (snd r)) = tok (st_client st) /\
  st_world (snd r) = st_world st /\
  st_trace (snd r) = st_trace st.
Proof.
  unfold SetBufferSize, bind, get_client, set_client, go_panic.
  destruct (Z.ltb_spec size 0) as [Hneg|Hnn]; simpl.
  - repeat split; intros; try lia; reflexivity.
  - destruct (Z.eqb_spec size 0) as [Hz|Hnz]; simpl;
      repeat split; intros; try lia; reflexivity.
Qed.

End Properties.

Section ParseNetworkInfo.

Context {World : Type} (sdk : SDK World).

(** Without a [MaxObjectSize] entry, and with every flag entry decodable,
    the scan keeps [maxObjSize]; [err] and [hhDisabled] keep their values
    only when there is no flag entry either: the first flag entry resets
    [err] to [nil]. *)
Lemma IterateParameters_no_max (ps : list (bytes * bytes)) (s : ParseState) :
  has_key "MaxObjectSize" ps = false ->
  hh_decodable sdk ps = true ->
  ps_maxObjSize (IterateParameters sdk ps s) = ps_maxObjSize s /\
  ps_err (IterateParameters sdk ps s) =
    (if has_key "HomomorphicHashingDisabled" ps then None else ps_err s) /\
  (has_key "HomomorphicHashingDisabled" ps = false ->
   ps_hhDisabled (IterateParameters sdk ps s) = ps_hhDisabled s).
Proof.
  revert s. induction ps as [|p ps IH]; intros s Hmax Hdec.
  - cbn. repeat split; reflexivity.
  - cbn [has_key existsb] in Hmax. apply orb_false_iff in Hmax.
    destruct Hmax as [Hk Hmax].
    cbn [hh_decodable forallb] in Hdec. apply andb_true_iff in Hdec.
    destruct Hdec as [Hp Hdec].
    cbn [IterateParameters has_key existsb]. unfold handleParameter. rewrite Hk.
    destruct (String.eqb (string_of_list_byte (fst p)) "HomomorphicHashingDisabled") eqn:Hh.
    + destruct (stackitem_TryBool sdk (snd p)) as [b e]. cbn [snd] in Hp.
      destruct e as [e|]; [discriminate|].
      destruct (IH (mkParseState (ps_maxObjSize s) b None) Hmax Hdec) as (IH1 & IH2 & _).
      cbn [orb]. repeat split.
      * exact IH1.
      * rewrite IH2. cbn [ps_err].
        now destruct (has_key "HomomorphicHashingDisabled" ps).
      * discriminate.
    + cbn [orb]. apply IH; assumption.
Qed.

(** X2: the case the code does catch, in which neither recognised key
    is present: the error set before the scan is returned. *)
Lemma parseNetworkInfo_no_recognised_key (st : St World) (w' : World) (ni : NetworkInfo) :
  cli_NetworkInfo sdk (st_world st) = (w', Val ni) ->
  has_key "MaxObjectSize" (ni_params ni) = false ->
  has_key "HomomorphicHashingDisabled" (ni_params ni) = false ->
  fst (parseNetworkInfo sdk st) = Ret (0, ni_epoch ni, false, Some errMissesMaxObjectSize).
Proof.
  intros Hni Hmax Hhh.
  unfold parseNetworkInfo, bind, call. rewrite Hni. cbn.
  assert (Hdec : hh_decodable sdk (ni_params ni) = true).
  { unfold hh_decodable. apply forallb_forall. intros p Hp.
    destruct (String.eqb (string_of_list_byte (fst p)) "HomomorphicHashingDisabled") eqn:E;
      [|reflexivity].
    assert (has_key "HomomorphicHashingDisabled" (ni_params ni) = true)
      by (apply existsb_exists; eauto).
    congruence. }
  destruct (IterateParameters_no_max (ni_params ni)
              (mkParseState 0 false (Some errMissesMaxObjectSize)) Hmax Hdec) as (H1 & H2 & H3).
  rewrite Hhh in H2. rewrite H1, H2, (H3 Hhh). reflexivity.
Qed.

(** C2, at the inputs where the code departs from it: when the
    response has no [MaxObjectSize] entry but has a decodable
    [HomomorphicHashingDisabled] entry, [parseNetworkInfo] returns a nil
    error and a maximum object size of zero. *)
Theorem parseNetworkInfo_misses_absent_max (st : St World) (w' : World) (ni : NetworkInfo) :
  cli_NetworkInfo sdk (st_world st) = (w', Val ni) ->
  has_key "MaxObjectSize" (ni_params ni) = false ->
  has_key "HomomorphicHashingDisabled" (ni_params ni) = true ->
  hh_decodable sdk (ni_params ni) = true ->
  exists hh,
    parseNetworkInfo sdk st =
      (Ret (0, ni_epoch ni, hh, None),
       mkSt (st_client st) w' (st_trace st ++ [EvNetworkInfo])).
Proof.
  intros Hni Hmax Hhh Hdec.
  unfold parseNetworkInfo, bind, call. rewrite Hni. cbn.
  destruct (IterateParameters_no_max (ni_params ni)
              (mkParseState 0 false (Some errMissesMaxObjectSize)) Hmax Hdec) as (H1 & H2 & _).
  rewrite Hhh in H2. rewrite H1, H2. eexists. reflexivity.
Qed.

End ParseNetworkInfo.

Lemma parseNetworkInfo_no_recognised_key_witness :
  fst (parseNetworkInfo script_sdk (st0 no_parameters)) =
    Ret (0, 7, false, Some errMissesMaxObjectSize).
Proof.
  apply (parseNetworkInfo_no_recognised_key script_sdk (st0 no_parameters) no_parameters
           (mkNetworkInfo 7 [(list_byte_of_string "EpochDuration", ["240"]%byte)]));
    reflexivity.
Defined.

Lemma parseNetworkInfo_misses_absent_max_witness :
  exists hh,
    parseNetworkInfo script_sdk (st0 flag_only) =
      (Ret (0, 7, hh, None), mkSt client0 flag_only [EvNetworkInfo]).
Proof.
  apply (parseNetworkInfo_misses_absent_max script_sdk (st0 flag_only) flag_only
           netinfo_flag_only); reflexivity.
Defined.

Section OnsiteProperties.

Context {World : Type} (sdk : SDK World).

(** C1, at the inputs where the code departs from it: a limit of 2^63 or
    more becomes negative in [int(maxObjectSize)], so every payload is
    refused as too large although its length is within the limit. *)
Theorem Onsite_refuses_within_limit (st st1 : St World) (maxObjectSize epoch : Z)
    (hhDisabled : bool) (inputContainerID : string) (payload : bytes) :
  parseNetworkInfo sdk st = (Ret (maxObjectSize, epoch, hhDisabled, None), st1) ->
  2 ^ 63 <= maxObjectSize < 2 ^ 64 ->
  len payload < 2 ^ 63 ->
  len payload <= maxObjectSize /\
  Onsite sdk inputContainerID payload st =
    (Panic (PanicMsg (payloadTooLarge (len payload) maxObjectSize)), st1).
Proof.
  intros Hp Hmax Hlen. split; [lia|].
  unfold Onsite, bind. rewrite Hp.
  assert (Hcast : to_int maxObjectSize = maxObjectSize - 2 ^ 64).
  { unfold to_int.
    replace (maxObjectSize + 2 ^ 63) with ((maxObjectSize - 2 ^ 63) + 1 * 2 ^ 64) by lia.
    rewrite Z.mod_add by lia. rewrite Z.mod_small by lia. lia. }
  rewrite Hcast.
  assert (0 <= len payload) by (unfold len; lia).
  destruct (Z.ltb_spec (maxObjectSize - 2 ^ 64) (len payload)); [reflexivity|lia].
Qed.

(** X1: below 2^63 the comparison of line 195 is the one the limit asks for:
    the payload is refused as too large exactly when it is longer than
    the limit. *)
Lemma Onsite_too_large_iff (st st1 : St World) (maxObjectSize epoch : Z)
    (hhDisabled : bool) (inputContainerID : string) (payload : bytes) :
  parseNetworkInfo sdk st = (Ret (maxObjectSize, epoch, hhDisabled, None), st1) ->
  0 <= maxObjectSize < 2 ^ 63 ->
  (fst (Onsite sdk inputContainerID payload st) =
     Panic (PanicMsg (payloadTooLarge (len payload) maxObjectSize))
   <-> maxObjectSize < len payload).
Proof.
  intros Hp Hmax.
  unfold Onsite, bind. rewrite Hp.
  assert (Hcast : to_int maxObjectSize = maxObjectSize).
  { unfold to_int. rewrite Z.mod_small by lia. lia. }
  rewrite Hcast.
  destruct (Z.ltb_spec maxObjectSize (len payload)) as [Hlt|Hge].
  - split; [intros _; exact Hlt|reflexivity].
  - split; [|lia].
    unfold must. destruct (cid_DecodeString sdk inputContainerID); cbn; discriminate.
Qed.

(** What [Onsite] returns when it returns: the payload itself and a
    header that carries the SHA-256 checksum, and the Tillich-Zemor
    checksum unless the resolved flag says it is disabled. *)
Lemma Onsite_returns (st st' : St World) (inputContainerID : string)
    (payload : bytes) (p : PreparedObject) :
  Onsite sdk inputContainerID payload st = (Ret p, st') ->
  exists maxObjectSize epoch hhDisabled,
    parseNetworkInfo sdk st = (Ret (maxObjectSize, epoch, hhDisabled, None), st') /\
    p_payload p = payload /\
    o_payloadChecksum (p_hdr p) = Some (SHA256 (sha256_Sum256 sdk payload)) /\
    o_homomorphicHash (p_hdr p) =
      (if hhDisabled then None else Some (TillichZemor (tz_Sum sdk payload))).
Proof.
  unfold Onsite, bind.
  destruct (parseNetworkInfo sdk st) as [[[[[mx ep] hh] err]|q|] st1]; try discriminate.
  destruct err as [e|]; [discriminate|].
  destruct (to_int mx <? len payload); [discriminate|].
  unfold must. destruct (cid_DecodeString sdk inputContainerID) as [c|e]; [|discriminate].
  cbn. intros H. inversion H; subst. clear H.
  exists mx, ep, hh. cbn.
  destruct hh; cbn; repeat split; reflexivity.
Qed.

(** C6: the header of every prepared object carries the SHA-256 checksum
    of the payload, and the Tillich-Zemor checksum exactly when the flag
    resolved by [parseNetworkInfo] is false. *)
Theorem Onsite_checksums (st st' : St World) (inputContainerID : string)
    (payload : bytes) (p : PreparedObject) :
  Onsite sdk inputContainerID payload st = (Ret p, st') ->
  exists maxObjectSize epoch hhDisabled,
    parseNetworkInfo sdk st = (Ret (maxObjectSize, epoch, hhDisabled, None), st') /\
    p_payload p = payload /\
    o_payloadChecksum (p_hdr p) = Some (SHA256 (sha256_Sum256 sdk payload)) /\
    o_homomorphicHash (p_hdr p) =
      (if hhDisabled then None else Some (TillichZemor (tz_Sum sdk payload))) /\
    (o_homomorphicHash (p_hdr p) <> None <-> hhDisabled = false).
Proof.
  intros H.
  destruct (Onsite_returns st st' inputContainerID payload p H)
    as (mx & ep & hh & Hp & Hpl & Hsha & Hhh).
  exists mx, ep, hh. repeat (split; [assumption|]).
  rewrite Hhh. destruct hh; split; congruence.
Qed.

End OnsiteProperties.

Lemma Onsite_refuses_within_limit_witness :
  len payload9 <= 2 ^ 64 - 1 /\
  Onsite script_sdk "cnr" payload9 (st0 unlimited) =
    (Panic (PanicMsg "payload size 9 is bigger than network limit 18446744073709551615"),
     mkSt client0 unlimited [EvNetworkInfo]).
Proof.
  apply (Onsite_refuses_within_limit script_sdk (st0 unlimited)
           (mkSt client0 unlimited [EvNetworkInfo]) (2 ^ 64 - 1) 7 false "cnr" payload9).
  - reflexivity.
  - lia.
  - reflexivity.
Defined.

Lemma Onsite_too_large_iff_witness :
  fst (Onsite script_sdk "cnr" payload9 (st0 friendly)) =
    Panic (PanicMsg (payloadTooLarge (len payload9) 67108864))
  <-> 67108864 < len payload9.
Proof.
  apply (Onsite_too_large_iff script_sdk (st0 friendly)
           (mkSt client0 friendly [EvNetworkInfo]) 67108864 7 false "cnr" payload9);
    [reflexivity|lia].
Defined.

Example Onsite_prepared9 :
  Onsite script_sdk "cnr" payload9 (st0 friendly) =
    (Ret prepared9, mkSt client0 friendly [EvNetworkInfo]).
Proof. reflexivity. Qed.

Lemma Onsite_checksums_witness :
  exists maxObjectSize epoch hhDisabled,
    parseNetworkInfo script_sdk (st0 friendly) =
      (Ret (maxObjectSize, epoch, hhDisabled, None), mkSt client0 friendly [EvNetworkInfo]) /\
    p_payload prepared9 = payload9 /\
    o_payloadChecksum (p_hdr prepared9) = Some (SHA256 (sha256_Sum256 script_sdk payload9)) /\
    o_homomorphicHash (p_hdr prepared9) =
      (if hhDisabled then None else Some (TillichZemor (tz_Sum script_sdk payload9))) /\
    (o_homomorphicHash (p_hdr prepared9) <> None <-> hhDisabled = false).
Proof.
  apply (Onsite_checksums script_sdk (st0 friendly) (mkSt client0 friendly [EvNetworkInfo])
           "cnr" payload9 prepared9).
  reflexivity.
Defined.

(** *** The streaming loop of put *)

Lemma Reader_Read_nat (s buf : bytes) (i : nat) :
  (i <= List.length s)%nat ->
  let k := Nat.min (List.length buf) (List.length (skipn i s)) in
  exists buf' e,
    Reader_Read (mkReader s (Z.of_nat i)) buf =
      (mkReader s (Z.of_nat (i + k)), buf', (Z.of_nat k, e)) /\
    List.length buf' = List.length buf /\
    firstn k buf' = firstn k (skipn i s).
Proof.
  intros Hi k. unfold Reader_Read. cbn [r_s r_i]. unfold len.
  destruct (Z.leb_spec (Z.of_nat (List.length s)) (Z.of_nat i)) as [Heof|Hmore].
  - assert (Hk : k = 0%nat).
    { unfold k. rewrite length_skipn. lia. }
    exists buf, (Some io_EOF). rewrite Hk, Nat.add_0_r. repeat split; reflexivity.
  - rewrite Nat2Z.id. unfold copy. fold k.
    exists (firstn k (skipn i s) ++ skipn k buf), None.
    assert (Hlen : List.length (firstn k (skipn i s)) = k).
    { rewrite length_firstn. unfold k. lia. }
    repeat split.
    + rewrite <- Nat2Z.inj_add. reflexivity.
    + rewrite length_app, Hlen, length_skipn. unfold k. lia.
    + rewrite firstn_app, Hlen, Nat.sub_diag. cbn [firstn].
      rewrite app_nil_r. rewrite firstn_all2 by lia. reflexivity.
Qed.

Lemma chunks_ok_nil (B : nat) (P : bytes) :
  Nat.min B (List.length P) = 0%nat -> chunks_ok B P [].
Proof.
  intros Hmin. unfold chunks_ok. cbn. repeat split; try constructor.
  - exists P. reflexivity.
  - intros HB _. destruct P; [reflexivity|cbn in Hmin; lia].
Qed.

Lemma chunks_ok_rejected (B k : nat) (P : bytes) :
  (0 < k <= B)%nat -> (k <= List.length P)%nat ->
  chunks_ok B P [(firstn k P, false)].
Proof.
  intros Hk HP. unfold chunks_ok. cbn.
  repeat split; try discriminate; auto.
  - constructor; [|constructor]. cbn. rewrite length_firstn. lia.
  - exists (skipn k P). rewrite app_nil_r. symmetry. apply firstn_skipn.
Qed.

Lemma chunks_ok_accepted (B k : nat) (P : bytes) (cs : list (bytes * bool)) :
  (0 < k <= B)%nat -> (k <= List.length P)%nat ->
  chunks_ok B (skipn k P) cs ->
  chunks_ok B P ((firstn k P, true) :: cs).
Proof.
  intros Hk HP (Hsz & (rest & Hpre) & Hall & Hrej). unfold chunks_ok. cbn.
  repeat split; auto.
  - constructor; [|exact Hsz]. cbn. rewrite length_firstn. lia.
  - exists rest. rewrite <- app_assoc, <- Hpre. symmetry. apply firstn_skipn.
  - intros HB Hok. rewrite (Hall HB Hok). apply firstn_skipn.
  - discriminate.
Qed.

Section PutLoop.

Context {World : Type} (sdk : SDK World).

(** The loop, entered with the [k] bytes at offset [i - k] in the
    buffer and the reader at offset [i], writes the pending bytes as
    [chunks_ok] says and never runs out of fuel. *)
Lemma put_loop_spec (fuel : nat) :
  forall (buf s : bytes) (i k : nat) (st : St World),
    (0 < List.length buf)%nat ->
    (k <= i <= List.length s)%nat ->
    k = Nat.min (List.length buf) (List.length (skipn (i - k) s)) ->
    firstn k buf = firstn k (skipn (i - k) s) ->
    (0 < k -> List.length s - i < fuel)%nat ->
    exists cs st',
      put_loop sdk fuel buf (mkReader s (Z.of_nat i)) (Z.of_nat k) st = (Ret tt, st') /\
      st_client st' = st_client st /\
      st_trace st' = st_trace st ++ map chunk_event cs /\
      chunks_ok (List.length buf) (skipn (i - k) s) cs.
Proof.
  induction fuel as [|fuel IH]; intros buf s i k st HB Hik Hk Hbuf Hfuel.
  - assert (k = 0)%nat by lia. subst k.
    exists [], st. cbn [put_loop Z.of_nat Z.ltb Z.compare ret map].
    rewrite app_nil_r. split; [|split; [|split]]; try reflexivity.
      apply chunks_ok_nil. congruence.
  - destruct k as [|k'].
    + exists [], st. cbn [put_loop Z.of_nat Z.ltb Z.compare ret map].
      rewrite app_nil_r. split; [|split; [|split]]; try reflexivity.
      apply chunks_ok_nil. congruence.
    + set (k := S k') in *.
      set (P := skipn (i - k) s) in *.
      assert (HkP : (k <= List.length P)%nat) by lia.
      assert (HkB : (0 < k <= List.length buf)%nat) by (unfold k; lia).
      assert (HP' : skipn k P = skipn i s).
      { unfold P. rewrite skipn_skipn. f_equal. lia. }
      cbn [put_loop].
      replace (0 <? Z.of_nat k) with true by (symmetry; apply Z.ltb_lt; unfold k; lia).
      rewrite Nat2Z.id. unfold bind at 1. unfold call at 1.
      destruct (w_WritePayloadChunk sdk (firstn k buf) (st_world st)) as [w1 ok] eqn:Hw.
      rewrite Hbuf.
      destruct ok; cbn [negb].
      * destruct (Reader_Read_nat s buf i (proj2 Hik)) as (buf' & e & Hrd & Hlen' & Hfst).
        rewrite Hrd.
        set (k2 := Nat.min (List.length buf) (List.length (skipn i s))) in *.
        assert (Hk2le : (k2 <= List.length s - i)%nat)
          by (unfold k2; rewrite length_skipn; lia).
        assert (Hfuel' : (List.length s - i < S fuel)%nat) by (apply Hfuel; unfold k; lia).
        destruct (IH buf' s (i + k2)%nat k2
                    (mkSt (st_client st) w1
                       (st_trace st ++ [EvWritePayloadChunk (firstn k P) true])))
          as (cs & st' & Hrun & Hcl & Htr & Hok).
        -- lia.
        -- lia.
        -- rewrite Hlen'. replace (i + k2 - k2)%nat with i by lia. reflexivity.
        -- replace (i + k2 - k2)%nat with i by lia. exact Hfst.
        -- intros Hk2. lia.
        -- exists ((firstn k P, true) :: cs), st'.
           split; [exact Hrun|]. split; [exact Hcl|]. split.
           ++ rewrite Htr. cbn [st_trace map]. rewrite <- app_assoc. reflexivity.
           ++ apply chunks_ok_accepted; try assumption.
              rewrite HP'. rewrite Hlen' in Hok.
              replace (i + k2 - k2)%nat with i in Hok by lia. exact Hok.
      * exists [(firstn k P, false)], (mkSt (st_client st) w1
                  (st_trace st ++ [EvWritePayloadChunk (firstn k P) false])).
        split; [|split; [|split]]; try reflexivity. apply chunks_ok_rejected; assumption.
Qed.

(** Lines 298-304 on a fresh reader: the payload is written as
    [chunks_ok] says. *)
Lemma put_stream_spec (buf payload : bytes) (st : St World) :
  exists cs st',
    put_stream sdk buf (NewReader payload) st = (Ret tt, st') /\
    st_client st' = st_client st /\
    st_trace st' = st_trace st ++ map chunk_event cs /\
    chunks_ok (List.length buf) payload cs.
Proof.
  unfold put_stream, NewReader.
  destruct (Reader_Read_nat payload buf 0 (Nat.le_0_l _)) as (buf' & e & Hrd & Hlen' & Hfst).
  cbn [skipn Nat.add Z.of_nat] in *. rewrite Hrd. cbn [r_s].
  set (k := Nat.min (List.length buf) (List.length payload)) in *.
  destruct (Nat.eq_dec (List.length buf) 0) as [HB0|HB].
  - assert (k = 0%nat) by (unfold k; lia).
    exists [], st. rewrite H. cbn [Z.of_nat map].
    rewrite app_nil_r. split.
    + destruct (List.length payload); reflexivity.
    + split; [|split]; try reflexivity. apply chunks_ok_nil. rewrite HB0. reflexivity.
  - destruct (put_loop_spec (List.length payload) buf' payload k k st)
      as (cs & st' & Hrun & Hcl & Htr & Hok).
    + lia.
    + unfold k. lia.
    + rewrite Nat.sub_diag. cbn [skipn]. rewrite Hlen'. reflexivity.
    + rewrite Nat.sub_diag. exact Hfst.
    + lia.
    + exists cs, st'. rewrite Nat.sub_diag in Hok. cbn [skipn] in Hok.
      rewrite Hlen' in Hok. auto.
Qed.

End PutLoop.

(** *** put *)

Ltac run_monad :=
  unfold Report, ReportDataSent, ReportDataReceived, ObjectWriter_Close,
    ObjectReader_Close, since;
  unfold bind, ret, go_panic, call, emit, now, get_client, set_client;
  cbn [fst snd st_client st_world st_trace].

Section PutProperties.

Context {World : Type} (sdk : SDK World).

Lemma put_out_of_range (bufSize : Z) (tok : option Token) (hdr : Object)
    (payload : bytes) (st : St World) :
  bufSize < 0 \/ maxAlloc < bufSize ->
  put sdk bufSize tok hdr payload st = (Panic PanicMakeLen, st).
Proof.
  intros H. unfold put, make_bytes, bind at 1.
  rewrite (out_of_range_true _ H). reflexivity.
Qed.

(** [put] with a buffer size that [make] can allocate returns, along
    one of the four ways of [put_outcome], and leaves the client alone. *)
Lemma put_spec (bufSize : Z) (tok : option Token) (hdr : Object)
    (payload : bytes) (st : St World) :
  0 <= bufSize <= maxAlloc ->
  exists r st' new,
    put sdk bufSize tok hdr payload st = (Ret r, st') /\
    st_client st' = st_client st /\
    st_trace st' = st_trace st ++ new /\
    put_outcome (Z.to_nat bufSize) tok hdr payload new r.
Proof.
  intros HB. unfold put, make_bytes.
  rewrite (out_of_range_false bufSize) by lia.
  unfold bind at 1. unfold ret at 1.
  unfold bind at 1. unfold Report, emit at 1. cbn [fst snd st_client st_world st_trace].
  unfold bind at 1. unfold now at 1. cbn [fst snd st_client st_world st_trace].
  unfold bind at 1. unfold call at 1. cbn [fst snd st_client st_world st_trace].
  destruct (cli_ObjectPutInit sdk (st_world st)) as [w1 e] eqn:Hinit.
  destruct e as [err|].
  - run_monad. do 3 eexists. split; [reflexivity|]. split; [reflexivity|]. split.
    + cbn [st_trace]. rewrite <- !app_assoc. reflexivity.
    + constructor.
  - unfold bind at 1.
    set (st1 := mkSt (st_client st) w1
                  ((st_trace st ++ [EvReport objPutTotal 1]) ++ [EvObjectPutInit None])).
    assert (Htok : exists w2,
               (match tok with
                | Some t => call (fun w => (w_WithinSession sdk t w, tt))
                                 (fun _ => EvWithinSession t)
                | None => ret tt
                end) st1 = (Ret tt, mkSt (st_client st) w2 (st_trace st1 ++ tok_events tok))).
    { destruct tok as [t|]; run_monad; eexists.
      - reflexivity.
      - unfold st1. cbn [tok_events st_trace st_client st_world]. rewrite app_nil_r.
        reflexivity. }
    destruct Htok as (w2 & Htok). rewrite Htok.
    unfold bind at 1. unfold call at 1. cbn [fst snd st_client st_world st_trace].
    destruct (w_WriteHeader sdk hdr w2) as [w3 ok] eqn:Hhdr.
    destruct ok; cbn [negb].
    + set (st3 := mkSt (st_client st) w3 _).
      destruct (put_stream_spec sdk (repeat "000"%byte (Z.to_nat bufSize)) payload st3)
        as (cs & st4 & Hrun & Hcl & Htr & Hok).
      rewrite repeat_length in Hok.
      unfold put_transfer. unfold bind at 1. rewrite Hrun.
      unfold bind at 1. unfold ObjectWriter_Close, call at 1.
      destruct (w_Close sdk (st_world st4)) as [w5 [resp e]] eqn:Hclose.
      cbn [fst snd]. destruct e as [err|].
      * run_monad. do 3 eexists. split; [reflexivity|]. split; [exact Hcl|]. split.
        -- cbn [st_trace]. rewrite Htr. unfold st3, st1. cbn [st_trace].
           rewrite <- !app_assoc. reflexivity.
        -- cbn [app]. apply (put_close_failed _ tok hdr payload cs err Hok).
      * run_monad. do 3 eexists. split; [reflexivity|]. split; [exact Hcl|]. split.
        -- cbn [st_trace]. rewrite Htr. unfold st3, st1. cbn [st_trace].
           rewrite <- !app_assoc. reflexivity.
        -- cbn [app]. unfold Reader_Size, NewReader. cbn [r_s].
           apply (put_closed _ tok hdr payload cs resp _ Hok).
    + run_monad.
      destruct (w_Close sdk w3) as [w5 [resp e]] eqn:Hclose.
      cbn [fst snd]. do 3 eexists. split; [reflexivity|]. split; [reflexivity|]. split.
      * cbn [st_trace]. unfold st1. cbn [st_trace].
        rewrite <- !app_assoc. reflexivity.
      * cbn [app]. apply (put_header_rejected _ tok hdr payload e).
Qed.

End PutProperties.

(** A chunk of a sequence that makes up a prefix of [P] sits in [P] at
    the offset the chunks before it add up to. *)
Lemma chunk_at_offset (P rest : bytes) (cs before after : list (bytes * bool))
    (c : bytes * bool) :
  P = List.concat (map fst cs) ++ rest ->
  cs = before ++ c :: after ->
  fst c = firstn (List.length (fst c))
            (skipn (List.length (List.concat (map fst before))) P).
Proof.
  intros HP Hcs. subst cs. subst P.
  rewrite map_app, concat_app. cbn [map List.concat].
  rewrite <- !app_assoc.
  rewrite skipn_app, Nat.sub_diag, skipn_all. cbn [skipn app].
  rewrite firstn_app, Nat.sub_diag, firstn_all. cbn [firstn].
  now rewrite app_nil_r.
Qed.

Lemma chunk_writes_chunk_events (cs : list (bytes * bool)) :
  chunk_writes (map chunk_event cs) = cs.
Proof.
  induction cs as [|[c ok] cs IH]; cbn; [reflexivity|]. now rewrite IH.
Qed.

Lemma chunk_writes_tok_events (t : option Token) : chunk_writes (tok_events t) = [].
Proof. destruct t; reflexivity. Qed.

(** On the store [two_chunks] two chunks of four bytes are accepted,
    the last byte is rejected, and the stream is closed next. *)
Example put_two_chunks_trace :
  st_trace (snd (put script_sdk 4 None zero_Object payload9 (st0 two_chunks))) =
    [ EvReport objPutTotal 1; EvObjectPutInit None; EvWriteHeader zero_Object true;
      EvWritePayloadChunk ["001"; "002"; "003"; "004"]%byte true;
      EvWritePayloadChunk ["005"; "006"; "007"; "008"]%byte true;
      EvWritePayloadChunk ["009"]%byte false;
      EvPutClose (Some "stream closed"); EvReport objPutFails 1 ].
Proof. reflexivity. Qed.

(** *** Attributes *)

Lemma set_nth_app {A : Type} (f : A -> A) (done rest : list A) (x : A) :
  set_nth (List.length done) f (done ++ x :: rest) = done ++ f x :: rest.
Proof.
  induction done as [|d done IH]; cbn; [reflexivity|]. now rewrite IH.
Qed.

Lemma fill_attrs_spec (headers : list (string * string)) :
  forall done : list Attribute,
    fill_attrs headers (done ++ repeat zero_Attribute (List.length headers)) (List.length done) =
      (done ++ map (fun kv => mkAttribute (fst kv) (snd kv)) headers,
       (List.length done + List.length headers)%nat).
Proof.
  induction headers as [|kv hs IH]; intros done.
  - cbn. rewrite !app_nil_r, Nat.add_0_r. reflexivity.
  - unfold fill_attrs in *. cbn [fold_left List.length repeat map].
    rewrite set_nth_app.
    replace (done ++ SetValue (snd kv) (SetKey (fst kv) zero_Attribute)
                  :: repeat zero_Attribute (List.length hs))
      with ((done ++ [mkAttribute (fst kv) (snd kv)]) ++ repeat zero_Attribute (List.length hs))
      by (rewrite <- app_assoc; reflexivity).
    replace (S (List.length done)) with (List.length (done ++ [mkAttribute (fst kv) (snd kv)]))
      by (rewrite length_app; cbn; lia).
    rewrite IH. rewrite <- app_assoc, length_app. cbn [List.length app].
    f_equal. lia.
Qed.

(** The attribute slice holds the entries of the map in the order they
    were visited. *)
Lemma make_attrs_map (headers : list (string * string)) :
  make_attrs headers = map (fun kv => mkAttribute (fst kv) (snd kv)) headers.
Proof.
  unfold make_attrs. pose proof (fill_attrs_spec headers []) as H.
  cbn [app List.length] in H. rewrite H. reflexivity.
Qed.

(** *** The failure counter and the tokens in the traces of put *)

Lemma fail_reports_chunk_events (m : Metric) (cs : list (bytes * bool)) :
  fail_reports m (map chunk_event cs) = 0%nat.
Proof.
  induction cs as [|c cs IH]; [reflexivity|].
  unfold fail_reports in *. cbn. destruct m; exact IH.
Qed.

Lemma fail_reports_tok_events (m : Metric) (t : option Token) :
  fail_reports m (tok_events t) = 0%nat.
Proof. destruct t; destruct m; reflexivity. Qed.

Lemma presented_tokens_chunk_events (cs : list (bytes * bool)) :
  presented_tokens (map chunk_event cs) = [].
Proof. induction cs as [|c cs IH]; [reflexivity|exact IH]. Qed.

Lemma written_headers_app (a b : list Event) :
  written_headers (a ++ b) = written_headers a ++ written_headers b.
Proof.
  induction a as [|e a IH]; simpl; [reflexivity|].
  destruct e; simpl; now rewrite ?IH.
Qed.

Lemma written_headers_chunk_events (cs : list (bytes * bool)) :
  written_headers (map chunk_event cs) = [].
Proof. induction cs as [|c cs IH]; [reflexivity|exact IH]. Qed.

Lemma written_headers_tok_events (t : option Token) : written_headers (tok_events t) = [].
Proof. destruct t; reflexivity. Qed.

(** Every way through [put] that returns an error reports the failure
    counter once; the way that ends in a successful close does not
    report it; the way through a rejected header reports it once
    whatever the close returns. *)
Lemma put_outcome_fail_reports (B : nat) (tok : option Token) (hdr : Object)
    (payload : bytes) (new : list Event) (r : option ResObjectPut * option error) :
  put_outcome B tok hdr payload new r ->
  (snd r <> None -> fail_reports objPutFails new = 1%nat) /\
  (snd r = None ->
   fail_reports objPutFails new = 0%nat \/
   (fst r = None /\ In (EvWriteHeader hdr false) new /\
    fail_reports objPutFails new = 1%nat)).
Proof.
  intros H. inversion H; subst; cbn [fst snd].
  - split; [reflexivity|discriminate].
  - assert (Hn : fail_reports objPutFails
             ([EvReport objPutTotal 1; EvObjectPutInit None] ++
              tok_events tok ++ [EvWriteHeader hdr false; EvReport objPutFails 1; EvPutClose e])
             = 1%nat).
    { rewrite !fail_reports_app, fail_reports_tok_events. reflexivity. }
    split; [intros _; exact Hn|]. intros _. right.
    split; [reflexivity|]. split; [|exact Hn].
    apply in_or_app. right. apply in_or_app. right. left. reflexivity.
  - split; [|discriminate]. intros _.
    rewrite !fail_reports_app, fail_reports_tok_events, fail_reports_chunk_events.
    reflexivity.
  - split; [intros C; now elim C|]. intros _. left.
    rewrite !fail_reports_app, fail_reports_tok_events, fail_reports_chunk_events.
    reflexivity.
Qed.

Lemma put_outcome_headers (B : nat) (tok : option Token) (hdr : Object)
    (payload : bytes) (new : list Event) (r : option ResObjectPut * option error) :
  put_outcome B tok hdr payload new r ->
  written_headers new = [] \/ written_headers new = [hdr].
Proof.
  intros H. inversion H; subst; [left; reflexivity|right..];
    cbn [app written_headers];
    rewrite !written_headers_app, written_headers_tok_events;
    cbn [app written_headers]; try reflexivity;
    rewrite !written_headers_app, written_headers_chunk_events; reflexivity.
Qed.

Lemma put_outcome_chunks (B : nat) (tok : option Token) (hdr : Object)
    (payload : bytes) (new : list Event) (r : option ResObjectPut * option error) :
  put_outcome B tok hdr payload new r ->
  exists rest, payload = List.concat (map fst (chunk_writes new)) ++ rest.
Proof.
  intros H. inversion H; subst.
  - exists payload. reflexivity.
  - exists payload. cbn [app chunk_writes].
    rewrite chunk_writes_app, chunk_writes_tok_events. reflexivity.
  - cbn [app chunk_writes]. rewrite !chunk_writes_app, chunk_writes_tok_events.
    cbn [app chunk_writes]. rewrite chunk_writes_app, chunk_writes_chunk_events.
    cbn [chunk_writes]. rewrite app_nil_r.
    destruct H0 as (_ & Hpre & _). exact Hpre.
  - cbn [app chunk_writes]. rewrite !chunk_writes_app, chunk_writes_tok_events.
    cbn [app chunk_writes]. rewrite chunk_writes_app, chunk_writes_chunk_events.
    cbn [chunk_writes]. rewrite app_nil_r.
    destruct H0 as (_ & Hpre & _). exact Hpre.
Qed.

(** *** Client.Put and PreparedObject.Put *)

Section PutCallers.

Context {World : Type} (sdk : SDK World).

(** The run of [put] in which the header is rejected and the close
    returns no error: the failure counter is reported and [put] returns
    a nil response with a nil error (line 295). *)
Lemma put_header_rejected_run (bufSize : Z) (tok : option Token) (hdr : Object)
    (payload : bytes) (st : St World) (w1 w2 w3 : World) (resp : option ResObjectPut) :
  0 <= bufSize <= maxAlloc ->
  cli_ObjectPutInit sdk (st_world st) = (w1, None) ->
  w_WriteHeader sdk hdr
    (match tok with Some t => w_WithinSession sdk t w1 | None => w1 end) = (w2, false) ->
  w_Close sdk w2 = (w3, (resp, None)) ->
  put sdk bufSize tok hdr payload st =
    (Ret (None, None),
     mkSt (st_client st) w3
       (st_trace st ++
        [EvReport objPutTotal 1; EvObjectPutInit None] ++ tok_events tok ++
        [EvWriteHeader hdr false; EvReport objPutFails 1; EvPutClose None])).
Proof.
  intros HB Hinit Hhdr Hclose. unfold put, make_bytes.
  rewrite (out_of_range_false bufSize) by lia.
  run_monad. rewrite Hinit.
  destruct tok as [t|]; cbn [fst snd st_client st_world st_trace tok_events];
    rewrite Hhdr; cbn [negb fst snd st_client st_world st_trace]; rewrite Hclose;
    cbn [fst snd]; rewrite <- !app_assoc; reflexivity.
Qed.

(** [Client.Put] once the container identifier is decoded and the token
    signed: [put] runs with the scoped token and the object of lines
    104-107, and its result becomes the response. *)
Lemma Client_Put_eq (inputContainerID : string) (headers : list (string * string))
    (payload : bytes) (st : St World) (containerID : ID) (sg : Signature) :
  cid_DecodeString sdk inputContainerID = Val containerID ->
  session_Sign sdk (key (st_client st))
    (ApplyTo (mkAddress (Some containerID) None)
       (ForVerb VerbObjectPut (tok (st_client st)))) = Val sg ->
  Client_Put sdk inputContainerID headers payload st =
    bind (put sdk (bufsize (st_client st))
            (Some (scoped (tok (st_client st)) VerbObjectPut
                     (mkAddress (Some containerID) None) sg))
            (put_object sdk (st_client st) containerID headers) payload)
         (fun r =>
            match r with
            | (_, Some err) => ret (mkPutResponse false "" err)
            | (None, None) => go_panic PanicNilDeref
            | (Some resp, None) =>
                ret (mkPutResponse true (oid_String sdk (ReadStoredObjectID resp zero_ID)) "")
            end) st.
Proof.
  intros Hcid Hsg.
  unfold Client_Put, must, Token_Sign, Address_SetContainerID, zero_Address.
  unfold bind at 1. rewrite Hcid. unfold ret at 1.
  unfold bind at 1. unfold get_client at 1.
  unfold bind at 1. cbn [addr_obj]. rewrite Hsg. unfold ret at 1.
  reflexivity.
Qed.

(** [Client.Put] either panics before it calls [put] and leaves the
    state as it was, or runs [put] along one of its four ways. *)
Lemma Client_Put_cases (inputContainerID : string) (headers : list (string * string))
    (payload : bytes) (st : St World) :
  (exists p, Client_Put sdk inputContainerID headers payload st = (Panic p, st)) \/
  exists containerID sg r st' new,
    cid_DecodeString sdk inputContainerID = Val containerID /\
    session_Sign sdk (key (st_client st))
      (ApplyTo (mkAddress (Some containerID) None)
         (ForVerb VerbObjectPut (tok (st_client st)))) = Val sg /\
    put_outcome (Z.to_nat (bufsize (st_client st)))
      (Some (scoped (tok (st_client st)) VerbObjectPut (mkAddress (Some containerID) None) sg))
      (put_object sdk (st_client st) containerID headers) payload new r /\
    st_client st' = st_client st /\
    st_trace st' = st_trace st ++ new /\
    Client_Put sdk inputContainerID headers payload st =
      (match r with
       | (_, Some err) => Ret (mkPutResponse false "" err)
       | (None, None) => Panic PanicNilDeref
       | (Some resp, None) =>
           Ret (mkPutResponse true (oid_String sdk (ReadStoredObjectID resp zero_ID)) "")
       end, st').
Proof.
  destruct (cid_DecodeString sdk inputContainerID) as [containerID|e] eqn:Hcid.
  2:{ left. exists (PanicErr e). unfold Client_Put, must. unfold bind at 1.
      rewrite Hcid. reflexivity. }
  destruct (session_Sign sdk (key (st_client st))
              (ApplyTo (mkAddress (Some containerID) None)
                 (ForVerb VerbObjectPut (tok (st_client st))))) as [sg|e] eqn:Hsg.
  2:{ left. exists (PanicErr e).
      unfold Client_Put, must, Token_Sign, Address_SetContainerID, zero_Address.
      unfold bind at 1. rewrite Hcid. unfold ret at 1.
      unfold bind at 1. unfold get_client at 1.
      unfold bind at 1. cbn [addr_obj]. rewrite Hsg. reflexivity. }
  rewrite (Client_Put_eq _ _ _ _ _ _ Hcid Hsg). unfold bind.
  destruct (out_of_range_spec (bufsize (st_client st))) as [[_ Hout]|[_ Hin]].
  - left. rewrite (put_out_of_range sdk _ _ _ _ _ Hout). eexists. reflexivity.
  - right.
    destruct (put_spec sdk (bufsize (st_client st))
                (Some (scoped (tok (st_client st)) VerbObjectPut
                         (mkAddress (Some containerID) None) sg))
                (put_object sdk (st_client st) containerID headers) payload st)
      as (r & st' & new & Hrun & Hcl & Htr & Hout); [lia|].
    exists containerID, sg, r, st', new.
    rewrite Hrun. repeat (split; [assumption || reflexivity|]).
    destruct r as [[resp|] [err|]]; reflexivity.
Qed.

(** [PreparedObject.Put] once the identifier and the signature are
    computed: [put] runs without a token on the finalized copy of the
    prepared header. *)
Lemma PreparedObject_Put_eq (p : PreparedObject) (headers : list (string * string))
    (st : St World) (id : ID) (sg : Signature) :
  object_CalculateID sdk (SetAttributes (make_attrs headers) (p_hdr p)) = Val id ->
  object_CalculateIDSignature sdk (p_key p)
    (SetID id (SetAttributes (make_attrs headers) (p_hdr p))) = Val sg ->
  PreparedObject_Put sdk p headers st =
    bind (put sdk (p_bufsize p) None (finalized p headers id sg) (p_payload p))
         (fun r =>
            match snd r with
            | Some err => ret (mkPutResponse false "" err)
            | None => ret (mkPutResponse true (oid_String sdk id) "")
            end) st.
Proof.
  intros Hid Hsg. unfold PreparedObject_Put. rewrite Hid, Hsg. reflexivity.
Qed.

(** [PreparedObject.Put] either fails to compute the identifier or the
    signature and returns a failed response without calling [put], or
    panics on a buffer size [make] refuses, or runs [put] along one of its
    four ways. *)
Lemma PreparedObject_Put_cases (p : PreparedObject) (headers : list (string * string))
    (st : St World) :
  (exists e, PreparedObject_Put sdk p headers st = (Ret (mkPutResponse false "" e), st)) \/
  (PreparedObject_Put sdk p headers st = (Panic PanicMakeLen, st)) \/
  exists id sg r st' new,
    object_CalculateID sdk (SetAttributes (make_attrs headers) (p_hdr p)) = Val id /\
    object_CalculateIDSignature sdk (p_key p)
      (SetID id (SetAttributes (make_attrs headers) (p_hdr p))) = Val sg /\
    put_outcome (Z.to_nat (p_bufsize p)) None (finalized p headers id sg) (p_payload p) new r /\
    st_trace st' = st_trace st ++ new /\
    PreparedObject_Put sdk p headers st =
      (match snd r with
       | Some err => Ret (mkPutResponse false "" err)
       | None => Ret (mkPutResponse true (oid_String sdk id) "")
       end, st').
Proof.
  destruct (object_CalculateID sdk (SetAttributes (make_attrs headers) (p_hdr p)))
    as [id|e] eqn:Hid.
  2:{ left. exists e. unfold PreparedObject_Put. rewrite Hid. reflexivity. }
  destruct (object_CalculateIDSignature sdk (p_key p)
              (SetID id (SetAttributes (make_attrs headers) (p_hdr p))))
    as [sg|e] eqn:Hsg.
  2:{ left. exists e. unfold PreparedObject_Put. rewrite Hid, Hsg. reflexivity. }
  right. rewrite (PreparedObject_Put_eq p headers st id sg Hid Hsg). unfold bind.
  destruct (out_of_range_spec (p_bufsize p)) as [[_ Hout]|[_ Hin]].
  - left. rewrite (put_out_of_range sdk _ _ _ _ _ Hout). reflexivity.
  - right.
    destruct (put_spec sdk (p_bufsize p) None (finalized p headers id sg) (p_payload p) st)
      as (r & st' & new & Hrun & Hcl & Htr & Hout); [lia|].
    exists id, sg, r, st', new. rewrite Hrun.
    repeat (split; [assumption || reflexivity|]).
    destruct (snd r); reflexivity.
Qed.

(** X3: with a buffer size that [make] can allocate, neither negative
    nor above the allocation limit, [put] returns; every return of [put]
    with an error has reported the failure counter exactly once; a
    return without an error has not reported it, unless the header was
    rejected, in which case the response is nil and the counter was
    reported once. *)
Lemma put_failure_counter (bufSize : Z) (tok : option Token) (hdr : Object)
    (payload : bytes) (st : St World) :
  0 <= bufSize <= maxAlloc ->
  exists r st' new,
    put sdk bufSize tok hdr payload st = (Ret r, st') /\
    st_trace st' = st_trace st ++ new /\
    (snd r <> None -> fail_reports objPutFails new = 1%nat) /\
    (snd r = None ->
     fail_reports objPutFails new = 0%nat \/
     (fst r = None /\ In (EvWriteHeader hdr false) new /\
      fail_reports objPutFails new = 1%nat)).
Proof.
  intros HB.
  destruct (put_spec sdk bufSize tok hdr payload st HB)
    as (r & st' & new & Hrun & _ & Htr & Hout).
  exists r, st', new. split; [exact Hrun|]. split; [exact Htr|].
  exact (put_outcome_fail_reports _ _ _ _ _ _ Hout).
Qed.

(** C4, at the inputs where the code departs from it: when the stream
    rejects the header and its close returns no error, [put] has
    reported the failure counter once and yet returns a nil error, which
    [PreparedObject.Put] hands to the caller as a success. *)
Theorem PreparedObject_Put_success_after_failure_report (p : PreparedObject)
    (headers : list (string * string)) (st : St World) (id : ID) (sg : Signature)
    (w1 w2 w3 : World) (resp : option ResObjectPut) :
  0 <= p_bufsize p <= maxAlloc ->
  object_CalculateID sdk (SetAttributes (make_attrs headers) (p_hdr p)) = Val id ->
  object_CalculateIDSignature sdk (p_key p)
    (SetID id (SetAttributes (make_attrs headers) (p_hdr p))) = Val sg ->
  cli_ObjectPutInit sdk (st_world st) = (w1, None) ->
  w_WriteHeader sdk (finalized p headers id sg) w1 = (w2, false) ->
  w_Close sdk w2 = (w3, (resp, None)) ->
  exists st' new,
    PreparedObject_Put sdk p headers st =
      (Ret (mkPutResponse true (oid_String sdk id) ""), st') /\
    st_trace st' = st_trace st ++ new /\
    fail_reports objPutFails new = 1%nat.
Proof.
  intros HB Hid Hsg Hinit Hhdr Hclose.
  rewrite (PreparedObject_Put_eq p headers st id sg Hid Hsg). unfold bind.
  rewrite (put_header_rejected_run (p_bufsize p) None (finalized p headers id sg)
             (p_payload p) st w1 w2 w3 resp HB Hinit Hhdr Hclose).
  cbn [snd]. do 2 eexists. split; [reflexivity|]. split; [reflexivity|]. reflexivity.
Qed.

(** The run of [Client.Put] in which the stream rejects the header and
    its close returns no error: the inner [put] returns a nil error with
    a nil response, and line 115 dereferences it. *)
Lemma Client_Put_nil_response (inputContainerID : string)
    (headers : list (string * string)) (payload : bytes) (st : St World)
    (containerID : ID) (sg : Signature) (w1 w2 w3 : World) (resp : option ResObjectPut) :
  let t := scoped (tok (st_client st)) VerbObjectPut (mkAddress (Some containerID) None) sg in
  let o := put_object sdk (st_client st) containerID headers in
  0 <= bufsize (st_client st) <= maxAlloc ->
  cid_DecodeString sdk inputContainerID = Val containerID ->
  session_Sign sdk (key (st_client st))
    (ApplyTo (mkAddress (Some containerID) None)
       (ForVerb VerbObjectPut (tok (st_client st)))) = Val sg ->
  cli_ObjectPutInit sdk (st_world st) = (w1, None) ->
  w_WriteHeader sdk o (w_WithinSession sdk t w1) = (w2, false) ->
  w_Close sdk w2 = (w3, (resp, None)) ->
  fst (put sdk (bufsize (st_client st)) (Some t) o payload st) = Ret (None, None) /\
  fst (Client_Put sdk inputContainerID headers payload st) = Panic PanicNilDeref.
Proof.
  intros t o HB Hcid Hsg Hinit Hhdr Hclose.
  pose proof (put_header_rejected_run (bufsize (st_client st)) (Some t) o payload st
                w1 w2 w3 resp HB Hinit Hhdr Hclose) as Hput.
  split; [rewrite Hput; reflexivity|].
  rewrite (Client_Put_eq _ _ _ _ _ _ Hcid Hsg). unfold bind.
  fold t. fold o. rewrite Hput. reflexivity.
Qed.

End PutCallers.

Lemma put_failure_counter_witness :
  exists r st' new,
    put script_sdk 4 None zero_Object payload9 (st0 two_chunks) = (Ret r, st') /\
    st_trace st' = st_trace (st0 two_chunks) ++ new /\
    (snd r <> None -> fail_reports objPutFails new = 1%nat) /\
    (snd r = None ->
     fail_reports objPutFails new = 0%nat \/
     (fst r = None /\ In (EvWriteHeader zero_Object false) new /\
      fail_reports objPutFails new = 1%nat)).
Proof.
  apply (put_failure_counter script_sdk 4 None zero_Object payload9 (st0 two_chunks)).
  unfold maxAlloc. lia.
Defined.

Lemma PreparedObject_Put_success_after_failure_report_witness :
  exists st' new,
    PreparedObject_Put script_sdk prepared9 [("name", "a")] (st0 header_rejected) =
      (Ret (mkPutResponse true "namea" ""), st') /\
    st_trace st' = st_trace (st0 header_rejected) ++ new /\
    fail_reports objPutFails new = 1%nat.
Proof.
  apply (PreparedObject_Put_success_after_failure_report script_sdk prepared9
           [("name", "a")] (st0 header_rejected) (list_byte_of_string "namea")
           (["001"; "002"]%byte ++ list_byte_of_string "namea")
           header_rejected header_rejected header_rejected
           (Some (mkResObjectPut (Some zero_ID))));
    solve [reflexivity | cbn; lia | unfold maxAlloc; cbn; lia].
Defined.

Lemma finalized_fields (p : PreparedObject) (headers : list (string * string))
    (id : ID) (sg : Signature) :
  let o := finalized p headers id sg in
  o_attributes o = map (fun kv => mkAttribute (fst kv) (snd kv)) headers /\
  o_id o = Some id /\
  o_signature o = Some sg /\
  o_payloadChecksum o = o_payloadChecksum (p_hdr p) /\
  o_homomorphicHash o = o_homomorphicHash (p_hdr p) /\
  o_payloadSize o = o_payloadSize (p_hdr p) /\
  o_creationEpoch o = o_creationEpoch (p_hdr p) /\
  o_cnr o = o_cnr (p_hdr p) /\
  o_owner o = o_owner (p_hdr p) /\
  o_version o = o_version (p_hdr p) /\
  o_type o = o_type (p_hdr p).
Proof.
  cbn. rewrite make_attrs_map. repeat split; reflexivity.
Qed.

(** Two calls on [prepared9] with different attributes: the headers
    written differ in attributes, identifier and signature only. *)
Example prepared9_put_twice :
  let run1 := PreparedObject_Put script_sdk prepared9 [("name", "a")] (st0 friendly) in
  let run2 := PreparedObject_Put script_sdk prepared9 [("name", "b")] (snd run1) in
  fst run1 = Ret (mkPutResponse true "namea" "") /\
  fst run2 = Ret (mkPutResponse true "nameb" "") /\
  map o_payloadChecksum (written_headers (st_trace (snd run2))) =
    [Some (SHA256 (firstn 4 payload9)); Some (SHA256 (firstn 4 payload9))] /\
  map o_attributes (written_headers (st_trace (snd run2))) =
    [[mkAttribute "name" "a"]; [mkAttribute "name" "b"]].
Proof. cbv zeta. repeat split; reflexivity. Qed.

(** *** Client.Get *)

Section GetProperties.

Context {World : Type} (sdk : SDK World).

(** The loop of lines 172-175 either is still reading when the fuel
    ends, every read so far having returned bytes, or stops at the first
    read that returns none, with the lengths before it added up. *)
Lemma get_loop_spec (fuel : nat) :
  forall (buflen sz n : Z) (st : St World),
  exists rs st',
    st_client st' = st_client st /\
    st_trace st' = st_trace st ++ map read_event rs /\
    ((get_loop sdk fuel buflen sz n st = (OutOfFuel, st') /\
      Forall (fun x => 0 < x) (n :: map fst rs) /\ List.length rs = fuel) \/
     (exists pre last,
        n :: map fst rs = pre ++ [last] /\
        Forall (fun x => 0 < x) pre /\
        last <= 0 /\
        get_loop sdk fuel buflen sz n st =
          (Ret (fold_left (fun a x => to_int (a + x)) pre sz), st'))).
Proof.
  induction fuel as [|fuel IH]; intros buflen sz n st.
  - exists [], st. cbn [map]. rewrite app_nil_r. split; [reflexivity|]. split; [reflexivity|].
    cbn [get_loop]. destruct (Z.ltb_spec 0 n) as [Hn|Hn].
    + left. split; [reflexivity|]. split; [|reflexivity].
      constructor; [exact Hn|constructor].
    + right. exists [], n. repeat split; try constructor. exact Hn.
  - destruct (Z.ltb_spec 0 n) as [Hn|Hn].
    + destruct (r_Read sdk buflen (st_world st)) as [w1 r] eqn:Hr.
      assert (Hstep : get_loop sdk (S fuel) buflen sz n st =
                get_loop sdk fuel buflen (to_int (sz + n)) (fst r)
                  (mkSt (st_client st) w1 (st_trace st ++ [EvRead (fst r) (snd r)]))).
      { cbn [get_loop]. rewrite (proj2 (Z.ltb_lt 0 n) Hn).
        unfold bind, call. rewrite Hr. reflexivity. }
      rewrite Hstep.
      destruct (IH buflen (to_int (sz + n)) (fst r)
                  (mkSt (st_client st) w1 (st_trace st ++ [EvRead (fst r) (snd r)])))
        as (rs & st' & Hcl & Htr & Hcases).
      exists (r :: rs), st'. split; [exact Hcl|]. split.
      * rewrite Htr. cbn [st_trace map]. rewrite <- app_assoc. reflexivity.
      * destruct Hcases as [(Hrun & Hall & Hlen)|(pre & last & Hsplit & Hpre & Hlast & Hrun)].
        -- left. split; [exact Hrun|]. split; [|cbn; now rewrite Hlen].
           constructor; [exact Hn|exact Hall].
        -- right. exists (n :: pre), last. cbn [map]. rewrite Hsplit.
           split; [reflexivity|]. split; [constructor; assumption|].
           split; [exact Hlast|]. exact Hrun.
    + exists [], st. cbn [map]. rewrite app_nil_r.
      split; [reflexivity|]. split; [reflexivity|].
      right. exists [], n. cbn [get_loop].
      rewrite (proj2 (Z.ltb_ge 0 n) Hn).
      repeat split; try constructor. exact Hn.
Qed.

(** More fuel does not change a run of the loop that has ended. *)
Lemma get_loop_fuel_mono (fuel : nat) :
  forall (buflen sz n : Z) (st st' : St World) (r : Z),
    get_loop sdk fuel buflen sz n st = (Ret r, st') ->
    forall fuel', (fuel <= fuel')%nat ->
    get_loop sdk fuel' buflen sz n st = (Ret r, st').
Proof.
  induction fuel as [|fuel IH]; intros buflen sz n st st' r Hrun fuel' Hle.
  - cbn [get_loop] in Hrun. destruct (0 <? n) eqn:Hn; [discriminate|].
    destruct fuel'; cbn [get_loop]; rewrite Hn; exact Hrun.
  - destruct fuel' as [|fuel']; [lia|].
    cbn [get_loop] in *. destruct (0 <? n); [|exact Hrun].
    unfold bind in *. unfold call in *.
    destruct (r_Read sdk buflen (st_world st)) as [w1 x].
    apply IH; [exact Hrun|lia].
Qed.

(** [Client.Get] either panics before the first call to the store and
    leaves the state as it was, or goes one of the ways of
    [get_outcome] with the scoped token in the parameters. *)
Lemma Client_Get_cases (fuel : nat) (inputContainerID inputObjectID : string)
    (st : St World) (run : Res GetResponse * St World) :
  Client_Get sdk fuel inputContainerID inputObjectID st = run ->
  (exists p, run = (Panic p, st)) \/
  exists containerID objectID sg new,
    cid_DecodeString sdk inputContainerID = Val containerID /\
    oid_DecodeString sdk inputObjectID = Val objectID /\
    session_Sign sdk (key (st_client st))
      (ApplyTo (mkAddress (Some containerID) (Some objectID))
         (ForVerb VerbObjectGet (tok (st_client st)))) = Val sg /\
    st_client (snd run) = st_client st /\
    st_trace (snd run) = st_trace st ++ new /\
    get_outcome fuel
      (get_prm containerID objectID
         (scoped (tok (st_client st)) VerbObjectGet
            (mkAddress (Some containerID) (Some objectID)) sg))
      new (fst run).
Proof.
  intros Hrun. unfold Client_Get in Hrun.
  unfold bind at 1 in Hrun. unfold get_client at 1 in Hrun.
  unfold bind at 1 in Hrun. unfold make_bytes in Hrun.
  destruct (out_of_range (bufsize (st_client st)));
    [left; eexists; rewrite <- Hrun; reflexivity|].
  unfold ret at 1 in Hrun.
  unfold bind at 1 in Hrun. unfold must in Hrun.
  destruct (cid_DecodeString sdk inputContainerID) as [containerID|e];
    [|left; eexists; rewrite <- Hrun; reflexivity].
  unfold ret at 1 in Hrun. unfold bind at 1 in Hrun.
  destruct (oid_DecodeString sdk inputObjectID) as [objectID|e];
    [|left; eexists; rewrite <- Hrun; reflexivity].
  unfold ret at 1 in Hrun. unfold bind at 1 in Hrun.
  unfold Token_Sign, Address_SetObjectID, Address_SetContainerID, zero_Address in Hrun.
  cbn [addr_cnr addr_obj] in Hrun.
  destruct (session_Sign sdk (key (st_client st))
              (ApplyTo (mkAddress (Some containerID) (Some objectID))
                 (ForVerb VerbObjectGet (tok (st_client st))))) as [sg|e] eqn:Hsg;
    [|left; eexists; rewrite <- Hrun; reflexivity].
  right. exists containerID, objectID, sg.
  unfold ret at 1 in Hrun.
  change (Token_SetSignature sg
            (ApplyTo (mkAddress (Some containerID) (Some objectID))
               (ForVerb VerbObjectGet (tok (st_client st)))))
    with (scoped (tok (st_client st)) VerbObjectGet
            (mkAddress (Some containerID) (Some objectID)) sg) in Hrun.
  set (t := scoped (tok (st_client st)) VerbObjectGet
              (mkAddress (Some containerID) (Some objectID)) sg) in *.
  change (PrmObjectGet_WithinSession t
            (FromContainer containerID (ByID objectID zero_PrmObjectGet)))
    with (get_prm containerID objectID t) in Hrun.
  set (prm := get_prm containerID objectID t) in *.
  unfold bind at 1 in Hrun. unfold Report at 1, emit at 1 in Hrun.
  unfold bind at 1 in Hrun. unfold now at 1 in Hrun.
  cbn [st_client st_world st_trace] in Hrun.
  unfold bind at 1 in Hrun. unfold call at 1 in Hrun.
  cbn [st_client st_world st_trace] in Hrun.
  destruct (cli_ObjectGetInit sdk prm (st_world st)) as [w1 e] eqn:Hinit.
  destruct e as [err|].
  - revert Hrun. run_monad. intros Hrun. subst run. cbn [fst snd st_client st_trace].
    eexists. repeat (split; [reflexivity || assumption|]). split.
    + rewrite <- !app_assoc. reflexivity.
    + constructor.
  - unfold bind at 1 in Hrun. unfold call at 1 in Hrun.
    cbn [st_client st_world st_trace] in Hrun.
    destruct (r_ReadHeader sdk w1) as [w2 ok] eqn:Hhdr.
    destruct ok; cbn [negb] in Hrun.
    + unfold bind at 1 in Hrun. unfold call at 1 in Hrun.
      cbn [st_client st_world st_trace] in Hrun.
      destruct (r_Read sdk (len (repeat "000"%byte (Z.to_nat (bufsize (st_client st))))) w2)
        as [w3 r0] eqn:Hread.
      unfold bind at 1 in Hrun.
      set (st3 := mkSt (st_client st) w3 _) in Hrun.
      destruct (get_loop_spec fuel
                  (len (repeat "000"%byte (Z.to_nat (bufsize (st_client st)))))
                  0 (fst r0) st3)
        as (rs & st4 & Hcl & Htr &
            [(Hloop & Hall & Hlen)|(pre & last & Hsplit & Hpre & Hlast & Hloop)]).
      * rewrite Hloop in Hrun. subst run. cbn [fst snd].
        exists ([EvReport objGetTotal 1; EvObjectGetInit prm None; EvReadHeader true] ++
                map read_event (r0 :: rs)).
        repeat (split; [reflexivity || assumption|]). split.
        -- rewrite Htr. unfold st3. cbn [st_trace map read_event].
           rewrite <- !app_assoc. reflexivity.
        -- apply get_still_reading; [exact Hall|cbn; now rewrite Hlen].
      * rewrite Hloop in Hrun.
        unfold bind at 1 in Hrun. unfold ObjectReader_Close, call at 1 in Hrun.
        destruct (r_Close sdk (st_world st4)) as [w5 e] eqn:Hclose.
        destruct e as [err|]; revert Hrun; run_monad; intros Hrun; subst run;
          cbn [fst snd st_client st_trace].
        -- exists ([EvReport objGetTotal 1; EvObjectGetInit prm None; EvReadHeader true] ++
                   map read_event (r0 :: rs) ++
                   [EvGetClose (Some err); EvReport objGetFails 1]).
           repeat (split; [reflexivity || assumption|]). split.
           ++ rewrite Htr. unfold st3. cbn [st_trace map read_event].
              rewrite <- !app_assoc. reflexivity.
           ++ apply (get_close_failed fuel prm (r0 :: rs) pre last err); assumption.
        -- exists ([EvReport objGetTotal 1; EvObjectGetInit prm None; EvReadHeader true] ++
                   map read_event (r0 :: rs) ++
                   [EvGetClose None;
                    EvReport objGetDuration (time_Now sdk w5 - time_Now sdk (st_world st));
                    EvDataReceived (int_sum pre)]).
           repeat (split; [reflexivity || assumption|]). split.
           ++ rewrite Htr. unfold st3. cbn [st_trace map read_event].
              rewrite <- !app_assoc. reflexivity.
           ++ apply (get_closed fuel prm (r0 :: rs) pre last _); assumption.
    + revert Hrun. run_monad.
      destruct (r_Close sdk w2) as [w5 e] eqn:Hclose.
      destruct e as [err|]; intros Hrun; subst run; cbn [fst snd st_client st_trace];
        eexists; (repeat (split; [reflexivity || assumption|])); (split;
          [rewrite <- !app_assoc; reflexivity|constructor]).
Qed.

(** Enough fuel: when the stream answers with bytes until a first read
    without, the loop makes exactly these reads and returns the lengths
    before the last added up, with any fuel that covers the reads. *)
Lemma get_loop_enough_fuel (rs : list (Z * option error)) :
  forall (fuel : nat) (buflen sz n : Z) (st : St World) (w' : World)
         (pre : list Z) (last : Z),
    stream_gives sdk buflen (st_world st) rs w' ->
    n :: map fst rs = pre ++ [last] ->
    Forall (fun x => 0 < x) pre ->
    last <= 0 ->
    (List.length rs <= fuel)%nat ->
    get_loop sdk fuel buflen sz n st =
      (Ret (fold_left (fun a x => to_int (a + x)) pre sz),
       mkSt (st_client st) w' (st_trace st ++ map read_event rs)).
Proof.
  induction rs as [|r rs IH]; intros fuel buflen sz n st w' pre last Hs Hsplit Hpre Hlast Hfuel.
  - inversion Hs; subst. cbn [map] in *.
    destruct pre as [|x pre]; cbn in Hsplit.
    + inversion Hsplit; subst.
      assert (Hn : (0 <? last) = false) by (apply Z.ltb_ge; exact Hlast).
      destruct st as [c w tr]. cbn [st_client st_world st_trace]. rewrite app_nil_r.
      destruct fuel; cbn [get_loop]; rewrite Hn; reflexivity.
    + inversion Hsplit as [[Hx Hrest]]. destruct pre; discriminate Hrest.
  - inversion Hs as [|w0 w1 w2 r0 rs0 Hread Hrest]; subst.
    destruct pre as [|x pre]; cbn [map app] in Hsplit.
    + inversion Hsplit.
    + inversion Hsplit as [[Hx Hrest']]. subst x.
      inversion Hpre as [|? ? Hn Hpre']; subst.
      destruct fuel as [|fuel]; [cbn in Hfuel; lia|].
      cbn [get_loop]. rewrite (proj2 (Z.ltb_lt 0 n) Hn).
      unfold bind, call. rewrite Hread.
      rewrite (IH fuel buflen (to_int (sz + n)) (fst r)
                 (mkSt (st_client st) w1 (st_trace st ++ [EvRead (fst r) (snd r)]))
                 w' pre last Hrest Hrest' Hpre' Hlast);
        [|cbn in Hfuel; lia].
      cbn [st_client st_trace map fold_left]. unfold read_event at 2.
      rewrite <- app_assoc. reflexivity.
Qed.

(** X4: a download in which the stream opens, the header is read, the
    stream answers with bytes until a first read without, and the close
    succeeds is a success with any fuel that covers the reads, whatever
    errors came with the reads. *)
Lemma Client_Get_succeeds (fuel : nat) (inputContainerID inputObjectID : string)
    (st : St World) (containerID objectID : ID) (sg : Signature)
    (w1 w2 w3 w4 : World) (rs : list (Z * option error)) (pre : list Z) (last : Z) :
  let t := scoped (tok (st_client st)) VerbObjectGet
             (mkAddress (Some containerID) (Some objectID)) sg in
  let prm := get_prm containerID objectID t in
  0 <= bufsize (st_client st) <= maxAlloc ->
  cid_DecodeString sdk inputContainerID = Val containerID ->
  oid_DecodeString sdk inputObjectID = Val objectID ->
  session_Sign sdk (key (st_client st))
    (ApplyTo (mkAddress (Some containerID) (Some objectID))
       (ForVerb VerbObjectGet (tok (st_client st)))) = Val sg ->
  cli_ObjectGetInit sdk prm (st_world st) = (w1, None) ->
  r_ReadHeader sdk w1 = (w2, true) ->
  stream_gives sdk (bufsize (st_client st)) w2 rs w3 ->
  map fst rs = pre ++ [last] ->
  Forall (fun x => 0 < x) pre ->
  last <= 0 ->
  r_Close sdk w3 = (w4, None) ->
  (List.length rs <= S fuel)%nat ->
  Client_Get sdk fuel inputContainerID inputObjectID st =
    (Ret (mkGetResponse true ""),
     mkSt (st_client st) w4
       (st_trace st ++
        [EvReport objGetTotal 1; EvObjectGetInit prm None; EvReadHeader true] ++
        map read_event rs ++
        [EvGetClose None;
         EvReport objGetDuration (time_Now sdk w4 - time_Now sdk (st_world st));
         EvDataReceived (int_sum pre)])).
Proof.
  intros t prm HB Hcid Hoid Hsg Hinit Hhdr Hs Hsplit Hpre Hlast Hclose Hfuel.
  destruct rs as [|r0 rs]; [destruct pre; discriminate Hsplit|].
  inversion Hs as [|w0 v1 v2 r1 rs1 Hread Hrest]; subst.
  unfold Client_Get, make_bytes, must, Token_Sign, Address_SetObjectID,
    Address_SetContainerID, zero_Address.
  unfold bind at 1. unfold get_client at 1.
  unfold bind at 1.
  rewrite (out_of_range_false (bufsize (st_client st))) by lia.
  unfold ret at 1. unfold bind at 1. rewrite Hcid. unfold ret at 1.
  unfold bind at 1. rewrite Hoid. unfold ret at 1.
  unfold bind at 1. cbn [addr_cnr addr_obj]. rewrite Hsg. unfold ret at 1.
  change (Token_SetSignature sg
            (ApplyTo (mkAddress (Some containerID) (Some objectID))
               (ForVerb VerbObjectGet (tok (st_client st))))) with t.
  change (PrmObjectGet_WithinSession t
            (FromContainer containerID (ByID objectID zero_PrmObjectGet))) with prm.
  assert (Hlen : len (repeat "000"%byte (Z.to_nat (bufsize (st_client st)))) =
                 bufsize (st_client st)).
  { unfold len. rewrite repeat_length. lia. }
  rewrite Hlen.
  unfold bind at 1. unfold Report at 1, emit at 1.
  unfold bind at 1. unfold now at 1. cbn [st_client st_world st_trace].
  unfold bind at 1. unfold call at 1. cbn [st_client st_world st_trace]. rewrite Hinit.
  unfold bind at 1. unfold call at 1. cbn [st_client st_world st_trace]. rewrite Hhdr.
  cbn [negb].
  unfold bind at 1. unfold call at 1. cbn [st_client st_world st_trace]. rewrite Hread.
  unfold bind at 1.
  rewrite (get_loop_enough_fuel rs fuel (bufsize (st_client st)) 0 (fst r0) _ w3 pre last);
    [|exact Hrest|exact Hsplit|exact Hpre|exact Hlast|cbn in Hfuel; lia].
  run_monad. rewrite Hclose. cbn [fst snd st_client st_world st_trace map].
  unfold int_sum, read_event at 2. rewrite <- !app_assoc. reflexivity.
Qed.

End GetProperties.

(** *** Reading the traces of Client.Get *)




Lemma received_read_events (rs : list (Z * option error)) (tl : list Event) :
  received (map read_event rs ++ tl) = received tl.
Proof. induction rs as [|r rs IH]; [reflexivity|exact IH]. Qed.





Section Sessions.

Context {World : Type} (sdk : SDK World).



End Sessions.

(** The tokens of one PUT and one GET of the client [client0]. *)
Example client0_tokens :
  presented_tokens
    (st_trace (snd (Client_Put script_sdk "cnr" [("name", "a")] payload9 (st0 friendly)))) =
    [mkToken ["170"]%byte (Some VerbObjectPut)
       (Some (mkAddress (Some (list_byte_of_string "cnr")) None))
       (Some ["001"; "002"; "170"]%byte)] /\
  presented_tokens
    (st_trace (snd (Client_Get script_sdk 3 "cnr" "obj" (st0 friendly)))) =
    [mkToken ["170"]%byte (Some VerbObjectGet)
       (Some (mkAddress (Some (list_byte_of_string "cnr")) (Some (list_byte_of_string "obj"))))
       (Some ["001"; "002"; "170"]%byte)].
Proof. split; reflexivity. Qed.

Section GetResult.

Context {World : Type} (sdk : SDK World).


End GetResult.

Lemma Client_Get_succeeds_witness :
  Client_Get script_sdk 2 "cnr" "obj" (st0 noisy_reads) =
    (Ret (mkGetResponse true ""),
     mkSt client0
       (mkScript (Val netinfo_64MiB) None true 0 (None, None) None true [] None 3)
       ([EvReport objGetTotal 1;
         EvObjectGetInit
           (get_prm (list_byte_of_string "cnr") (list_byte_of_string "obj")
              (scoped (tok client0) VerbObjectGet
                 (mkAddress (Some (list_byte_of_string "cnr"))
                    (Some (list_byte_of_string "obj")))
                 ["001"; "002"; "170"]%byte))
           None;
         EvReadHeader true;
         EvRead 3 None; EvRead 2 (Some "unexpected EOF"); EvRead 0 (Some io_EOF);
         EvGetClose None; EvReport objGetDuration 3; EvDataReceived 5])).
Proof.
  apply (Client_Get_succeeds script_sdk 2 "cnr" "obj" (st0 noisy_reads)
           (list_byte_of_string "cnr") (list_byte_of_string "obj")
           ["001"; "002"; "170"]%byte noisy_reads noisy_reads
           (mkScript (Val netinfo_64MiB) None true 0 (None, None) None true [] None 3)
           (mkScript (Val netinfo_64MiB) None true 0 (None, None) None true [] None 3)
           [(3, None); (2, Some "unexpected EOF"); (0, Some io_EOF)] [3; 2] 0);
    try reflexivity; try (cbn; lia); try (unfold maxAlloc; cbn; lia).
  - repeat (eapply gives_cons; [reflexivity|]). apply gives_nil.
  - repeat constructor.
Defined.

(** A download whose second read returns bytes together with an error:
    the response is a success, no failure is reported and five bytes
    are reported as received. *)
Example noisy_reads_succeed :
  let run := Client_Get script_sdk 2 "cnr" "obj" (st0 noisy_reads) in
  fst run = Ret (mkGetResponse true "") /\
  reads (st_trace (snd run)) = [(3, None); (2, Some "unexpected EOF"); (0, Some io_EOF)] /\
  received (st_trace (snd run)) = [5] /\
  fail_reports objGetFails (st_trace (snd run)) = 0%nat.
Proof. cbv zeta. repeat split; reflexivity. Qed.

(** With one unit of fuel less the same download is still reading. *)
Example noisy_reads_need_fuel :
  fst (Client_Get script_sdk 1 "cnr" "obj" (st0 noisy_reads)) = OutOfFuel.
Proof. reflexivity. Qed.

Section CloseErrors.

Context {World : Type} (sdk : SDK World).

(** The run of [Client.Get] in which the header is not read and the
    close returns no error: line 168 calls [Error] on a nil error. *)
Lemma Client_Get_nil_close_error (fuel : nat) (inputContainerID inputObjectID : string)
    (st : St World) (containerID objectID : ID) (sg : Signature) (w1 w2 w3 : World) :
  let t := scoped (tok (st_client st)) VerbObjectGet
             (mkAddress (Some containerID) (Some objectID)) sg in
  0 <= bufsize (st_client st) <= maxAlloc ->
  cid_DecodeString sdk inputContainerID = Val containerID ->
  oid_DecodeString sdk inputObjectID = Val objectID ->
  session_Sign sdk (key (st_client st))
    (ApplyTo (mkAddress (Some containerID) (Some objectID))
       (ForVerb VerbObjectGet (tok (st_client st)))) = Val sg ->
  cli_ObjectGetInit sdk (get_prm containerID objectID t) (st_world st) = (w1, None) ->
  r_ReadHeader sdk w1 = (w2, false) ->
  r_Close sdk w2 = (w3, None) ->
  fst (Client_Get sdk fuel inputContainerID inputObjectID st) = Panic PanicNilDeref.
Proof.
  intros t HB Hcid Hoid Hsg Hinit Hhdr Hclose.
  unfold Client_Get, make_bytes, must, Token_Sign, Address_SetObjectID,
    Address_SetContainerID, zero_Address.
  run_monad. rewrite (out_of_range_false (bufsize (st_client st))) by lia.
  rewrite Hcid, Hoid. cbn [addr_cnr addr_obj]. rewrite Hsg.
  change (Token_SetSignature sg
            (ApplyTo (mkAddress (Some containerID) (Some objectID))
               (ForVerb VerbObjectGet (tok (st_client st))))) with t.
  change (PrmObjectGet_WithinSession t
            (FromContainer containerID (ByID objectID zero_PrmObjectGet)))
    with (get_prm containerID objectID t).
  cbn [st_world]. rewrite Hinit. cbn [st_world]. rewrite Hhdr.
  cbn [negb st_world]. rewrite Hclose. reflexivity.
Qed.

(** C9, at the inputs where the code departs from it: a write stream
    that rejects the header and a read stream that fails to read it may
    both close without an error.  Then [put] returns a nil error with a
    nil response, which [Client.Put] dereferences, and [Client.Get]
    calls [Error] on the nil error of the close. *)
Theorem close_error_taken_for_granted (fuel : nat)
    (inputContainerID inputObjectID : string) (headers : list (string * string))
    (payload : bytes) (st st2 : St World) (containerID objectID : ID)
    (sg sg2 : Signature) (w1 w2 w3 v1 v2 v3 : World) (resp : option ResObjectPut) :
  let t := scoped (tok (st_client st)) VerbObjectPut (mkAddress (Some containerID) None) sg in
  let o := put_object sdk (st_client st) containerID headers in
  let t2 := scoped (tok (st_client st2)) VerbObjectGet
              (mkAddress (Some containerID) (Some objectID)) sg2 in
  0 <= bufsize (st_client st) <= maxAlloc ->
  0 <= bufsize (st_client st2) <= maxAlloc ->
  cid_DecodeString sdk inputContainerID = Val containerID ->
  oid_DecodeString sdk inputObjectID = Val objectID ->
  session_Sign sdk (key (st_client st))
    (ApplyTo (mkAddress (Some containerID) None)
       (ForVerb VerbObjectPut (tok (st_client st)))) = Val sg ->
  session_Sign sdk (key (st_client st2))
    (ApplyTo (mkAddress (Some containerID) (Some objectID))
       (ForVerb VerbObjectGet (tok (st_client st2)))) = Val sg2 ->
  cli_ObjectPutInit sdk (st_world st) = (w1, None) ->
  w_WriteHeader sdk o (w_WithinSession sdk t w1) = (w2, false) ->
  w_Close sdk w2 = (w3, (resp, None)) ->
  cli_ObjectGetInit sdk (get_prm containerID objectID t2) (st_world st2) = (v1, None) ->
  r_ReadHeader sdk v1 = (v2, false) ->
  r_Close sdk v2 = (v3, None) ->
  fst (put sdk (bufsize (st_client st)) (Some t) o payload st) = Ret (None, None) /\
  fst (Client_Put sdk inputContainerID headers payload st) = Panic PanicNilDeref /\
  fst (Client_Get sdk fuel inputContainerID inputObjectID st2) = Panic PanicNilDeref.
Proof.
  intros t o t2 HB HB2 Hcid Hoid Hsg Hsg2 Hinit Hhdr Hclose Hinit2 Hhdr2 Hclose2.
  destruct (Client_Put_nil_response sdk inputContainerID headers payload st containerID sg
              w1 w2 w3 resp HB Hcid Hsg Hinit Hhdr Hclose) as [H1 H2].
  split; [exact H1|]. split; [exact H2|].
  exact (Client_Get_nil_close_error fuel inputContainerID inputObjectID st2 containerID
           objectID sg2 v1 v2 v3 HB2 Hcid Hoid Hsg2 Hinit2 Hhdr2 Hclose2).
Qed.

End CloseErrors.

Lemma close_error_taken_for_granted_witness :
  fst (put script_sdk 4
         (Some (scoped (tok client0) VerbObjectPut
                  (mkAddress (Some (list_byte_of_string "cnr")) None)
                  ["001"; "002"; "170"]%byte))
         (put_object script_sdk client0 (list_byte_of_string "cnr") [("name", "a")])
         payload9 (st0 header_rejected)) = Ret (None, None) /\
  fst (Client_Put script_sdk "cnr" [("name", "a")] payload9 (st0 header_rejected)) =
    Panic PanicNilDeref /\
  fst (Client_Get script_sdk 0 "cnr" "obj" (st0 header_unread)) = Panic PanicNilDeref.
Proof.
  apply (close_error_taken_for_granted script_sdk 0 "cnr" "obj" [("name", "a")] payload9
           (st0 header_rejected) (st0 header_unread)
           (list_byte_of_string "cnr") (list_byte_of_string "obj")
           ["001"; "002"; "170"]%byte ["001"; "002"; "170"]%byte
           header_rejected header_rejected header_rejected
           header_unread header_unread header_unread
           (Some (mkResObjectPut (Some zero_ID))));
    solve [reflexivity | cbn; lia | unfold maxAlloc; cbn; lia].
Defined.

(** ** Further properties *)

(** *** Little-endian values *)

Lemma lor_shiftl_8 (a x : Z) :
  0 <= a < 256 -> 0 <= x -> Z.lor a (Z.shiftl x 8) = a + 256 * x.
Proof.
  intros Ha Hx. rewrite Z.shiftl_mul_pow2 by lia.
  assert (Hland : Z.land a (x * 2 ^ 8) = 0).
  { apply Z.bits_inj'. intros n Hn. rewrite Z.land_spec, Z.bits_0.
    destruct (Z.lt_ge_cases n 8) as [Hlow|Hhigh].
    - rewrite Z.mul_pow2_bits_low by lia. apply andb_false_r.
    - rewrite <- (Z.mod_small a (2 ^ 8)) by lia.
      rewrite Z.mod_pow2_bits_high by lia. reflexivity. }
  rewrite <- (Z.lxor_lor _ _ Hland), <- (Z.add_nocarry_lxor _ _ Hland). lia.
Qed.

Lemma byte_val_range (b : byte) : 0 <= byte_val b < 256.
Proof.
  unfold byte_val. pose proof (Byte.to_N_bounded b). lia.
Qed.

Lemma byte_val_of_Z (z : Z) : 0 <= z < 256 -> byte_val (byte_of_Z z) = z.
Proof.
  intros Hz. unfold byte_val, byte_of_Z.
  destruct (Byte.of_N (Z.to_N z)) as [b|] eqn:Hb.
  - rewrite (Byte.to_of_N _ Hb). lia.
  - apply Byte.of_N_None_iff in Hb. lia.
Qed.

Lemma le_uint_range (bs : bytes) : 0 <= le_uint bs < 256 ^ len bs.
Proof.
  induction bs as [|b bs IH]; unfold len in *; cbn [le_uint List.length].
  - cbn. lia.
  - pose proof (byte_val_range b).
    rewrite lor_shiftl_8 by lia.
    rewrite Nat2Z.inj_succ, Z.pow_succ_r by lia. lia.
Qed.

Lemma le_uint_cons (b : byte) (bs : bytes) :
  le_uint (b :: bs) = byte_val b + 256 * le_uint bs.
Proof.
  cbn [le_uint]. apply lor_shiftl_8; [apply byte_val_range|apply le_uint_range].
Qed.

Lemma le_uint_zeros (k : nat) : le_uint (repeat "000"%byte k) = 0.
Proof.
  induction k as [|k IH]; [reflexivity|].
  cbn [repeat]. rewrite le_uint_cons, IH. reflexivity.
Qed.

Lemma le_uint_app_zeros (bs : bytes) (k : nat) :
  le_uint (bs ++ repeat "000"%byte k) = le_uint bs.
Proof.
  induction bs as [|b bs IH]; cbn [app].
  - apply le_uint_zeros.
  - rewrite !le_uint_cons, IH. reflexivity.
Qed.

Lemma skipn_repeat {A : Type} (x : A) (n m : nat) :
  skipn n (repeat x m) = repeat x (m - n).
Proof.
  revert m. induction n as [|n IH]; intros m.
  - now rewrite Nat.sub_0_r.
  - destruct m as [|m]; [reflexivity|]. cbn [repeat skipn]. apply IH.
Qed.

(** The eight-byte buffer of line 330 pads a short value with zeros and
    cuts a long one, so the value counts through its first eight
    bytes. *)
Lemma decode_max_firstn (v : bytes) : decode_max v = le_uint (firstn 8 v).
Proof.
  unfold decode_max, LittleEndian_Uint64, copy. cbn [fst].
  rewrite repeat_length, skipn_repeat.
  set (n := Nat.min 8 (List.length v)).
  assert (Hn : firstn n v = firstn 8 v).
  { unfold n. destruct (Nat.le_ge_cases 8 (List.length v)).
    - now rewrite Nat.min_l.
    - rewrite Nat.min_r by assumption. now rewrite !firstn_all2 by lia. }
  rewrite firstn_all2.
  - rewrite le_uint_app_zeros. now rewrite Hn.
  - rewrite length_app, length_firstn, repeat_length. unfold n. lia.
Qed.

Lemma decode_max_range (v : bytes) : 0 <= decode_max v < 2 ^ 64.
Proof.
  rewrite decode_max_firstn.
  pose proof (le_uint_range (firstn 8 v)) as H.
  assert (Hlen : len (firstn 8 v) <= 8).
  { unfold len. rewrite length_firstn. lia. }
  assert (256 ^ len (firstn 8 v) <= 256 ^ 8).
  { apply Z.pow_le_mono_r; [lia|exact Hlen]. }
  change (2 ^ 64) with (256 ^ 8). lia.
Qed.

Lemma length_le_bytes (k : nat) (n : Z) : List.length (le_bytes k n) = k.
Proof.
  revert n. induction k as [|k IH]; intros n; cbn; [reflexivity|]. now rewrite IH.
Qed.

Lemma le_uint_le_bytes (k : nat) :
  forall n : Z, 0 <= n < 256 ^ Z.of_nat k -> le_uint (le_bytes k n) = n.
Proof.
  induction k as [|k IH]; intros n Hn.
  - cbn in *. lia.
  - cbn [le_bytes]. rewrite le_uint_cons.
    rewrite byte_val_of_Z by (apply Z.mod_pos_bound; lia).
    rewrite Nat2Z.inj_succ, Z.pow_succ_r in Hn by lia.
    rewrite IH.
    + pose proof (Z.div_mod n 256). lia.
    + split; [apply Z.div_pos; lia|].
      apply Z.div_lt_upper_bound; lia.
Qed.

(** *** The scan of parseNetworkInfo *)

Lemma last_value_recognised (ps : list (bytes * bytes)) (v : bytes) :
  last_value "MaxObjectSize" ps = Some v -> existsb recognised ps = true.
Proof.
  revert v. induction ps as [|p ps IH]; intros v; cbn [last_value existsb]; [discriminate|].
  destruct (last_value "MaxObjectSize" ps) as [w|].
  - intros _. rewrite (IH w eq_refl). apply orb_true_r.
  - unfold recognised.
    destruct (String.eqb (string_of_list_byte (fst p)) "MaxObjectSize");
      [reflexivity|discriminate].
Qed.

Section Scan.

Context {World : Type} (sdk : SDK World).

(** Entries under other keys leave the scan as it is. *)
Lemma IterateParameters_filter (ps : list (bytes * bytes)) :
  forall s : ParseState,
    IterateParameters sdk ps s = IterateParameters sdk (filter recognised ps) s.
Proof.
  induction ps as [|p ps IH]; intros s; [reflexivity|].
  cbn [filter]. unfold recognised at 1.
  destruct (String.eqb (string_of_list_byte (fst p)) "MaxObjectSize") eqn:Hmax.
  - cbn [orb IterateParameters]. unfold handleParameter. rewrite Hmax. apply IH.
  - destruct (String.eqb (string_of_list_byte (fst p)) "HomomorphicHashingDisabled") eqn:Hhh.
    + cbn [orb IterateParameters]. unfold handleParameter. rewrite Hmax, Hhh.
      destruct (stackitem_TryBool sdk (snd p)) as [b [e|]]; [reflexivity|apply IH].
    + cbn [orb IterateParameters]. unfold handleParameter. rewrite Hmax, Hhh. apply IH.
Qed.

(** A scan does not stop in entries whose flags all decode, and leaves
    them with the variables [resolved] describes. *)
Lemma IterateParameters_decodable (ps tail : list (bytes * bytes)) :
  forall s : ParseState,
    hh_decodable sdk ps = true ->
    IterateParameters sdk (ps ++ tail) s = IterateParameters sdk tail (resolved sdk ps s).
Proof.
  induction ps as [|p ps IH]; intros s Hdec.
  - destruct s. reflexivity.
  - cbn [hh_decodable forallb] in Hdec. apply andb_true_iff in Hdec.
    destruct Hdec as [Hp Hdec].
    cbn [app IterateParameters]. unfold handleParameter.
    destruct (String.eqb (string_of_list_byte (fst p)) "MaxObjectSize") eqn:Hmax.
    + apply String.eqb_eq in Hmax.
      rewrite (IH _ Hdec). f_equal.
      unfold resolved. cbn [last_value existsb ps_maxObjSize ps_hhDisabled ps_err].
      unfold recognised at 2. rewrite Hmax. cbn [String.eqb Ascii.eqb Bool.eqb orb andb].
      fold (decode_max (snd p)).
      destruct (last_value "MaxObjectSize" ps), (last_value "HomomorphicHashingDisabled" ps),
        (existsb recognised ps); reflexivity.
    + destruct (String.eqb (string_of_list_byte (fst p)) "HomomorphicHashingDisabled") eqn:Hhh.
      * destruct (stackitem_TryBool sdk (snd p)) as [b e] eqn:Htb. cbn [snd] in Hp.
        destruct e as [e|]; [discriminate|].
        rewrite (IH _ Hdec). f_equal.
        unfold resolved. cbn [last_value existsb ps_maxObjSize ps_hhDisabled ps_err].
        unfold recognised at 2. rewrite Hmax, Hhh. cbn [orb].
        destruct (last_value "MaxObjectSize" ps), (last_value "HomomorphicHashingDisabled" ps),
          (existsb recognised ps); rewrite ?Htb; reflexivity.
      * rewrite (IH _ Hdec). f_equal.
        unfold resolved. cbn [last_value existsb].
        unfold recognised at 2. rewrite Hmax, Hhh. cbn [orb].
        destruct (last_value "MaxObjectSize" ps), (last_value "HomomorphicHashingDisabled" ps),
          (existsb recognised ps); reflexivity.
Qed.

(** The maximum object size stays a [uint64] through the scan. *)
Lemma IterateParameters_max_range (ps : list (bytes * bytes)) :
  forall s : ParseState,
    0 <= ps_maxObjSize s < 2 ^ 64 ->
    0 <= ps_maxObjSize (IterateParameters sdk ps s) < 2 ^ 64.
Proof.
  induction ps as [|p ps IH]; intros s Hs; [exact Hs|].
  cbn [IterateParameters]. unfold handleParameter.
  destruct (String.eqb (string_of_list_byte (fst p)) "MaxObjectSize").
  - apply IH. cbn [ps_maxObjSize]. apply (decode_max_range (snd p)).
  - destruct (String.eqb (string_of_list_byte (fst p)) "HomomorphicHashingDisabled").
    + destruct (stackitem_TryBool sdk (snd p)) as [b [e|]]; [exact Hs|apply IH; exact Hs].
    + apply IH. exact Hs.
Qed.

Lemma parseNetworkInfo_max_bounds (st st1 : St World) (maxObjectSize epoch : Z)
    (hhDisabled : bool) (err : option error) :
  parseNetworkInfo sdk st = (Ret (maxObjectSize, epoch, hhDisabled, err), st1) ->
  0 <= maxObjectSize < 2 ^ 64.
Proof.
  unfold parseNetworkInfo, bind, call.
  destruct (cli_NetworkInfo sdk (st_world st)) as [w [ni|e]]; cbn; intros H;
    inversion H; subst; [|lia].
  apply IterateParameters_max_range. cbn. lia.
Qed.

(** X5: entries under keys other than [MaxObjectSize] and
    [HomomorphicHashingDisabled] are ignored: two responses with the
    same epoch whose recognised entries are the same, in the same
    order, resolve to the same result. *)
Theorem parseNetworkInfo_ignores_other_keys (st st2 : St World) (w w2 : World)
    (ni ni2 : NetworkInfo) :
  cli_NetworkInfo sdk (st_world st) = (w, Val ni) ->
  cli_NetworkInfo sdk (st_world st2) = (w2, Val ni2) ->
  ni_epoch ni = ni_epoch ni2 ->
  filter recognised (ni_params ni) = filter recognised (ni_params ni2) ->
  fst (parseNetworkInfo sdk st) = fst (parseNetworkInfo sdk st2).
Proof.
  intros H1 H2 Hep Hps. unfold parseNetworkInfo, bind, call. rewrite H1, H2. cbn.
  rewrite (IterateParameters_filter (ni_params ni)),
          (IterateParameters_filter (ni_params ni2)), Hps, Hep.
  reflexivity.
Qed.

(** X6: a flag that does not decode ends the scan with the decoding
    error, whether or not a [MaxObjectSize] entry came before it; the
    entries after it are not looked at, so the maximum is that of the
    entries before it. *)
Theorem parseNetworkInfo_malformed_flag (st : St World) (w' : World) (epoch : Z)
    (before after : list (bytes * bytes)) (k v : bytes) (b : bool) (e : error) :
  cli_NetworkInfo sdk (st_world st) =
    (w', Val (mkNetworkInfo epoch (before ++ (k, v) :: after))) ->
  string_of_list_byte k = "HomomorphicHashingDisabled" ->
  hh_decodable sdk before = true ->
  stackitem_TryBool sdk v = (b, Some e) ->
  fst (parseNetworkInfo sdk st) =
    Ret (match last_value "MaxObjectSize" before with
         | Some m => decode_max m
         | None => 0
         end, epoch, b, Some e).
Proof.
  intros Hni Hk Hdec Htb. unfold parseNetworkInfo, bind, call. rewrite Hni. cbn.
  rewrite (IterateParameters_decodable before _ _ Hdec).
  cbn [IterateParameters]. unfold handleParameter. cbn [fst snd]. rewrite Hk.
  cbn [String.eqb Ascii.eqb Bool.eqb andb]. rewrite Htb. reflexivity.
Qed.

(** X7: when the response has a [MaxObjectSize] entry and every flag
    decodes, the error is nil, the maximum is the last [MaxObjectSize]
    entry decoded, and the flag is the last flag entry decoded, or false
    without one. *)
Theorem parseNetworkInfo_last_entry_wins (st : St World) (w' : World) (ni : NetworkInfo)
    (m : bytes) :
  cli_NetworkInfo sdk (st_world st) = (w', Val ni) ->
  hh_decodable sdk (ni_params ni) = true ->
  last_value "MaxObjectSize" (ni_params ni) = Some m ->
  fst (parseNetworkInfo sdk st) =
    Ret (decode_max m, ni_epoch ni,
         match last_value "HomomorphicHashingDisabled" (ni_params ni) with
         | Some f => fst (stackitem_TryBool sdk f)
         | None => false
         end, None).
Proof.
  intros Hni Hdec Hm. unfold parseNetworkInfo, bind, call. rewrite Hni. cbn.
  pose proof (IterateParameters_decodable (ni_params ni) [] 
                (mkParseState 0 false (Some errMissesMaxObjectSize)) Hdec) as H.
  rewrite app_nil_r in H. rewrite H. cbn [IterateParameters].
  unfold resolved. rewrite Hm, (last_value_recognised _ _ Hm). reflexivity.
Qed.

(** X8: a [MaxObjectSize] value is read as a little-endian number
    through its first eight bytes: the encoding of [n] in [k <= 8]
    bytes resolves to [n], and so does its eight-byte encoding followed
    by more bytes. *)
Theorem parseNetworkInfo_max_little_endian (st : St World) (w' : World) (ni : NetworkInfo)
    (k : nat) (n : Z) (more : bytes) :
  cli_NetworkInfo sdk (st_world st) = (w', Val ni) ->
  hh_decodable sdk (ni_params ni) = true ->
  (k <= 8)%nat ->
  0 <= n < 256 ^ Z.of_nat k ->
  (k < 8 -> more = [])%nat ->
  last_value "MaxObjectSize" (ni_params ni) = Some (le_bytes k n ++ more) ->
  exists epoch hh, fst (parseNetworkInfo sdk st) = Ret (n, epoch, hh, None).
Proof.
  intros Hni Hdec Hk Hn Hmore Hm. unfold parseNetworkInfo, bind, call. rewrite Hni. cbn.
  pose proof (IterateParameters_decodable (ni_params ni) []
                (mkParseState 0 false (Some errMissesMaxObjectSize)) Hdec) as H.
  rewrite app_nil_r in H. rewrite H. cbn [IterateParameters].
  unfold resolved. rewrite Hm, (last_value_recognised _ _ Hm).
  cbn [ps_maxObjSize ps_hhDisabled ps_err].
  assert (Hd : decode_max (le_bytes k n ++ more) = n).
  { rewrite decode_max_firstn.
    assert (Hf : firstn 8 (le_bytes k n ++ more) = le_bytes k n).
    { destruct (Nat.eq_dec k 8) as [->|Hne].
      - rewrite firstn_app, length_le_bytes, Nat.sub_diag.
        rewrite (firstn_all2 (le_bytes 8 n)) by (rewrite length_le_bytes; lia).
        apply app_nil_r.
      - rewrite Hmore by lia. rewrite app_nil_r.
        apply firstn_all2. rewrite length_le_bytes. lia. }
    rewrite Hf. apply le_uint_le_bytes. exact Hn. }
  rewrite Hd. eauto.
Qed.

End Scan.

Lemma parseNetworkInfo_ignores_other_keys_witness :
  fst (parseNetworkInfo script_sdk (st0 friendly)) =
  fst (parseNetworkInfo script_sdk (st0 friendly_among_others)).
Proof.
  apply (parseNetworkInfo_ignores_other_keys script_sdk (st0 friendly)
           (st0 friendly_among_others) friendly friendly_among_others
           netinfo_64MiB netinfo_64MiB_among_others); reflexivity.
Defined.

Lemma parseNetworkInfo_malformed_flag_witness :
  fst (parseNetworkInfo script_sdk (st0 bad_flag)) =
    Ret (16, 7, false, Some "too big: integer").
Proof.
  apply (parseNetworkInfo_malformed_flag script_sdk (st0 bad_flag) bad_flag 7
           [(list_byte_of_string "MaxObjectSize", ["016"]%byte)]
           [(list_byte_of_string "MaxObjectSize", ["032"]%byte)]
           (list_byte_of_string "HomomorphicHashingDisabled") (repeat "001"%byte 33)
           false "too big: integer"); reflexivity.
Defined.

Lemma parseNetworkInfo_last_entry_wins_witness :
  fst (parseNetworkInfo script_sdk (st0 repeated)) =
    Ret (decode_max (le_bytes 8 1000000 ++ ["255"]%byte), 7,
         match last_value "HomomorphicHashingDisabled" (ni_params netinfo_repeated) with
         | Some f => fst (stackitem_TryBool script_sdk f)
         | None => false
         end, None).
Proof.
  apply (parseNetworkInfo_last_entry_wins script_sdk (st0 repeated) repeated
           netinfo_repeated (le_bytes 8 1000000 ++ ["255"]%byte)); reflexivity.
Defined.

Lemma parseNetworkInfo_max_little_endian_witness :
  exists epoch hh,
    fst (parseNetworkInfo script_sdk (st0 repeated)) = Ret (1000000, epoch, hh, None).
Proof.
  apply (parseNetworkInfo_max_little_endian script_sdk (st0 repeated) repeated
           netinfo_repeated 8 1000000 ["255"]%byte);
    try reflexivity; try lia.
Defined.

(** On [repeated] the second [MaxObjectSize] entry and the second flag
    decide. *)
Example repeated_resolves :
  fst (parseNetworkInfo script_sdk (st0 repeated)) = Ret (1000000, 7, true, None).
Proof. reflexivity. Qed.

(** *** Onsite *)

Section OnsiteMore.

Context {World : Type} (sdk : SDK World).

(** [parseNetworkInfo] makes one call and touches nothing else. *)
Lemma parseNetworkInfo_state (st : St World) :
  snd (parseNetworkInfo sdk st) =
    mkSt (st_client st) (fst (cli_NetworkInfo sdk (st_world st)))
         (st_trace st ++ [EvNetworkInfo]).
Proof.
  unfold parseNetworkInfo, bind, call.
  destruct (cli_NetworkInfo sdk (st_world st)) as [w [ni|e]]; reflexivity.
Qed.

(** X9: in every run, whether it returns or panics, [Onsite] makes
    exactly one call to the store, the network-parameters query, which
    therefore comes before the size check and before the container
    identifier is decoded; it reports no metric and leaves the client as
    it was. *)
Theorem Onsite_one_store_call (inputContainerID : string) (payload : bytes)
    (st : St World) :
  snd (Onsite sdk inputContainerID payload st) =
    mkSt (st_client st) (fst (cli_NetworkInfo sdk (st_world st)))
         (st_trace st ++ [EvNetworkInfo]).
Proof.
  pose proof (parseNetworkInfo_state st) as Hst.
  unfold Onsite, bind.
  destruct (parseNetworkInfo sdk st) as [[[[[mx ep] hh] err]|q|] st1];
    cbn [snd] in Hst; subst st1; try reflexivity.
  destruct err as [e|]; [reflexivity|].
  destruct (to_int mx <? len payload); [reflexivity|].
  unfold must. destruct (cid_DecodeString sdk inputContainerID) as [c|e]; reflexivity.
Qed.

(** What [Onsite] returns when it returns. *)
Lemma Onsite_object (st st' : St World) (inputContainerID : string)
    (payload : bytes) (p : PreparedObject) :
  Onsite sdk inputContainerID payload st = (Ret p, st') ->
  exists maxObjectSize epoch hhDisabled containerID,
    parseNetworkInfo sdk st = (Ret (maxObjectSize, epoch, hhDisabled, None), st') /\
    cid_DecodeString sdk inputContainerID = Val containerID /\
    len payload <= to_int maxObjectSize /\
    len payload < 2 ^ 63 /\
    p = mkPreparedObject (key (st_client st)) (bufsize (st_client st))
          (mkObject (Some (version_Current sdk)) TypeRegular (Some containerID)
             (Some (user_IDFromKey sdk (key (st_client st))))
             (len payload) epoch
             (Some (SHA256 (sha256_Sum256 sdk payload)))
             (if hhDisabled then None else Some (TillichZemor (tz_Sum sdk payload)))
             [] None None)
          payload.
Proof.
  pose proof (parseNetworkInfo_state st) as Hst.
  unfold Onsite, bind.
  destruct (parseNetworkInfo sdk st) as [[[[[mx ep] hh] err]|q|] st1] eqn:Hp;
    try discriminate.
  destruct err as [e|]; [discriminate|].
  destruct (Z.ltb_spec (to_int mx) (len payload)) as [Hlt|Hge]; [discriminate|].
  unfold must. destruct (cid_DecodeString sdk inputContainerID) as [c|e]; [|discriminate].
  cbn [snd] in Hst. subst st1. cbn. intros H. inversion H; subst. clear H.
  exists mx, ep, hh, c.
  assert (Hint : to_int mx < 2 ^ 63).
  { unfold to_int. pose proof (Z.mod_pos_bound (mx + 2 ^ 63) (2 ^ 64)). lia. }
  assert (Hlen : 0 <= len payload) by (unfold len; lia).
  assert (Hu : to_uint64 (len payload) = len payload).
  { unfold to_uint64. apply Z.mod_small. lia. }
  split; [reflexivity|]. split; [reflexivity|]. split; [exact Hge|]. split; [lia|].
  rewrite Hu. destruct hh; reflexivity.
Qed.

(** X10: what [Onsite] returns is the payload with the client's key and
    buffer size as they are at that moment, and a header of type
    regular with the current version, the decoded container, the owner
    derived from the key, the resolved epoch, the checksums, no
    attributes, no identifier and no signature.  The payload is not
    longer than [int(maxObjectSize)], so its length is below 2^63 and
    the payload size of the header is that length unwrapped. *)
Theorem Onsite_prepared_object (st st' : St World) (inputContainerID : string)
    (payload : bytes) (p : PreparedObject) :
  Onsite sdk inputContainerID payload st = (Ret p, st') ->
  exists maxObjectSize epoch hhDisabled containerID,
    parseNetworkInfo sdk st = (Ret (maxObjectSize, epoch, hhDisabled, None), st') /\
    cid_DecodeString sdk inputContainerID = Val containerID /\
    len payload <= to_int maxObjectSize /\
    len payload < 2 ^ 63 /\
    p = mkPreparedObject (key (st_client st)) (bufsize (st_client st))
          (mkObject (Some (version_Current sdk)) TypeRegular (Some containerID)
             (Some (user_IDFromKey sdk (key (st_client st))))
             (len payload) epoch
             (Some (SHA256 (sha256_Sum256 sdk payload)))
             (if hhDisabled then None else Some (TillichZemor (tz_Sum sdk payload)))
             [] None None)
          payload.
Proof. exact (Onsite_object st st' inputContainerID payload p). Qed.

End OnsiteMore.

Lemma Onsite_prepared_object_witness :
  exists maxObjectSize epoch hhDisabled containerID,
    parseNetworkInfo script_sdk (st0 friendly) =
      (Ret (maxObjectSize, epoch, hhDisabled, None), mkSt client0 friendly [EvNetworkInfo]) /\
    cid_DecodeString script_sdk "cnr" = Val containerID /\
    len payload9 <= to_int maxObjectSize /\
    len payload9 < 2 ^ 63 /\
    prepared9 =
      mkPreparedObject (key (st_client (st0 friendly))) (bufsize (st_client (st0 friendly)))
        (mkObject (Some (version_Current script_sdk)) TypeRegular (Some containerID)
           (Some (user_IDFromKey script_sdk (key (st_client (st0 friendly)))))
           (len payload9) epoch
           (Some (SHA256 (sha256_Sum256 script_sdk payload9)))
           (if hhDisabled then None else Some (TillichZemor (tz_Sum script_sdk payload9)))
           [] None None)
        payload9.
Proof.
  apply (Onsite_prepared_object script_sdk (st0 friendly)
           (mkSt client0 friendly [EvNetworkInfo]) "cnr" payload9 prepared9).
  reflexivity.
Defined.

(** *** The sizes of the chunks *)

Section PutLoopGen.

Context {World : Type} (sdk : SDK World).

Variable B : nat.
Variable Q : bytes -> list (bytes * bool) -> Prop.

Hypothesis Q_done : forall P : bytes, Nat.min B (List.length P) = 0%nat -> Q P [].
Hypothesis Q_rejected :
  forall P : bytes,
    (0 < Nat.min B (List.length P))%nat ->
    Q P [(firstn (Nat.min B (List.length P)) P, false)].
Hypothesis Q_accepted :
  forall (P : bytes) (cs : list (bytes * bool)),
    (0 < Nat.min B (List.length P))%nat ->
    Q (skipn (Nat.min B (List.length P)) P) cs ->
    Q P ((firstn (Nat.min B (List.length P)) P, true) :: cs).

(** The loop of lines 299-304 establishes every property of the chunk
    writes that holds of no chunk, of one rejected chunk, and of an
    accepted chunk followed by the writes of the rest. *)
Lemma put_loop_gen (fuel : nat) :
  forall (buf s : bytes) (i k : nat) (st : St World),
    List.length buf = B ->
    (0 < B)%nat ->
    (k <= i <= List.length s)%nat ->
    k = Nat.min B (List.length (skipn (i - k) s)) ->
    firstn k buf = firstn k (skipn (i - k) s) ->
    (0 < k -> List.length s - i < fuel)%nat ->
    exists cs st',
      put_loop sdk fuel buf (mkReader s (Z.of_nat i)) (Z.of_nat k) st = (Ret tt, st') /\
      st_trace st' = st_trace st ++ map chunk_event cs /\
      Q (skipn (i - k) s) cs.
Proof.
  induction fuel as [|fuel IH]; intros buf s i k st Hlen HB Hik Hk Hbuf Hfuel.
  - assert (k = 0)%nat by lia. subst k.
    exists [], st. cbn [put_loop Z.of_nat Z.ltb Z.compare ret map].
    rewrite app_nil_r. split; [|split]; try reflexivity.
    apply Q_done. congruence.
  - destruct k as [|k'].
    + exists [], st. cbn [put_loop Z.of_nat Z.ltb Z.compare ret map].
      rewrite app_nil_r. split; [|split]; try reflexivity.
      apply Q_done. congruence.
    + set (k := S k') in *.
      set (P := skipn (i - k) s) in *.
      assert (Hpos : (0 < Nat.min B (List.length P))%nat) by (rewrite <- Hk; unfold k; lia).
      assert (HP' : skipn k P = skipn i s).
      { unfold P. rewrite skipn_skipn. f_equal. lia. }
      cbn [put_loop].
      replace (0 <? Z.of_nat k) with true by (symmetry; apply Z.ltb_lt; unfold k; lia).
      rewrite Nat2Z.id. unfold bind at 1. unfold call at 1.
      destruct (w_WritePayloadChunk sdk (firstn k buf) (st_world st)) as [w1 ok] eqn:Hw.
      rewrite Hbuf.
      destruct ok; cbn [negb].
      * destruct (Reader_Read_nat s buf i (proj2 Hik)) as (buf' & e & Hrd & Hlen' & Hfst).
        rewrite Hrd.
        set (k2 := Nat.min (List.length buf) (List.length (skipn i s))) in *.
        assert (Hk2le : (k2 <= List.length s - i)%nat)
          by (unfold k2; rewrite length_skipn; lia).
        assert (Hfuel' : (List.length s - i < S fuel)%nat) by (apply Hfuel; unfold k; lia).
        destruct (IH buf' s (i + k2)%nat k2
                    (mkSt (st_client st) w1
                       (st_trace st ++ [EvWritePayloadChunk (firstn k P) true])))
          as (cs & st' & Hrun & Htr & HQ).
        -- congruence.
        -- exact HB.
        -- lia.
        -- replace (i + k2 - k2)%nat with i by lia. unfold k2. congruence.
        -- replace (i + k2 - k2)%nat with i by lia. exact Hfst.
        -- intros Hk2. lia.
        -- exists ((firstn k P, true) :: cs), st'.
           split; [exact Hrun|]. split.
           ++ rewrite Htr. cbn [st_trace map]. rewrite <- app_assoc. reflexivity.
           ++ replace (i + k2 - k2)%nat with i in HQ by lia.
              rewrite <- HP' in HQ. rewrite Hk in HQ |- *.
              apply Q_accepted; assumption.
      * exists [(firstn k P, false)], (mkSt (st_client st) w1
                  (st_trace st ++ [EvWritePayloadChunk (firstn k P) false])).
        split; [|split]; try reflexivity.
        rewrite Hk. apply Q_rejected. exact Hpos.
Qed.

Lemma put_stream_gen (buf payload : bytes) (st : St World) :
  List.length buf = B ->
  exists cs st',
    put_stream sdk buf (NewReader payload) st = (Ret tt, st') /\
    st_trace st' = st_trace st ++ map chunk_event cs /\
    Q payload cs.
Proof.
  intros Hlen. unfold put_stream, NewReader.
  destruct (Reader_Read_nat payload buf 0 (Nat.le_0_l _)) as (buf' & e & Hrd & Hlen' & Hfst).
  cbn [skipn Nat.add Z.of_nat] in *. rewrite Hrd. cbn [r_s].
  set (k := Nat.min (List.length buf) (List.length payload)) in *.
  destruct (Nat.eq_dec B 0) as [HB0|HB].
  - assert (Hk0 : k = 0%nat) by (unfold k; lia).
    exists [], st. rewrite Hk0. cbn [Z.of_nat map].
    rewrite app_nil_r. split; [|split]; try reflexivity.
    + destruct (List.length payload); reflexivity.
    + apply Q_done. rewrite HB0. reflexivity.
  - destruct (put_loop_gen (List.length payload) buf' payload k k st)
      as (cs & st' & Hrun & Htr & HQ).
    + congruence.
    + lia.
    + unfold k. lia.
    + rewrite Nat.sub_diag. cbn [skipn]. unfold k. congruence.
    + rewrite Nat.sub_diag. exact Hfst.
    + lia.
    + exists cs, st'. rewrite Nat.sub_diag in HQ. cbn [skipn] in HQ. auto.
Qed.

End PutLoopGen.

Lemma reports_app (m : Metric) (a b : list Event) :
  reports m (a ++ b) = reports m a ++ reports m b.
Proof.
  induction a as [|e a IH]; simpl; [reflexivity|].
  destruct e; simpl; rewrite ?IH; try reflexivity.
  destruct (Metric_eqb m m0); reflexivity.
Qed.

Lemma reports_chunk_events (m : Metric) (cs : list (bytes * bool)) :
  reports m (map chunk_event cs) = [].
Proof. induction cs as [|c cs IH]; [reflexivity|exact IH]. Qed.

Lemma reports_tok_events (m : Metric) (t : option Token) : reports m (tok_events t) = [].
Proof. destruct t; reflexivity. Qed.

Lemma sent_app (a b : list Event) : sent (a ++ b) = sent a ++ sent b.
Proof.
  induction a as [|e a IH]; simpl; [reflexivity|].
  destruct e; simpl; now rewrite ?IH.
Qed.

Lemma sent_chunk_events (cs : list (bytes * bool)) : sent (map chunk_event cs) = [].
Proof. induction cs as [|c cs IH]; [reflexivity|exact IH]. Qed.

Lemma sent_tok_events (t : option Token) : sent (tok_events t) = [].
Proof. destruct t; reflexivity. Qed.

Lemma header_accepted_app (a b : list Event) :
  header_accepted (a ++ b) = header_accepted a || header_accepted b.
Proof.
  induction a as [|e a IH]; simpl; [reflexivity|].
  destruct e; simpl; rewrite ?IH; try reflexivity.
  now rewrite orb_assoc.
Qed.

Lemma header_accepted_chunk_events (cs : list (bytes * bool)) :
  header_accepted (map chunk_event cs) = false.
Proof. induction cs as [|c cs IH]; [reflexivity|exact IH]. Qed.

Lemma header_accepted_tok_events (t : option Token) : header_accepted (tok_events t) = false.
Proof. destruct t; reflexivity. Qed.

(** What the traces of the four ways through [put] hold. *)
Lemma put_outcome_trace (B : nat) (tok : option Token) (hdr : Object)
    (payload : bytes) (new : list Event) (r : option ResObjectPut * option error) :
  put_outcome B tok hdr payload new r ->
  reports objPutTotal new = [1] /\
  (header_accepted new = false ->
   chunk_writes new = [] /\ sent new = [] /\ reports objPutDuration new = []) /\
  (header_accepted new = true ->
   written_headers new = [hdr] /\
   chunks_ok B payload (chunk_writes new) /\
   (snd r <> None -> sent new = [] /\ reports objPutDuration new = []) /\
   (snd r = None ->
    sent new = [len payload] /\ exists d, reports objPutDuration new = [d])).
Proof.
  intros H. inversion H; subst.
  - split; [reflexivity|]. split; [intros _; repeat split; reflexivity|].
    intros C. discriminate C.
  - cbn [app reports Metric_eqb header_accepted chunk_writes sent].
    rewrite reports_app, header_accepted_app, chunk_writes_app, sent_app, reports_app.
    rewrite !reports_tok_events, header_accepted_tok_events, chunk_writes_tok_events,
      sent_tok_events.
    split; [reflexivity|]. split; [intros _; repeat split; reflexivity|].
    intros C. discriminate C.
  - cbn [app reports Metric_eqb header_accepted chunk_writes sent written_headers].
    rewrite reports_app, header_accepted_app, chunk_writes_app, sent_app, reports_app,
      written_headers_app.
    rewrite !reports_tok_events, header_accepted_tok_events, chunk_writes_tok_events,
      sent_tok_events, written_headers_tok_events.
    cbn [app reports Metric_eqb header_accepted chunk_writes sent written_headers orb].
    rewrite !reports_app, chunk_writes_app, sent_app, written_headers_app.
    rewrite !reports_chunk_events, chunk_writes_chunk_events, sent_chunk_events,
      written_headers_chunk_events.
    cbn [app reports Metric_eqb header_accepted chunk_writes sent written_headers orb snd].
    rewrite app_nil_r.
    split; [reflexivity|]. split; [intros C; discriminate C|]. intros _.
    split; [reflexivity|]. split; [assumption|].
    split; [intros _; split; reflexivity|]. intros C. discriminate C.
  - cbn [app reports Metric_eqb header_accepted chunk_writes sent written_headers].
    rewrite reports_app, header_accepted_app, chunk_writes_app, sent_app, reports_app,
      written_headers_app.
    rewrite !reports_tok_events, header_accepted_tok_events, chunk_writes_tok_events,
      sent_tok_events, written_headers_tok_events.
    cbn [app reports Metric_eqb header_accepted chunk_writes sent written_headers orb].
    rewrite !reports_app, chunk_writes_app, sent_app, written_headers_app.
    rewrite !reports_chunk_events, chunk_writes_chunk_events, sent_chunk_events,
      written_headers_chunk_events.
    cbn [app reports Metric_eqb header_accepted chunk_writes sent written_headers orb snd].
    rewrite app_nil_r.
    split; [reflexivity|]. split; [intros C; discriminate C|]. intros _.
    split; [reflexivity|]. split; [assumption|].
    split; [intros C; now elim C|]. intros _. split; [reflexivity|]. exists d. reflexivity.
Qed.

Section PutGen.

Context {World : Type} (sdk : SDK World).

Variable B : nat.
Variable Q : bytes -> list (bytes * bool) -> Prop.

Hypothesis Q_done : forall P : bytes, Nat.min B (List.length P) = 0%nat -> Q P [].
Hypothesis Q_rejected :
  forall P : bytes,
    (0 < Nat.min B (List.length P))%nat ->
    Q P [(firstn (Nat.min B (List.length P)) P, false)].
Hypothesis Q_accepted :
  forall (P : bytes) (cs : list (bytes * bool)),
    (0 < Nat.min B (List.length P))%nat ->
    Q (skipn (Nat.min B (List.length P)) P) cs ->
    Q P ((firstn (Nat.min B (List.length P)) P, true) :: cs).

(** [put] with a buffer of [B] bytes returns along one of its four
    ways; once the header is accepted the chunk writes have every
    property the loop establishes, and a duration reported is the time
    of the store at the return less its time at the call. *)
Lemma put_gen (bufSize : Z) (tok : option Token) (hdr : Object)
    (payload : bytes) (st : St World) :
  0 <= bufSize <= maxAlloc ->
  Z.to_nat bufSize = B ->
  exists r st' new,
    put sdk bufSize tok hdr payload st = (Ret r, st') /\
    st_client st' = st_client st /\
    st_trace st' = st_trace st ++ new /\
    put_outcome B tok hdr payload new r /\
    (header_accepted new = true -> Q payload (chunk_writes new)) /\
    (forall d, reports objPutDuration new = [d] ->
               d = time_Now sdk (st_world st') - time_Now sdk (st_world st)) /\
    (forall w1 w2,
        cli_ObjectPutInit sdk (st_world st) = (w1, None) ->
        w_WriteHeader sdk hdr
          (match tok with Some t => w_WithinSession sdk t w1 | None => w1 end) = (w2, true) ->
        header_accepted new = true).
Proof.
  intros HB HBn.
  destruct (put_spec sdk bufSize tok hdr payload st HB)
    as (r & st' & new & Hrun & Hcl & Htr & Hout).
  rewrite HBn in Hout.
  exists r, st', new.
  split; [exact Hrun|]. split; [exact Hcl|]. split; [exact Htr|]. split; [exact Hout|].
  revert Hrun. unfold put, make_bytes.
  rewrite (out_of_range_false bufSize) by lia.
  unfold bind at 1. unfold ret at 1.
  unfold bind at 1. unfold Report, emit at 1. cbn [fst snd st_client st_world st_trace].
  unfold bind at 1. unfold now at 1. cbn [fst snd st_client st_world st_trace].
  unfold bind at 1. unfold call at 1. cbn [fst snd st_client st_world st_trace].
  destruct (cli_ObjectPutInit sdk (st_world st)) as [w1 e] eqn:Hinit.
  destruct e as [err|].
  - run_monad. intros Hrun. inversion Hrun; subst. cbn [st_trace] in Htr.
    rewrite <- !app_assoc in Htr. apply app_inv_head in Htr. subst new.
    split; [intros C; discriminate C|]. split; [intros d C; discriminate C|].
    intros w1' w2' C. discriminate C.
  - unfold bind at 1.
    set (st1 := mkSt (st_client st) w1
                  ((st_trace st ++ [EvReport objPutTotal 1]) ++ [EvObjectPutInit None])).
    set (wt := match tok with Some t => w_WithinSession sdk t w1 | None => w1 end).
    assert (Htok :
               (match tok with
                | Some t => call (fun w => (w_WithinSession sdk t w, tt))
                                 (fun _ => EvWithinSession t)
                | None => ret tt
                end) st1 = (Ret tt, mkSt (st_client st) wt (st_trace st1 ++ tok_events tok))).
    { unfold wt. destruct tok as [t|]; run_monad.
      - reflexivity.
      - unfold st1. cbn [tok_events st_trace st_client st_world]. rewrite app_nil_r.
        reflexivity. }
    rewrite Htok.
    unfold bind at 1. unfold call at 1. cbn [fst snd st_client st_world st_trace].
    destruct (w_WriteHeader sdk hdr wt) as [w3 ok] eqn:Hhdr.
    destruct ok; cbn [negb].
    + set (st3 := mkSt (st_client st) w3 _).
      destruct (put_stream_gen sdk B Q Q_done Q_rejected Q_accepted
                  (repeat "000"%byte (Z.to_nat bufSize)) payload st3)
        as (cs & st4 & Hstream & Htr4 & HQ).
      { rewrite repeat_length. exact HBn. }
      unfold put_transfer. unfold bind at 1. rewrite Hstream.
      unfold bind at 1. unfold ObjectWriter_Close, call at 1.
      destruct (w_Close sdk (st_world st4)) as [w5 [resp e]] eqn:Hclose.
      cbn [fst snd]. destruct e as [err|].
      * run_monad. intros Hrun. inversion Hrun; subst. cbn [st_trace] in Htr.
        rewrite Htr4 in Htr. unfold st3, st1 in Htr. cbn [st_trace] in Htr.
        rewrite <- !app_assoc in Htr. apply app_inv_head in Htr. subst new.
        split; [|split].
        -- intros _. cbn [app chunk_writes].
           rewrite chunk_writes_app, chunk_writes_tok_events. cbn [app chunk_writes].
           rewrite chunk_writes_app, chunk_writes_chunk_events. cbn [chunk_writes].
           rewrite app_nil_r. exact HQ.
        -- intros d. cbn [app reports Metric_eqb].
           rewrite reports_app, reports_tok_events. cbn [app reports Metric_eqb].
           rewrite reports_app, reports_chunk_events. cbn [app reports Metric_eqb].
           intros C. discriminate C.
        -- intros _ _ _ _. cbn [app header_accepted].
           rewrite header_accepted_app, header_accepted_tok_events. reflexivity.
      * run_monad. intros Hrun. inversion Hrun; subst. cbn [st_trace] in Htr.
        rewrite Htr4 in Htr. unfold st3, st1 in Htr. cbn [st_trace] in Htr.
        rewrite <- !app_assoc in Htr. apply app_inv_head in Htr. subst new.
        split; [|split].
        -- intros _. cbn [app chunk_writes].
           rewrite chunk_writes_app, chunk_writes_tok_events. cbn [app chunk_writes].
           rewrite chunk_writes_app, chunk_writes_chunk_events. cbn [chunk_writes].
           rewrite app_nil_r. exact HQ.
        -- intros d. cbn [app reports Metric_eqb st_world].
           rewrite reports_app, reports_tok_events. cbn [app reports Metric_eqb].
           rewrite reports_app, reports_chunk_events. cbn [app reports Metric_eqb].
           intros C. inversion C. reflexivity.
        -- intros _ _ _ _. cbn [app header_accepted].
           rewrite header_accepted_app, header_accepted_tok_events. reflexivity.
    + run_monad.
      destruct (w_Close sdk w3) as [w5 [resp e]] eqn:Hclose.
      cbn [fst snd]. intros Hrun. inversion Hrun; subst. cbn [st_trace] in Htr.
      unfold st1 in Htr. cbn [st_trace] in Htr.
      rewrite <- !app_assoc in Htr. apply app_inv_head in Htr. subst new.
      split; [|split].
      * cbn [app header_accepted].
        rewrite header_accepted_app, header_accepted_tok_events. cbn.
        intros C. discriminate C.
      * intros d. cbn [app reports Metric_eqb].
        rewrite reports_app, reports_tok_events. cbn. intros C. discriminate C.
      * intros w1' w2' E1 E2. inversion E1; subst w1'. fold wt in E2.
        rewrite Hhdr in E2. discriminate E2.
Qed.

End PutGen.

Lemma ceil_div_step (n B : nat) :
  (0 < Nat.min B n)%nat ->
  ((n + B - 1) / B = S ((n - Nat.min B n + B - 1) / B))%nat.
Proof.
  intros Hk. destruct (Nat.le_gt_cases n B) as [Hle|Hgt].
  - rewrite Nat.min_r by exact Hle.
    replace (n - n + B - 1)%nat with (B - 1)%nat by lia.
    rewrite (Nat.div_small (B - 1) B) by lia.
    symmetry. apply (Nat.div_unique (n + B - 1) B 1 (n - 1)); lia.
  - rewrite Nat.min_l by lia.
    replace (n + B - 1)%nat with ((n - B + B - 1) + 1 * B)%nat by lia.
    rewrite Nat.div_add by lia. lia.
Qed.

Lemma chunks_exact_nil (B : nat) (P : bytes) :
  Nat.min B (List.length P) = 0%nat -> chunks_exact B P [].
Proof.
  intros Hmin. split; [exact I|]. split; [intros C; now elim C|].
  intros _. cbn [List.length]. destruct B as [|B']; [reflexivity|].
  assert (HP : List.length P = 0%nat) by lia. rewrite HP.
  symmetry. apply Nat.div_small. lia.
Qed.

Lemma chunks_exact_rejected (B : nat) (P : bytes) :
  (0 < Nat.min B (List.length P))%nat ->
  chunks_exact B P [(firstn (Nat.min B (List.length P)) P, false)].
Proof.
  intros Hk. split; [|split].
  - cbn. split; [intros C; now elim C|exact I].
  - intros _ C. subst P. cbn in Hk. lia.
  - intros C. discriminate C.
Qed.

Lemma chunks_exact_accepted (B : nat) (P : bytes) (cs : list (bytes * bool)) :
  (0 < Nat.min B (List.length P))%nat ->
  chunks_exact B (skipn (Nat.min B (List.length P)) P) cs ->
  chunks_exact B P ((firstn (Nat.min B (List.length P)) P, true) :: cs).
Proof.
  intros Hk (Hfull & Hne & Hcount). split; [|split].
  - cbn [map fst full_but_last]. split; [|exact Hfull].
    intros Hcs. unfold len. rewrite length_firstn.
    assert (Hrest : skipn (Nat.min B (List.length P)) P <> []).
    { apply Hne. intros C. subst cs. now apply Hcs. }
    assert (Hlen : (List.length (skipn (Nat.min B (List.length P)) P) <> 0)%nat).
    { intros C. apply Hrest. now apply length_zero_iff_nil. }
    rewrite length_skipn in Hlen. lia.
  - intros _ C. subst P. cbn in Hk. lia.
  - cbn [forallb snd List.length andb]. intros Hacc.
    rewrite (Hcount Hacc), length_skipn. symmetry. apply ceil_div_step. exact Hk.
Qed.

Section PutChunks.

Context {World : Type} (sdk : SDK World).

(** X11: [put], with a buffer size that [make] can allocate, cuts the
    payload at multiples of the buffer size.  Every
    chunk it writes but the last one fills the buffer; nothing is
    streamed of an empty payload or through a buffer of size zero, in
    which case the stream is still opened, given the header and closed;
    and once the header is accepted and no chunk write rejected, the
    number of chunk writes is the payload's length divided by the buffer
    size, rounded up. *)
Theorem put_chunk_sizes (bufSize : Z) (tok : option Token) (hdr : Object)
    (payload : bytes) (st : St World) :
  0 <= bufSize <= maxAlloc ->
  exists r st' new,
    put sdk bufSize tok hdr payload st = (Ret r, st') /\
    st_trace st' = st_trace st ++ new /\
    full_but_last bufSize (map fst (chunk_writes new)) /\
    (bufSize = 0 \/ payload = [] -> chunk_writes new = []) /\
    (0 < bufSize -> header_accepted new = true ->
     forallb snd (chunk_writes new) = true ->
     len (chunk_writes new) = (len payload + bufSize - 1) / bufSize).
Proof.
  intros HB.
  destruct (put_gen sdk (Z.to_nat bufSize) (chunks_exact (Z.to_nat bufSize))
              (chunks_exact_nil _) (chunks_exact_rejected _) (chunks_exact_accepted _)
              bufSize tok hdr payload st HB eq_refl)
    as (r & st' & new & Hrun & _ & Htr & Hout & HQ & _).
  exists r, st', new. split; [exact Hrun|]. split; [exact Htr|].
  destruct (put_outcome_trace _ _ _ _ _ _ Hout) as (_ & Hno & Hyes).
  destruct (header_accepted new) eqn:Hacc.
  - destruct (HQ eq_refl) as (Hfull & Hne & Hcount).
    destruct (Hyes eq_refl) as (_ & (Hsz & _) & _).
    rewrite Z2Nat.id in Hfull by lia.
    split; [exact Hfull|]. split.
    + intros [H0|Hnil].
      * destruct (chunk_writes new) as [|c cs]; [reflexivity|].
        inversion Hsz as [|? ? Hc _]; subst. cbn beta in Hc. lia.
      * destruct (chunk_writes new) as [|c cs]; [reflexivity|].
        exfalso. apply Hne; [discriminate|exact Hnil].
    + intros Hpos _ Hall. unfold len. rewrite (Hcount Hall).
      rewrite Nat2Z.inj_div.
      replace (Z.of_nat (List.length payload + Z.to_nat bufSize - 1))
        with (Z.of_nat (List.length payload) + bufSize - 1) by lia.
      rewrite Z2Nat.id by lia. reflexivity.
  - destruct (Hno eq_refl) as (Hcs & _). rewrite Hcs.
    split; [exact I|]. split; [reflexivity|]. intros _ C. discriminate C.
Qed.

(** X12: the metrics of one [put].  A [put] whose buffer cannot be
    allocated, its size being negative or above the allocation limit,
    panics before it reports anything.  Every other [put] returns and
    has reported the total counter once, with the value 1.  The bytes
    sent and the duration are reported only when the header was
    accepted and the close returned no error; the bytes sent are then
    the payload's whole length, whatever the chunk writes answered and
    whether or not a chunk was written at all, and the duration is the
    time of the store at the return less its time at the call. *)
Theorem put_metrics (bufSize : Z) (tok : option Token) (hdr : Object)
    (payload : bytes) (st : St World) :
  let run := put sdk bufSize tok hdr payload st in
  exists new,
    st_trace (snd run) = st_trace st ++ new /\
    (out_of_range bufSize = true -> fst run = Panic PanicMakeLen /\ new = []) /\
    (out_of_range bufSize = false ->
     exists r,
       fst run = Ret r /\
       reports objPutTotal new = [1] /\
       (header_accepted new = true -> snd r = None ->
        sent new = [len payload] /\
        reports objPutDuration new =
          [time_Now sdk (st_world (snd run)) - time_Now sdk (st_world st)]) /\
       (header_accepted new = false \/ snd r <> None ->
        sent new = [] /\ reports objPutDuration new = [])).
Proof.
  cbv zeta.
  destruct (out_of_range_spec bufSize) as [[Hb Hout]|[Hb Hin]]; rewrite Hb.
  - rewrite (put_out_of_range sdk _ _ _ _ _ Hout). cbn [fst snd].
    exists []. rewrite app_nil_r. split; [reflexivity|].
    split; [intros _; split; reflexivity|intros C; discriminate C].
  - destruct (put_gen sdk (Z.to_nat bufSize) (fun _ _ => True)
                (fun _ _ => I) (fun _ _ => I) (fun _ _ _ _ => I)
                bufSize tok hdr payload st Hin eq_refl)
      as (r & st' & new & Hrun & _ & Htr & Hout & _ & Hd & _).
    rewrite Hrun. cbn [fst snd]. exists new. split; [exact Htr|].
    split; [intros C; discriminate C|]. intros _. exists r. split; [reflexivity|].
    destruct (put_outcome_trace _ _ _ _ _ _ Hout) as (Htotal & Hno & Hyes).
    split; [exact Htotal|]. split.
    + intros Hacc Hr. destruct (Hyes Hacc) as (_ & _ & _ & Hok).
      destruct (Hok Hr) as (Hsent & d & Hdur).
      split; [exact Hsent|]. rewrite Hdur. f_equal. exact (Hd d Hdur).
    + intros [Hacc|Hr].
      * destruct (Hno Hacc) as (_ & Hsent & Hdur). split; assumption.
      * destruct (header_accepted new) eqn:Hacc.
        -- destruct (Hyes eq_refl) as (_ & _ & Hfail & _). exact (Hfail Hr).
        -- destruct (Hno eq_refl) as (_ & Hsent & Hdur). split; assumption.
Qed.

End PutChunks.

Lemma put_chunk_sizes_witness :
  exists r st' new,
    put script_sdk 4 None zero_Object payload9 (st0 friendly) = (Ret r, st') /\
    st_trace st' = st_trace (st0 friendly) ++ new /\
    full_but_last 4 (map fst (chunk_writes new)) /\
    (4 = 0 \/ payload9 = [] -> chunk_writes new = []) /\
    (0 < 4 -> header_accepted new = true ->
     forallb snd (chunk_writes new) = true ->
     len (chunk_writes new) = (len payload9 + 4 - 1) / 4).
Proof.
  apply (put_chunk_sizes script_sdk 4 None zero_Object payload9 (st0 friendly)).
  unfold maxAlloc. lia.
Defined.

(** Nine bytes through a buffer of four: chunks of four, four and one
    byte. *)
Example put_three_chunks :
  map (fun c : bytes * bool => len (fst c))
    (chunk_writes (st_trace (snd (put script_sdk 4 None zero_Object payload9 (st0 friendly)))))
  = [4; 4; 1].
Proof. reflexivity. Qed.

(** A stream that accepts four of the nine bytes, rejects the next
    chunk and closes without an error: nine bytes are reported as
    sent. *)
Example put_reports_bytes_not_accepted :
  let run := put script_sdk 4 None zero_Object payload9 (st0 one_chunk_then_ok) in
  map (fun c : bytes * bool => (len (fst c), snd c)) (chunk_writes (st_trace (snd run))) =
    [(4, true); (4, false)] /\
  sent (st_trace (snd run)) = [9] /\
  reports objPutDuration (st_trace (snd run)) = [1].
Proof. cbv zeta. repeat split; reflexivity. Qed.

(** *** Client.Put *)

Section ClientPutMore.

Context {World : Type} (sdk : SDK World).

(** [Client.Put] panics with the error of the decoding or of the
    signing before anything else happens, or gets past both. *)
Lemma Client_Put_early (inputContainerID : string) (headers : list (string * string))
    (payload : bytes) (st : St World) :
  (exists e,
     (cid_DecodeString sdk inputContainerID = Fail e \/
      exists containerID,
        cid_DecodeString sdk inputContainerID = Val containerID /\
        session_Sign sdk (key (st_client st))
          (ApplyTo (mkAddress (Some containerID) None)
             (ForVerb VerbObjectPut (tok (st_client st)))) = Fail e) /\
     Client_Put sdk inputContainerID headers payload st = (Panic (PanicErr e), st)) \/
  exists containerID sg,
    cid_DecodeString sdk inputContainerID = Val containerID /\
    session_Sign sdk (key (st_client st))
      (ApplyTo (mkAddress (Some containerID) None)
         (ForVerb VerbObjectPut (tok (st_client st)))) = Val sg.
Proof.
  destruct (cid_DecodeString sdk inputContainerID) as [containerID|e] eqn:Hcid.
  2:{ left. exists e. split; [left; reflexivity|].
      unfold Client_Put, must. unfold bind at 1. rewrite Hcid. reflexivity. }
  destruct (session_Sign sdk (key (st_client st))
              (ApplyTo (mkAddress (Some containerID) None)
                 (ForVerb VerbObjectPut (tok (st_client st))))) as [sg|e] eqn:Hsg.
  2:{ left. exists e. split; [right; exists containerID; split; [reflexivity|exact Hsg]|].
      unfold Client_Put, must, Token_Sign, Address_SetContainerID, zero_Address.
      unfold bind at 1. rewrite Hcid. unfold ret at 1.
      unfold bind at 1. unfold get_client at 1.
      unfold bind at 1. cbn [addr_obj]. rewrite Hsg. reflexivity. }
  right. exists containerID, sg. split; [reflexivity|exact Hsg].
Qed.

(** X13: the header [Client.Put] writes, when it writes one, names the
    decoded container, the owner derived from the client's key and one
    attribute per entry of the headers, in their order, and nothing
    else: no version, no payload size, no creation epoch, no checksum of
    the payload, no identifier and no signature, all of which
    [Client.Onsite] and [PreparedObject.Put] set. *)
Theorem Client_Put_header (inputContainerID : string) (headers : list (string * string))
    (payload : bytes) (st : St World) :
  exists new,
    st_trace (snd (Client_Put sdk inputContainerID headers payload st)) = st_trace st ++ new /\
    (written_headers new = [] \/
     exists containerID,
       cid_DecodeString sdk inputContainerID = Val containerID /\
       written_headers new =
         [mkObject None TypeRegular (Some containerID)
            (Some (user_IDFromKey sdk (key (st_client st)))) 0 0 None None
            (map (fun kv => mkAttribute (fst kv) (snd kv)) headers) None None]).
Proof.
  destruct (Client_Put_cases sdk inputContainerID headers payload st)
    as [(p & Hrun)|(containerID & sg & r & st' & new & Hcid & Hsg & Hout & Hcl & Htr & Hrun)];
    rewrite Hrun; cbn [fst snd].
  - exists []. rewrite app_nil_r. split; [reflexivity|]. left. reflexivity.
  - exists new. split; [exact Htr|].
    destruct (put_outcome_headers _ _ _ _ _ _ Hout) as [H|H]; [left; exact H|].
    right. exists containerID. split; [exact Hcid|]. rewrite H.
    unfold put_object, SetAttributes, SetOwnerID, SetContainerID, zero_Object.
    cbn. rewrite make_attrs_map. reflexivity.
Qed.

(** X16: [SetBufferSize] accepts every size that is not negative, and
    what [Client.Put] does next depends on it.  It fails to allocate
    its buffer exactly when the size set is above the allocation limit
    and the call gets as far as the allocation, that is when the
    identifier decodes and the token is signed.  Otherwise it streams
    the payload in chunks of the size set, or of 64 KiB when the size
    set is zero: no chunk is empty or longer, and every chunk but the
    last is of exactly that size. *)
Theorem Client_Put_after_SetBufferSize (size : Z) (inputContainerID : string)
    (headers : list (string * string)) (payload : bytes) (st st1 : St World) :
  SetBufferSize size st = (Ret tt, st1) ->
  let B := if size =? 0 then 65536 else size in
  let run := Client_Put sdk inputContainerID headers payload st1 in
  (fst run = Panic PanicMakeLen <->
   maxAlloc < size /\
   exists containerID sg,
     cid_DecodeString sdk inputContainerID = Val containerID /\
     session_Sign sdk (key (st_client st1))
       (ApplyTo (mkAddress (Some containerID) None)
          (ForVerb VerbObjectPut (tok (st_client st1)))) = Val sg) /\
  exists new,
    st_trace (snd run) = st_trace st1 ++ new /\
    Forall (fun c : bytes * bool => 0 < len (fst c) <= B) (chunk_writes new) /\
    full_but_last B (map fst (chunk_writes new)).
Proof.
  intros Hset. cbv zeta.
  assert (HB : 0 < bufsize (st_client st1) /\
               bufsize (st_client st1) = if size =? 0 then 65536 else size).
  { revert Hset. unfold SetBufferSize, bind, get_client, set_client, go_panic.
    destruct (Z.ltb_spec size 0) as [Hneg|Hnn]; [discriminate|].
    destruct (Z.eqb_spec size 0) as [Hz|Hnz]; intros H; inversion H; subst;
      cbn [st_client bufsize]; unfold defaultBufferSize; split; lia || reflexivity. }
  destruct HB as [Hpos HB]. rewrite <- HB.
  assert (Hlimit : maxAlloc < size <-> maxAlloc < bufsize (st_client st1)).
  { rewrite HB. unfold maxAlloc. destruct (Z.eqb_spec size 0); lia. }
  destruct (Client_Put_early inputContainerID headers payload st1)
    as [(e & Hwhy & Hrun)|(containerID & sg & Hcid & Hsg)].
  - rewrite Hrun. cbn [fst snd]. split.
    + split; [intros C; discriminate C|].
      intros (_ & containerID & sg & Hcid & Hsg).
      destruct Hwhy as [Hf|(c' & Hc' & Hf)].
      * rewrite Hf in Hcid. discriminate Hcid.
      * rewrite Hc' in Hcid. inversion Hcid; subst c'. rewrite Hf in Hsg. discriminate Hsg.
    + exists []. rewrite app_nil_r. split; [reflexivity|]. split; [constructor|exact I].
  - rewrite (Client_Put_eq sdk _ _ _ _ _ _ Hcid Hsg). unfold bind.
    destruct (out_of_range_spec (bufsize (st_client st1))) as [[_ Hout]|[_ Hin]].
    + rewrite (put_out_of_range sdk _ _ _ _ _ Hout). cbn [fst snd]. split.
      * split; [intros _|reflexivity].
        split; [apply Hlimit; lia|]. exists containerID, sg. split; assumption.
      * exists []. rewrite app_nil_r. split; [reflexivity|]. split; [constructor|exact I].
    + destruct (put_gen sdk (Z.to_nat (bufsize (st_client st1)))
                  (chunks_exact (Z.to_nat (bufsize (st_client st1))))
                  (chunks_exact_nil _) (chunks_exact_rejected _) (chunks_exact_accepted _)
                  (bufsize (st_client st1))
                  (Some (scoped (tok (st_client st1)) VerbObjectPut
                           (mkAddress (Some containerID) None) sg))
                  (put_object sdk (st_client st1) containerID headers) payload st1)
        as (r & st' & new & Hrun & _ & Htr & Hout & HQ & _); [exact Hin|reflexivity|].
      rewrite Hrun. split.
      * split; [destruct r as [[resp|] [err|]]; intros C; discriminate C|].
        intros (Hbig & _). apply Hlimit in Hbig. lia.
      * exists new. split; [destruct r as [[resp|] [err|]]; exact Htr|].
        destruct (put_outcome_trace _ _ _ _ _ _ Hout) as (_ & Hno & Hyes).
        destruct (header_accepted new) eqn:Hacc.
        -- destruct (HQ eq_refl) as (Hfull & _).
           destruct (Hyes eq_refl) as (_ & (Hsz & _) & _).
           rewrite Z2Nat.id in Hfull by lia. split; [|exact Hfull].
           eapply Forall_impl; [|exact Hsz]. intros c Hc. cbn beta in Hc. unfold len. lia.
        -- destruct (Hno eq_refl) as (Hcs & _). rewrite Hcs. split; [constructor|exact I].
Qed.

End ClientPutMore.

Lemma Client_Put_after_SetBufferSize_witness :
  let st1 := mkSt (mkClient (key client0) (tok client0) 65536) friendly [] in
  let run := Client_Put script_sdk "cnr" [("name", "a")] payload9 st1 in
  (fst run = Panic PanicMakeLen <->
   maxAlloc < 0 /\
   exists containerID sg,
     cid_DecodeString script_sdk "cnr" = Val containerID /\
     session_Sign script_sdk (key (st_client st1))
       (ApplyTo (mkAddress (Some containerID) None)
          (ForVerb VerbObjectPut (tok (st_client st1)))) = Val sg) /\
  exists new,
    st_trace (snd run) = [] ++ new /\
    Forall (fun c : bytes * bool => 0 < len (fst c) <= 65536) (chunk_writes new) /\
    full_but_last 65536 (map fst (chunk_writes new)).
Proof.
  apply (Client_Put_after_SetBufferSize script_sdk 0 "cnr" [("name", "a")] payload9
           (st0 friendly) (mkSt (mkClient (key client0) (tok client0) 65536) friendly [])).
  reflexivity.
Defined.

(** A size of 2^50 is set without complaint, and the next upload
    panics in [make]. *)
Example SetBufferSize_too_large :
  let run0 := SetBufferSize (2 ^ 50) (st0 friendly) in
  fst run0 = Ret tt /\
  fst (Client_Put script_sdk "cnr" [("name", "a")] payload9 (snd run0)) = Panic PanicMakeLen /\
  fst (Client_Get script_sdk 3 "cnr" "obj" (snd run0)) = Panic PanicMakeLen.
Proof. cbv zeta. repeat split; reflexivity. Qed.

(** A client set to chunks of two bytes puts nine bytes in five
    chunks. *)
Example SetBufferSize_then_Put :
  let st1 := snd (SetBufferSize 2 (st0 friendly)) in
  let run := Client_Put script_sdk "cnr" [("name", "a")] payload9 st1 in
  fst run = Ret (mkPutResponse true (oid_String script_sdk zero_ID) "") /\
  map (fun c : bytes * bool => len (fst c)) (chunk_writes (st_trace (snd run))) =
    [2; 2; 2; 2; 1].
Proof. cbv zeta. split; reflexivity. Qed.

(** *** PreparedObject.Put *)

Lemma put_outcome_no_token (B : nat) (hdr : Object) (payload : bytes)
    (new : list Event) (r : option ResObjectPut * option error) :
  put_outcome B None hdr payload new r -> presented_tokens new = [].
Proof.
  intros H. inversion H; subst; try reflexivity;
    cbn [app tok_events presented_tokens];
    rewrite presented_tokens_app, presented_tokens_chunk_events; reflexivity.
Qed.

Section Frame.

Context {World : Type} (sdk : SDK World).

Lemma client_blind_ret {A : Type} (a : A) : client_blind (ret a : M World A).
Proof. intros c st. reflexivity. Qed.

Lemma client_blind_panic {A : Type} (p : panic) : client_blind (go_panic p : M World A).
Proof. intros c st. reflexivity. Qed.

Lemma client_blind_out_of_fuel {A : Type} : client_blind (out_of_fuel : M World A).
Proof. intros c st. reflexivity. Qed.

Lemma client_blind_bind {A C : Type} (m : M World A) (k : A -> M World C) :
  client_blind m -> (forall a, client_blind (k a)) -> client_blind (bind m k).
Proof.
  intros Hm Hk c st. unfold bind. rewrite Hm.
  destruct (m st) as [[a|p|] st1]; cbn [fst snd]; [apply Hk|reflexivity..].
Qed.

Lemma client_blind_call {A : Type} (f : World -> World * A) (ev : A -> Event) :
  client_blind (call f ev).
Proof.
  intros c st. unfold call, with_client. cbn [st_world st_trace st_client].
  destruct (f (st_world st)); reflexivity.
Qed.

Lemma client_blind_emit (e : Event) : client_blind (emit e : M World unit).
Proof. intros c st. reflexivity. Qed.

Lemma client_blind_now : client_blind (now sdk).
Proof. intros c st. reflexivity. Qed.

Lemma client_blind_put_loop (fuel : nat) :
  forall (buf : bytes) (rdr : Reader) (n : Z), client_blind (put_loop sdk fuel buf rdr n).
Proof.
  induction fuel as [|fuel IH]; intros buf rdr n; cbn [put_loop];
    destruct (0 <? n); try apply client_blind_ret; try apply client_blind_out_of_fuel.
  apply client_blind_bind; [apply client_blind_call|].
  intros ok. destruct ok; cbn [negb]; [|apply client_blind_ret].
  destruct (Reader_Read rdr buf) as [[rdr' buf'] [n' e]]. apply IH.
Qed.

Lemma client_blind_put (bufSize : Z) (tok : option Token) (hdr : Object) (payload : bytes) :
  client_blind (put sdk bufSize tok hdr payload).
Proof.
  unfold put, make_bytes, put_transfer, put_stream, ObjectWriter_Close, Report,
    ReportDataSent, since.
  apply client_blind_bind.
  { destruct (out_of_range bufSize); [apply client_blind_panic|apply client_blind_ret]. }
  intros buf. apply client_blind_bind; [apply client_blind_emit|]. intros _.
  apply client_blind_bind; [apply client_blind_now|]. intros start.
  apply client_blind_bind; [apply client_blind_call|]. intros [err|].
  { apply client_blind_bind; [apply client_blind_emit|]. intros _. apply client_blind_ret. }
  apply client_blind_bind.
  { destruct tok; [apply client_blind_call|apply client_blind_ret]. }
  intros _. apply client_blind_bind; [apply client_blind_call|]. intros ok.
  destruct ok; cbn [negb].
  - apply client_blind_bind.
    { destruct (Reader_Read (NewReader payload) buf) as [[rdr' buf'] [n e]].
      apply client_blind_put_loop. }
    intros _. apply client_blind_bind; [apply client_blind_call|]. intros r.
    destruct (snd r).
    + apply client_blind_bind; [apply client_blind_emit|]. intros _. apply client_blind_ret.
    + apply client_blind_bind; [apply client_blind_emit|]. intros _.
      apply client_blind_bind.
      { apply client_blind_bind; [apply client_blind_now|]. intros t.
        apply client_blind_ret. }
      intros d. apply client_blind_bind; [apply client_blind_emit|]. intros _.
      apply client_blind_ret.
  - apply client_blind_bind; [apply client_blind_emit|]. intros _.
    apply client_blind_bind; [apply client_blind_call|]. intros r. apply client_blind_ret.
Qed.

Lemma client_blind_PreparedObject_Put (p : PreparedObject) (headers : list (string * string)) :
  client_blind (PreparedObject_Put sdk p headers).
Proof.
  unfold PreparedObject_Put.
  destruct (object_CalculateID sdk _) as [id|e]; [|apply client_blind_ret].
  destruct (object_CalculateIDSignature sdk _ _) as [sg|e]; [|apply client_blind_ret].
  apply client_blind_bind; [apply client_blind_put|].
  intros r. destruct (snd r); apply client_blind_ret.
Qed.

(** X14: [PreparedObject.Put] uploads outside any session: it hands no
    session token to the store, whatever token the client holds, and it
    leaves the client as it is.  When the identifier of the object or
    its signature cannot be computed, it returns a failed response with
    that error, and neither the store nor the metrics hear of the
    call. *)
Theorem PreparedObject_Put_outside_session (p : PreparedObject)
    (headers : list (string * string)) (st : St World) :
  let run := PreparedObject_Put sdk p headers st in
  let o := SetAttributes (make_attrs headers) (p_hdr p) in
  (exists new,
     st_trace (snd run) = st_trace st ++ new /\ presented_tokens new = []) /\
  st_client (snd run) = st_client st /\
  (forall e,
     object_CalculateID sdk o = Fail e \/
     (exists id,
        object_CalculateID sdk o = Val id /\
        object_CalculateIDSignature sdk (p_key p) (SetID id o) = Fail e) ->
     run = (Ret (mkPutResponse false "" e), st)).
Proof.
  cbv zeta. split; [|split].
  - destruct (PreparedObject_Put_cases sdk p headers st)
      as [(e & Hrun)|[Hrun|(id & sg & r & st' & new & _ & _ & Hout & Htr & Hrun)]];
      rewrite Hrun; cbn [fst snd].
    + exists []. rewrite app_nil_r. split; reflexivity.
    + exists []. rewrite app_nil_r. split; reflexivity.
    + exists new. split; [exact Htr|]. exact (put_outcome_no_token _ _ _ _ _ Hout).
  - pose proof (client_blind_PreparedObject_Put p headers (st_client st) st) as H.
    assert (Hst : with_client (st_client st) st = st) by (destruct st; reflexivity).
    rewrite Hst in H. rewrite H at 1. reflexivity.
  - intros e [Hid|(id & Hid & Hsg)]; unfold PreparedObject_Put; rewrite Hid;
      [|rewrite Hsg]; reflexivity.
Qed.

(** X15: [PreparedObject.Put] does not look at the client.  With any
    other client in the state it returns the same response and makes
    the same calls; in particular a [SetBufferSize] between [Onsite]
    and [PreparedObject.Put] changes nothing of the upload, which goes
    on with the buffer size the prepared object was given. *)
Theorem PreparedObject_Put_ignores_client (p : PreparedObject)
    (headers : list (string * string)) (st : St World) :
  let run := PreparedObject_Put sdk p headers st in
  (forall c : Client,
     PreparedObject_Put sdk p headers (with_client c st) =
       (fst run, with_client c (snd run))) /\
  (forall (size : Z) (st1 : St World),
     SetBufferSize size st = (Ret tt, st1) ->
     PreparedObject_Put sdk p headers st1 =
       (fst run, with_client (st_client st1) (snd run))).
Proof.
  cbv zeta. split.
  - intros c. apply client_blind_PreparedObject_Put.
  - intros size st1 Hset.
    assert (Hst1 : st1 = with_client (st_client st1) st).
    { revert Hset. unfold SetBufferSize, bind, get_client, set_client, go_panic.
      destruct (size <? 0); [discriminate|].
      destruct (size =? 0); intros H; inversion H; reflexivity. }
    rewrite Hst1 at 1. apply client_blind_PreparedObject_Put.
Qed.

End Frame.

(** A buffer size set after [Onsite] does not reach the prepared
    object: the nine bytes still go in chunks of four. *)
Example SetBufferSize_after_Onsite :
  let st1 := snd (SetBufferSize 2 (st0 friendly)) in
  let run := PreparedObject_Put script_sdk prepared9 [("name", "a")] st1 in
  bufsize (st_client st1) = 2 /\
  map (fun c : bytes * bool => len (fst c)) (chunk_writes (st_trace (snd run))) = [4; 4; 1].
Proof. cbv zeta. split; reflexivity. Qed.

(** *** An identifier that does not decode *)

Section InvalidContainer.

Context {World : Type} (sdk : SDK World).

(** X17: none of the three operations gets anywhere with a container
    identifier that does not decode.  [Client.Put] panics with the
    decoding error before the store or the metrics hear of the call,
    whatever the buffer size; [Client.Get] allocates its buffer first,
    so a buffer size that is negative or above the allocation limit is
    what it fails on, and it panics with the decoding error otherwise,
    again before any call; [Client.Onsite]
    has asked the store for the network information by then and panics
    with one error or another, never returning a prepared object. *)
Theorem invalid_container_aborts (fuel : nat) (inputContainerID inputObjectID : string)
    (headers : list (string * string)) (payload : bytes) (st : St World) (e : error) :
  cid_DecodeString sdk inputContainerID = Fail e ->
  Client_Put sdk inputContainerID headers payload st = (Panic (PanicErr e), st) /\
  Client_Get sdk fuel inputContainerID inputObjectID st =
    (Panic (if out_of_range (bufsize (st_client st)) then PanicMakeLen else PanicErr e), st) /\
  exists q, fst (Onsite sdk inputContainerID payload st) = Panic q.
Proof.
  intros Hcid. split; [|split].
  - unfold Client_Put, must. unfold bind at 1. rewrite Hcid. reflexivity.
  - unfold Client_Get, make_bytes, must.
    unfold bind at 1. unfold get_client at 1. unfold bind at 1.
    destruct (out_of_range (bufsize (st_client st))); [reflexivity|].
    unfold ret at 1. unfold bind at 1. rewrite Hcid. reflexivity.
  - unfold Onsite, parseNetworkInfo, must. rewrite Hcid. run_monad.
    destruct (cli_NetworkInfo sdk (st_world st)) as [w [ni|e0]]; cbn [fst snd].
    + destruct (ps_err _) as [e1|]; [eexists; reflexivity|].
      destruct (to_int _ <? len payload); eexists; reflexivity.
    + eexists. reflexivity.
Qed.

End InvalidContainer.

Lemma invalid_container_aborts_witness :
  Client_Put script_sdk "" [("name", "a")] payload9 (st0 friendly) =
    (Panic (PanicErr "empty identifier"), st0 friendly) /\
  Client_Get script_sdk 3 "" "obj" (st0 friendly) =
    (Panic (if out_of_range (bufsize (st_client (st0 friendly)))
            then PanicMakeLen else PanicErr "empty identifier"), st0 friendly) /\
  exists q, fst (Onsite script_sdk "" payload9 (st0 friendly)) = Panic q.
Proof.
  apply (invalid_container_aborts script_sdk 3 "" "obj" [("name", "a")] payload9
           (st0 friendly) "empty identifier").
  reflexivity.
Defined.

(** *** From Onsite to PreparedObject.Put *)

Section OnsiteThenPut.

Context {World : Type} (sdk : SDK World).


End OnsiteThenPut.


(** Prepared against one store and put to another that accepts
    everything: the header describes what is streamed. *)
Example prepared9_put_friendly :
  let run := PreparedObject_Put script_sdk prepared9 [("name", "a")] (st0 friendly) in
  header_accepted (st_trace (snd run)) = true /\
  forallb snd (chunk_writes (st_trace (snd run))) = true /\
  List.concat (map fst (chunk_writes (st_trace (snd run)))) = payload9 /\
  map o_payloadSize (written_headers (st_trace (snd run))) = [9].
Proof. cbv zeta. repeat split; reflexivity. Qed.

(** *** Opened streams are closed *)

Lemma count_app (f : Event -> bool) (a b : list Event) :
  count f (a ++ b) = (count f a + count f b)%nat.
Proof. unfold count. now rewrite filter_app, length_app. Qed.

Lemma count_chunk_events (f : Event -> bool) (cs : list (bytes * bool)) :
  (forall c ok, f (EvWritePayloadChunk c ok) = false) ->
  count f (map chunk_event cs) = 0%nat.
Proof.
  intros Hf. induction cs as [|c cs IH]; [reflexivity|].
  unfold count in *. cbn [map filter]. unfold chunk_event at 1. rewrite Hf. exact IH.
Qed.

Lemma count_read_events (f : Event -> bool) (rs : list (Z * option error)) :
  (forall n e, f (EvRead n e) = false) ->
  count f (map read_event rs) = 0%nat.
Proof.
  intros Hf. induction rs as [|r rs IH]; [reflexivity|].
  unfold count in *. cbn [map filter]. unfold read_event at 1. rewrite Hf. exact IH.
Qed.

Lemma count_tok_events (f : Event -> bool) (t : option Token) :
  (forall t', f (EvWithinSession t') = false) ->
  count f (tok_events t) = 0%nat.
Proof.
  intros Hf. destruct t as [t|]; [|reflexivity].
  unfold count. cbn [tok_events filter]. rewrite Hf. reflexivity.
Qed.

Lemma put_outcome_closes (B : nat) (tok : option Token) (hdr : Object)
    (payload : bytes) (new : list Event) (r : option ResObjectPut * option error) :
  put_outcome B tok hdr payload new r ->
  count is_put_close new = count is_put_open new /\
  (count is_put_open new = 0%nat -> written_headers new = [] /\ chunk_writes new = []).
Proof.
  intros H. inversion H; subst.
  - split; [reflexivity|]. intros _. split; reflexivity.
  - cbn [app]. change (EvReport objPutTotal 1 :: EvObjectPutInit None :: ?l)
      with ([EvReport objPutTotal 1; EvObjectPutInit None] ++ l).
    rewrite !count_app, !count_tok_events by reflexivity.
    split; [reflexivity|]. intros C. discriminate C.
  - rewrite !count_app, !count_tok_events, !count_chunk_events by reflexivity.
    split; [reflexivity|]. intros C. discriminate C.
  - rewrite !count_app, !count_tok_events, !count_chunk_events by reflexivity.
    split; [reflexivity|]. intros C. discriminate C.
Qed.

Lemma get_outcome_closes (fuel : nat) (prm : PrmObjectGet) (new : list Event)
    (res : Res GetResponse) :
  get_outcome fuel prm new res ->
  (res <> OutOfFuel -> count is_get_close new = count is_get_open new) /\
  (count is_get_open new = 0%nat -> header_read new = None /\ reads new = []).
Proof.
  intros H. inversion H; subst.
  - split; [reflexivity|]. intros _. split; reflexivity.
  - split; [reflexivity|]. intros C. discriminate C.
  - split; [reflexivity|]. intros C. discriminate C.
  - split; [intros C; now elim C|].
    rewrite count_app. intros C. discriminate C.
  - rewrite !count_app, !count_read_events by reflexivity.
    split; [reflexivity|]. intros C. discriminate C.
  - rewrite !count_app, !count_read_events by reflexivity.
    split; [reflexivity|]. intros C. discriminate C.
Qed.

Section Closes.

Context {World : Type} (sdk : SDK World).

(** X19: a stream that was opened is closed, once.  On every way
    through a [put] whose buffer [make] can allocate, the write stream
    is closed exactly when
    [ObjectPutInit] returned one, also after a rejected header or a
    rejected chunk; when it returned an error no header and no chunk is
    written.  [Client.Get] closes the read stream exactly when
    [ObjectGetInit] returned one, also when the header could not be
    read, in every run that comes to an end; when it returned an error
    no header and no payload is read. *)
Theorem opened_streams_are_closed (fuel : nat) (bufSize : Z) (tok : option Token)
    (hdr : Object) (payload : bytes) (inputContainerID inputObjectID : string)
    (st : St World) :
  0 <= bufSize <= maxAlloc ->
  (exists r st' new,
     put sdk bufSize tok hdr payload st = (Ret r, st') /\
     st_trace st' = st_trace st ++ new /\
     count is_put_close new = count is_put_open new /\
     (count is_put_open new = 0%nat -> written_headers new = [] /\ chunk_writes new = [])) /\
  (let run := Client_Get sdk fuel inputContainerID inputObjectID st in
   exists new,
     st_trace (snd run) = st_trace st ++ new /\
     (fst run <> OutOfFuel -> count is_get_close new = count is_get_open new) /\
     (count is_get_open new = 0%nat -> header_read new = None /\ reads new = [])).
Proof.
  intros HB. split.
  - destruct (put_spec sdk bufSize tok hdr payload st HB)
      as (r & st' & new & Hrun & _ & Htr & Hout).
    exists r, st', new. split; [exact Hrun|]. split; [exact Htr|].
    exact (put_outcome_closes _ _ _ _ _ _ Hout).
  - cbv zeta.
    destruct (Client_Get_cases sdk fuel inputContainerID inputObjectID st _ eq_refl)
      as [(p & Hrun)|(containerID & objectID & sg & new & _ & _ & _ & _ & Htr & Hout)].
    + rewrite Hrun. cbn [fst snd]. exists []. rewrite app_nil_r.
      split; [reflexivity|]. split; [reflexivity|]. intros _. split; reflexivity.
    + exists new. split; [exact Htr|]. exact (get_outcome_closes _ _ _ _ Hout).
Qed.

(** X20: the metrics of [Client.Get] in a run that returns a response,
    apart from the failure counter.  The total counter is reported once,
    with the value 1.  A duration and the bytes received are reported,
    once each, with a successful response, and neither of them with a
    failed one. *)
Theorem Client_Get_metrics (fuel : nat) (inputContainerID inputObjectID : string)
    (st : St World) (resp : GetResponse) :
  let run := Client_Get sdk fuel inputContainerID inputObjectID st in
  fst run = Ret resp ->
  exists new,
    st_trace (snd run) = st_trace st ++ new /\
    reports objGetTotal new = [1] /\
    (get_Success resp = true ->
     (exists d, reports objGetDuration new = [d]) /\ exists n, received new = [n]) /\
    (get_Success resp = false ->
     reports objGetDuration new = [] /\ received new = []).
Proof.
  cbv zeta. intros Hresp.
  destruct (Client_Get_cases sdk fuel inputContainerID inputObjectID st _ eq_refl)
    as [(p & Hrun)|(containerID & objectID & sg & new & _ & _ & _ & _ & Htr & Hout)].
  - rewrite Hrun in Hresp. discriminate Hresp.
  - exists new. split; [exact Htr|]. rewrite Hresp in Hout.
    inversion Hout; subst; cbn [get_Success].
    + split; [reflexivity|]. split; [intros C; discriminate C|].
      intros _. split; reflexivity.
    + split; [reflexivity|]. split; [intros C; discriminate C|].
      intros _. split; reflexivity.
    + cbn [app reports Metric_eqb received].
      rewrite !reports_app, received_read_events.
      assert (Hrs : forall m, reports m (map read_event rs) = []).
      { intros m. clear. induction rs as [|r0 rs IH]; [reflexivity|exact IH]. }
      rewrite !Hrs. split; [reflexivity|]. split; [intros C; discriminate C|].
      intros _. split; reflexivity.
    + cbn [app reports Metric_eqb received].
      rewrite !reports_app, received_read_events.
      assert (Hrs : forall m, reports m (map read_event rs) = []).
      { intros m. clear. induction rs as [|r0 rs IH]; [reflexivity|exact IH]. }
      rewrite !Hrs. split; [reflexivity|]. split; [|intros C; discriminate C].
      intros _. split; [exists d; reflexivity|]. eexists. reflexivity.
Qed.

End Closes.

Lemma opened_streams_are_closed_witness :
  (exists r st' new,
     put script_sdk 4 None zero_Object payload9 (st0 header_unread) = (Ret r, st') /\
     st_trace st' = st_trace (st0 header_unread) ++ new /\
     count is_put_close new = count is_put_open new /\
     (count is_put_open new = 0%nat -> written_headers new = [] /\ chunk_writes new = [])) /\
  (let run := Client_Get script_sdk 0 "cnr" "obj" (st0 header_unread) in
   exists new,
     st_trace (snd run) = st_trace (st0 header_unread) ++ new /\
     (fst run <> OutOfFuel -> count is_get_close new = count is_get_open new) /\
     (count is_get_open new = 0%nat -> header_read new = None /\ reads new = [])).
Proof.
  apply (opened_streams_are_closed script_sdk 0 4 None zero_Object payload9 "cnr" "obj"
           (st0 header_unread)).
  unfold maxAlloc. lia.
Defined.

Lemma Client_Get_metrics_witness :
  let run := Client_Get script_sdk 2 "cnr" "obj" (st0 noisy_reads) in
  exists new,
    st_trace (snd run) = st_trace (st0 noisy_reads) ++ new /\
    reports objGetTotal new = [1] /\
    (get_Success (mkGetResponse true "") = true ->
     (exists d, reports objGetDuration new = [d]) /\ exists n, received new = [n]) /\
    (get_Success (mkGetResponse true "") = false ->
     reports objGetDuration new = [] /\ received new = []).
Proof.
  apply (Client_Get_metrics script_sdk 2 "cnr" "obj" (st0 noisy_reads)
           (mkGetResponse true "")).
  reflexivity.
Defined.

(** *** The streaming loop in the trace of put *)

(** Where the chunk writes sit in the trace of a [put] whose header was
    accepted: one after the other, and the close next. *)
Lemma put_outcome_layout (B : nat) (tok : option Token) (hdr : Object)
    (payload : bytes) (new : list Event) (r : option ResObjectPut * option error) :
  put_outcome B tok hdr payload new r ->
  header_accepted new = true ->
  exists pre e post,
    new = pre ++ map chunk_event (chunk_writes new) ++ EvPutClose e :: post /\
    chunk_writes pre = [] /\ chunk_writes post = [].
Proof.
  intros H Hacc. inversion H; subst.
  - discriminate Hacc.
  - cbn [app header_accepted] in Hacc.
    rewrite header_accepted_app, header_accepted_tok_events in Hacc. discriminate Hacc.
  - exists ([EvReport objPutTotal 1; EvObjectPutInit None] ++ tok_events tok ++
            [EvWriteHeader hdr true]), (Some err), [EvReport objPutFails 1].
    assert (Hcs : chunk_writes
                    ([EvReport objPutTotal 1; EvObjectPutInit None] ++ tok_events tok ++
                     [EvWriteHeader hdr true] ++ map chunk_event cs ++
                     [EvPutClose (Some err); EvReport objPutFails 1]) = cs).
    { cbn [app chunk_writes]. rewrite chunk_writes_app, chunk_writes_tok_events.
      cbn [app chunk_writes]. rewrite chunk_writes_app, chunk_writes_chunk_events.
      cbn [chunk_writes]. apply app_nil_r. }
    rewrite Hcs. split; [rewrite <- !app_assoc; reflexivity|]. split; [|reflexivity].
    cbn [app chunk_writes]. rewrite chunk_writes_app, chunk_writes_tok_events. reflexivity.
  - exists ([EvReport objPutTotal 1; EvObjectPutInit None] ++ tok_events tok ++
            [EvWriteHeader hdr true]), None,
           [EvDataSent (len payload); EvReport objPutDuration d].
    assert (Hcs : chunk_writes
                    ([EvReport objPutTotal 1; EvObjectPutInit None] ++ tok_events tok ++
                     [EvWriteHeader hdr true] ++ map chunk_event cs ++
                     [EvPutClose None; EvDataSent (len payload);
                      EvReport objPutDuration d]) = cs).
    { cbn [app chunk_writes]. rewrite chunk_writes_app, chunk_writes_tok_events.
      cbn [app chunk_writes]. rewrite chunk_writes_app, chunk_writes_chunk_events.
      cbn [chunk_writes]. apply app_nil_r. }
    rewrite Hcs. split; [rewrite <- !app_assoc; reflexivity|]. split; [|reflexivity].
    cbn [app chunk_writes]. rewrite chunk_writes_app, chunk_writes_tok_events. reflexivity.
Qed.

Section PutStreaming.

Context {World : Type} (sdk : SDK World).

(** C3: for every positive buffer size, the chunk writes in the trace
    of [put], all of them, are as [streamed] says: none unless the
    header was accepted; each chunk not empty and no longer than the
    buffer; the chunks are the payload's bytes from its start in offset
    order, so together a prefix of the payload, and the whole payload
    when the header was accepted and no chunk write rejected; a
    rejected chunk write is the last one; the chunk writes are next to
    each other in the trace and the call after the last of them is the
    close of the stream.  When [make] can allocate the buffer, [put]
    returns, and the header is accepted in the trace whenever the store
    opens the stream and accepts the header, so the loop is then run;
    with a larger buffer size [put] panics before it calls the store. *)
Theorem put_streams_in_order (bufSize : Z) (tok : option Token) (hdr : Object)
    (payload : bytes) (st : St World) :
  0 < bufSize ->
  let run := put sdk bufSize tok hdr payload st in
  exists new,
    st_trace (snd run) = st_trace st ++ new /\
    streamed bufSize payload new /\
    (bufSize <= maxAlloc ->
     (exists r, fst run = Ret r) /\
     forall w1 w2,
       cli_ObjectPutInit sdk (st_world st) = (w1, None) ->
       w_WriteHeader sdk hdr
         (match tok with Some t => w_WithinSession sdk t w1 | None => w1 end) = (w2, true) ->
       header_accepted new = true) /\
    (maxAlloc < bufSize -> run = (Panic PanicMakeLen, st)).
Proof.
  intros HB. cbv zeta.
  destruct (Z_le_gt_dec bufSize maxAlloc) as [Hin|Hbig].
  - destruct (put_gen sdk (Z.to_nat bufSize) (fun _ _ => True)
                (fun _ _ => I) (fun _ _ => I) (fun _ _ _ _ => I)
                bufSize tok hdr payload st)
      as (r & st' & new & Hrun & _ & Htr & Hout & _ & _ & Hopen); [lia|reflexivity|].
    rewrite Hrun. cbn [fst snd]. exists new. split; [exact Htr|].
    split; [|split; [intros _; split; [exists r; reflexivity|exact Hopen]|intros C; lia]].
    destruct (put_outcome_trace _ _ _ _ _ _ Hout) as (_ & Hno & Hyes).
    unfold streamed. cbv zeta.
    destruct (header_accepted new) eqn:Hacc.
    + destruct (Hyes eq_refl) as (_ & (Hsz & (rest & Hpre) & Hall & Hrej) & _).
      split; [intros C; discriminate C|].
      split.
      { eapply Forall_impl; [|exact Hsz]. intros c Hc. unfold len. cbn beta in Hc. lia. }
      split; [exists rest; exact Hpre|].
      split; [intros before c after Hcs; eapply chunk_at_offset; eauto|].
      split; [exact Hrej|].
      split; [intros _ Hok; apply Hall; [lia|exact Hok]|].
      intros _. exact (put_outcome_layout _ _ _ _ _ _ Hout Hacc).
    + destruct (Hno eq_refl) as (Hcs & _). rewrite Hcs.
      split; [intros _; reflexivity|]. split; [constructor|].
      split; [exists payload; reflexivity|].
      split; [intros [|? ?] ? ? C; discriminate C|].
      split; [exact I|]. split; intros C; discriminate C.
  - rewrite (put_out_of_range sdk bufSize tok hdr payload st) by lia. cbn [fst snd].
    exists []. rewrite app_nil_r. split; [reflexivity|].
    split; [|split; [intros C; lia|intros _; reflexivity]].
    unfold streamed. cbn.
    split; [intros _; reflexivity|]. split; [constructor|].
    split; [exists payload; reflexivity|].
    split; [intros [|? ?] ? ? C; discriminate C|].
    split; [exact I|]. split; intros C; discriminate C.
Qed.

End PutStreaming.

Lemma put_streams_in_order_witness :
  let run := put script_sdk 4 None zero_Object payload9 (st0 two_chunks) in
  exists new,
    st_trace (snd run) = st_trace (st0 two_chunks) ++ new /\
    streamed 4 payload9 new /\
    (4 <= maxAlloc ->
     (exists r, fst run = Ret r) /\
     forall w1 w2,
       cli_ObjectPutInit script_sdk (st_world (st0 two_chunks)) = (w1, None) ->
       w_WriteHeader script_sdk zero_Object w1 = (w2, true) ->
       header_accepted new = true) /\
    (maxAlloc < 4 -> run = (Panic PanicMakeLen, st0 two_chunks)).
Proof.
  apply (put_streams_in_order script_sdk 4 None zero_Object payload9 (st0 two_chunks)).
  lia.
Defined.

(** A trace in which the header is accepted and the stream closed with
    no chunk written in between does not pass for a streaming of nine
    bytes. *)
Example not_streamed_without_chunks :
  streamed 4 payload9
    [EvReport objPutTotal 1; EvObjectPutInit None; EvWriteHeader zero_Object true;
     EvPutClose None; EvDataSent 9; EvReport objPutDuration 0] -> False.
Proof.
  intros (_ & _ & _ & _ & _ & Hall & _).
  specialize (Hall eq_refl eq_refl). discriminate Hall.
Qed.

(** *** The prepared object in memory *)

Lemma length_set_nth {A : Type} (f : A -> A) (l : list A) :
  forall i, List.length (set_nth i f l) = List.length l.
Proof.
  induction l as [|x l IH]; intros [|i]; cbn; try reflexivity. now rewrite IH.
Qed.

Lemma nth_set_nth {A : Type} (f : A -> A) (d : A) (l : list A) :
  forall i, (i < List.length l)%nat -> nth i (set_nth i f l) d = f (nth i l d).
Proof.
  induction l as [|x l IH]; intros [|i] Hi; cbn in *; try lia; [reflexivity|].
  apply IH. lia.
Qed.

Lemma nth_set_nth_other {A : Type} (f : A -> A) (d : A) (l : list A) :
  forall i j, i <> j -> nth j (set_nth i f l) d = nth j l d.
Proof.
  induction l as [|x l IH]; intros [|i] [|j] Hij; cbn; try reflexivity.
  - now elim Hij.
  - apply IH. intros C. apply Hij. now rewrite C.
Qed.

Lemma set_nth_twice {A : Type} (f g : A -> A) (l : list A) :
  (forall x, g (f x) = g x) ->
  forall i, set_nth i g (set_nth i f l) = set_nth i g l.
Proof.
  intros Hgf. induction l as [|x l IH]; intros [|i]; cbn; try reflexivity.
  - now rewrite Hgf.
  - now rewrite IH.
Qed.

Lemma deref_SetAttributes (H : Heap) (s : ObjectStruct) (l : nat) (a : list Attribute) :
  s_header s = Some l ->
  (l < List.length H)%nat ->
  deref (set_nth l (Header_SetAttributes a) H) s = SetAttributes a (deref H s).
Proof.
  intros Hs Hl. unfold deref, header_at. rewrite Hs.
  rewrite (nth_set_nth _ _ _ _ Hl). reflexivity.
Qed.

Lemma deref_SetID (H : Heap) (s : ObjectStruct) (i : ID) :
  deref H (Struct_SetID i s) = SetID i (deref H s).
Proof. reflexivity. Qed.

Lemma deref_SetSignature (H : Heap) (s : ObjectStruct) (g : Signature) :
  deref H (Struct_SetSignature g s) = SetSignature g (deref H s).
Proof. reflexivity. Qed.

Section MemoryProperties.

Context {World : Type} (sdk : SDK World).

(** One call of [PreparedObject.Put] does what [prepared_put_does]
    says. *)
Lemma PreparedObject_Put_does (p : PreparedObject) (headers : list (string * string))
    (st : St World) :
  prepared_put_does sdk p headers st (PreparedObject_Put sdk p headers st).
Proof.
  unfold prepared_put_does. cbv zeta.
  destruct (object_CalculateID sdk (SetAttributes (make_attrs headers) (p_hdr p)))
    as [id|e] eqn:Hid.
  2:{ unfold PreparedObject_Put. rewrite Hid. reflexivity. }
  destruct (object_CalculateIDSignature sdk (p_key p)
              (SetID id (SetAttributes (make_attrs headers) (p_hdr p))))
    as [sg|e] eqn:Hsg.
  2:{ unfold PreparedObject_Put. rewrite Hid, Hsg. reflexivity. }
  rewrite (PreparedObject_Put_eq sdk p headers st id sg Hid Hsg). unfold bind.
  destruct (out_of_range_spec (p_bufsize p)) as [[Hb Hout]|[Hb Hin]]; rewrite Hb.
  - rewrite (put_out_of_range sdk _ _ _ _ _ Hout). reflexivity.
  - destruct (put_gen sdk (Z.to_nat (p_bufsize p)) (fun _ _ => True)
                (fun _ _ => I) (fun _ _ => I) (fun _ _ _ _ => I)
                (p_bufsize p) None (finalized p headers id sg) (p_payload p) st Hin eq_refl)
      as (r & st' & new & Hrun & Hcl & Htr & Hout & _ & _ & Hopen).
    exists r, st', new. rewrite Hrun.
    split; [destruct r as [resp [err|]]; reflexivity|].
    split; [exact Hcl|]. split; [exact Htr|]. split; [exact Hout|exact Hopen].
Qed.

(** With the header of the prepared object in the heap, a call is the
    call on what the prepared object holds, and it leaves the heap with
    the attributes of that header overwritten. *)
Lemma PreparedObject_Put_shared_flat (p : Prepared) (headers : list (string * string))
    (H : Heap) (st : St World) (l : nat) :
  s_header (pp_hdr p) = Some l ->
  (l < List.length H)%nat ->
  PreparedObject_Put_shared sdk p headers H st =
    (PreparedObject_Put sdk (flat_prepared H p) headers st,
     set_nth l (Header_SetAttributes (make_attrs headers)) H).
Proof.
  intros Hs Hl. unfold PreparedObject_Put_shared, Struct_SetAttributes. rewrite Hs.
  cbv beta iota zeta.
  rewrite (deref_SetAttributes H _ l _ Hs Hl).
  unfold PreparedObject_Put, flat_prepared. cbn [p_hdr p_key p_bufsize p_payload].
  destruct (object_CalculateID sdk _) as [id|e]; [|reflexivity].
  rewrite deref_SetID, (deref_SetAttributes H _ l _ Hs Hl).
  destruct (object_CalculateIDSignature sdk _ _) as [sg|e]; [|reflexivity].
  rewrite deref_SetSignature, deref_SetID, (deref_SetAttributes H _ l _ Hs Hl).
  reflexivity.
Qed.

(** What [Onsite_shared] returns: a pointer to a header that is in the
    heap, holding what [Onsite] computes. *)
Lemma Onsite_shared_returns (inputContainerID : string) (payload : bytes)
    (H0 H : Heap) (st0 st0' : St World) (p : Prepared) :
  Onsite_shared sdk inputContainerID payload H0 st0 = (Ret (p, H), st0') ->
  s_header (pp_hdr p) = Some (List.length H0) /\
  (List.length H0 < List.length H)%nat /\
  Onsite sdk inputContainerID payload st0 = (Ret (flat_prepared H p), st0').
Proof.
  unfold Onsite_shared, bind.
  destruct (Onsite sdk inputContainerID payload st0) as [[q|c|] st1] eqn:Hon;
    try discriminate.
  unfold ret. intros E. inversion E; subst. clear E.
  split; [reflexivity|]. split; [rewrite length_app; cbn; lia|].
  unfold flat_prepared, deref, header_at.
  cbn [pp_hdr pp_key pp_bufsize pp_payload s_header s_id s_signature].
  rewrite app_nth2 by lia. rewrite Nat.sub_diag. cbn [nth header_of].
  cbn [h_version h_type h_cnr h_owner h_payloadSize h_creationEpoch h_payloadChecksum
       h_homomorphicHash h_attributes].
  destruct q as [k b [v t c' o sz ep sha hh at' i g] pl]. reflexivity.
Qed.

(** C5, as the code has it.  [PreparedObject.Put] does not leave the
    prepared header unchanged: [obj := p.hdr] shares the header with the
    prepared object, and [SetAttributes] overwrites the attributes of
    that header with those of the call, before the identifier is
    computed and whether or not the call succeeds.  Nothing else in
    memory changes: the other fields of the prepared header, every
    other header, and the struct, the key, the buffer size and the
    payload of the prepared object.  Two successive calls are
    independent all the same, since each call replaces the attributes:
    each is the call on the object as it was prepared, does what
    [prepared_put_does] says of it, computes the identifier over the
    prepared header with that call's attributes, and writes a header
    whose payload checksum fields are those of the prepared header,
    which are those [Onsite] computed over the payload. *)
Theorem PreparedObject_Put_twice (p : Prepared) (h1 h2 : list (string * string))
    (H : Heap) (st : St World) (l : nat) :
  s_header (pp_hdr p) = Some l ->
  (l < List.length H)%nat ->
  let p0 := flat_prepared H p in
  let run1 := PreparedObject_Put_shared sdk p h1 H st in
  let run2 := PreparedObject_Put_shared sdk p h2 (snd run1) (snd (fst run1)) in
  (snd run1 = set_nth l (Header_SetAttributes (make_attrs h1)) H /\
   snd run2 = set_nth l (Header_SetAttributes (make_attrs h2)) H) /\
  (header_at (snd run1) (Some l) =
     Header_SetAttributes (map (fun kv => mkAttribute (fst kv) (snd kv)) h1)
       (header_at H (Some l)) /\
   header_at (snd run2) (Some l) =
     Header_SetAttributes (map (fun kv => mkAttribute (fst kv) (snd kv)) h2)
       (header_at H (Some l)) /\
   forall l', l' <> l ->
     header_at (snd run1) (Some l') = header_at H (Some l') /\
     header_at (snd run2) (Some l') = header_at H (Some l')) /\
  (fst run1 = PreparedObject_Put sdk p0 h1 st /\
   fst run2 = PreparedObject_Put sdk p0 h2 (snd (fst run1))) /\
  (prepared_put_does sdk p0 h1 st (fst run1) /\
   prepared_put_does sdk p0 h2 (snd (fst run1)) (fst run2)) /\
  (forall h id sg,
      o_attributes (finalized p0 h id sg) = map (fun kv => mkAttribute (fst kv) (snd kv)) h /\
      o_id (finalized p0 h id sg) = Some id /\
      o_signature (finalized p0 h id sg) = Some sg /\
      o_payloadSize (finalized p0 h id sg) = o_payloadSize (p_hdr p0) /\
      o_payloadChecksum (finalized p0 h id sg) = o_payloadChecksum (p_hdr p0) /\
      o_homomorphicHash (finalized p0 h id sg) = o_homomorphicHash (p_hdr p0)) /\
  (forall inputContainerID payload H0 st0 st0',
      Onsite_shared sdk inputContainerID payload H0 st0 = (Ret (p, H), st0') ->
      p_payload p0 = payload /\
      o_payloadChecksum (p_hdr p0) = Some (SHA256 (sha256_Sum256 sdk payload))).
Proof.
  intros Hs Hl. cbv zeta.
  rewrite (PreparedObject_Put_shared_flat p h1 H st l Hs Hl). cbn [fst snd].
  assert (Hl1 : (l < List.length (set_nth l (Header_SetAttributes (make_attrs h1)) H))%nat)
    by (rewrite length_set_nth; exact Hl).
  rewrite (PreparedObject_Put_shared_flat p h2 _ _ l Hs Hl1). cbn [fst snd].
  assert (Hflat : flat_prepared (set_nth l (Header_SetAttributes (make_attrs h1)) H) p =
                  mkPreparedObject (pp_key p) (pp_bufsize p)
                    (SetAttributes (make_attrs h1) (deref H (pp_hdr p))) (pp_payload p)).
  { unfold flat_prepared. rewrite (deref_SetAttributes H _ l _ Hs Hl). reflexivity. }
  assert (Hsame : forall st',
             PreparedObject_Put sdk
               (flat_prepared (set_nth l (Header_SetAttributes (make_attrs h1)) H) p) h2 st' =
             PreparedObject_Put sdk (flat_prepared H p) h2 st').
  { intros st'. rewrite Hflat. reflexivity. }
  rewrite Hsame.
  split; [|split; [|split; [|split; [|split]]]].
  - split; [reflexivity|]. apply set_nth_twice. intros x. reflexivity.
  - split; [|split].
    + unfold header_at. rewrite (nth_set_nth _ _ _ _ Hl), make_attrs_map. reflexivity.
    + rewrite set_nth_twice by (intros x; reflexivity).
      unfold header_at. rewrite (nth_set_nth _ _ _ _ Hl), make_attrs_map. reflexivity.
    + intros l' Hne. rewrite set_nth_twice by (intros x; reflexivity).
      unfold header_at. rewrite !nth_set_nth_other by (intros C; apply Hne; now rewrite C).
      split; reflexivity.
  - split; reflexivity.
  - split; apply PreparedObject_Put_does.
  - intros h id sg.
    pose proof (finalized_fields (flat_prepared H p) h id sg) as Hf. cbv zeta in Hf.
    repeat split; apply Hf.
  - intros cid payload H0 st0 st0' Hon.
    destruct (Onsite_shared_returns cid payload H0 H st0 st0' p Hon) as (_ & _ & Hflat0).
    destruct (Onsite_returns sdk st0 st0' cid payload _ Hflat0)
      as (mx & ep & hh & _ & H1 & H2 & _).
    split; assumption.
Qed.

End MemoryProperties.

Lemma PreparedObject_Put_twice_witness :
  let p0 := flat_prepared heap9 prepared9_shared in
  let run1 := PreparedObject_Put_shared script_sdk prepared9_shared [("name", "a")]
                heap9 (st0 friendly) in
  let run2 := PreparedObject_Put_shared script_sdk prepared9_shared [("name", "b")]
                (snd run1) (snd (fst run1)) in
  (snd run1 = set_nth 0 (Header_SetAttributes (make_attrs [("name", "a")])) heap9 /\
   snd run2 = set_nth 0 (Header_SetAttributes (make_attrs [("name", "b")])) heap9) /\
  (header_at (snd run1) (Some 0%nat) =
     Header_SetAttributes (map (fun kv => mkAttribute (fst kv) (snd kv)) [("name", "a")])
       (header_at heap9 (Some 0%nat)) /\
   header_at (snd run2) (Some 0%nat) =
     Header_SetAttributes (map (fun kv => mkAttribute (fst kv) (snd kv)) [("name", "b")])
       (header_at heap9 (Some 0%nat)) /\
   forall l', l' <> 0%nat ->
     header_at (snd run1) (Some l') = header_at heap9 (Some l') /\
     header_at (snd run2) (Some l') = header_at heap9 (Some l')) /\
  (fst run1 = PreparedObject_Put script_sdk p0 [("name", "a")] (st0 friendly) /\
   fst run2 = PreparedObject_Put script_sdk p0 [("name", "b")] (snd (fst run1))) /\
  (prepared_put_does script_sdk p0 [("name", "a")] (st0 friendly) (fst run1) /\
   prepared_put_does script_sdk p0 [("name", "b")] (snd (fst run1)) (fst run2)) /\
  (forall h id sg,
      o_attributes (finalized p0 h id sg) = map (fun kv => mkAttribute (fst kv) (snd kv)) h /\
      o_id (finalized p0 h id sg) = Some id /\
      o_signature (finalized p0 h id sg) = Some sg /\
      o_payloadSize (finalized p0 h id sg) = o_payloadSize (p_hdr p0) /\
      o_payloadChecksum (finalized p0 h id sg) = o_payloadChecksum (p_hdr p0) /\
      o_homomorphicHash (finalized p0 h id sg) = o_homomorphicHash (p_hdr p0)) /\
  (forall inputContainerID payload H0 st0' st0'',
      Onsite_shared script_sdk inputContainerID payload H0 st0' =
        (Ret (prepared9_shared, heap9), st0'') ->
      p_payload p0 = payload /\
      o_payloadChecksum (p_hdr p0) = Some (SHA256 (sha256_Sum256 script_sdk payload))).
Proof.
  apply (PreparedObject_Put_twice script_sdk prepared9_shared [("name", "a")] [("name", "b")]
           heap9 (st0 friendly) 0%nat).
  - reflexivity.
  - cbn. lia.
Defined.

(** The prepared object [Onsite] returns in an empty heap, put once:
    the call succeeds, and the prepared header, which had no attribute,
    has the attribute of the call afterwards. *)
Lemma PreparedObject_Put_rewrites_prepared_header :
  let run := PreparedObject_Put_shared script_sdk prepared9_shared [("name", "a")]
               heap9 (st0 friendly) in
  fst (Onsite_shared script_sdk "cnr" payload9 [] (st0 friendly)) =
    Ret (prepared9_shared, heap9) /\
  fst (fst run) = Ret (mkPutResponse true "namea" "") /\
  o_attributes (deref heap9 (pp_hdr prepared9_shared)) = [] /\
  o_attributes (deref (snd run) (pp_hdr prepared9_shared)) = [mkAttribute "name" "a"].
Proof. cbv zeta. repeat split; reflexivity. Qed.
